(** * NANO banking assistant: intent analysis, identity verification and
      dialogue control, embedded from [nano/agent.py], [nano/simple_agent.py],
      [nano/tools/identity.py], [nano/tools/database.py] and
      [nano/tools/support.py], with the chat endpoints of
      [app/api/endpoints/chat.py] and the input validation of
      [app/api/middleware/auth.py].

    Modelling conventions.
    - Text is ASCII: a Python [str] is a [string] of 7-bit characters, so
      [str.lower], [str.isdigit], [str.isalpha], [str.split] and the regular
      expression classes [\d], [\w], [\b] are their ASCII versions.
    - A Python [float] is an IEEE-754 binary64 number, modelled by the
      Standard Library's [spec_float] with precision 53 and maximal
      exponent 1024; the keyword scores are computed with the rounding
      multiplication [SFmul], as the interpreter does.
    - The SQL store is a record of tables (lists of rows in insertion
      order); a query's [.first()] is the first row that passes the filter.
      The store is assumed to be reachable: the only failing commit that is
      modelled is a constraint violation on the customers table.
    - [datetime.utcnow()] is an argument [now] (seconds since the epoch) of
      every operation that reads the clock, and the clock of the store
      ([func.now()]) reads the same; a fresh [uuid4] is an argument of
      the operation that draws it.
    - A dictionary with a fixed set of keys is a record; a key that may be
      absent is an [option] field.  Of the dictionaries the tools return,
      the entries the agent reads are kept.  Logging and printing are
      left out; of an audit row the [details] text, of a conversation row
      the [extra_data] text are left out. *)

From Stdlib Require Import ZArith Ascii String List Bool Lia Sorting.Sorted
  Sorting.Permutation.
From Stdlib Require Import Floats.SpecFloat.
From stdpp Require Import base option list strings gmap.

Import ListNotations.
Open Scope string_scope.

(** ** Python string operations on ASCII text *)

Module Py.

Definition ord (c : ascii) : nat := nat_of_ascii c.

Definition is_upper (c : ascii) : bool := (65 <=? ord c)%nat && (ord c <=? 90)%nat.
Definition is_lower (c : ascii) : bool := (97 <=? ord c)%nat && (ord c <=? 122)%nat.
Definition is_alpha (c : ascii) : bool := is_upper c || is_lower c.
Definition is_digit (c : ascii) : bool := (48 <=? ord c)%nat && (ord c <=? 57)%nat.

(** [\w] of the [re] module. *)
Definition is_word (c : ascii) : bool :=
  is_alpha c || is_digit c || Ascii.eqb c "_"%char.

(** The characters [str.split()] and [str.strip()] treat as blanks:
    tab, newline, vertical tab, form feed, carriage return, the four
    separators 28..31 and the space. *)
Definition is_space (c : ascii) : bool :=
  ((9 <=? ord c)%nat && (ord c <=? 13)%nat)
  || ((28 <=? ord c)%nat && (ord c <=? 32)%nat).

Definition to_lower (c : ascii) : ascii :=
  if is_upper c then ascii_of_nat (ord c + 32) else c.
Definition to_upper (c : ascii) : ascii :=
  if is_lower c then ascii_of_nat (ord c - 32) else c.

Fixpoint smap (f : ascii -> ascii) (s : string) : string :=
  match s with
  | EmptyString => EmptyString
  | String c s' => String (f c) (smap f s')
  end.

Fixpoint sall (p : ascii -> bool) (s : string) : bool :=
  match s with
  | EmptyString => true
  | String c s' => p c && sall p s'
  end.

Fixpoint sfilter (p : ascii -> bool) (s : string) : string :=
  match s with
  | EmptyString => EmptyString
  | String c s' => if p c then String c (sfilter p s') else sfilter p s'
  end.

Definition nonempty (s : string) : bool :=
  match s with EmptyString => false | _ => true end.

(** [s.lower()] *)
Definition lower (s : string) : string := smap to_lower s.

(** [s.isdigit()], [s.isalpha()]: false on the empty string.  These are
    the tests of ASCII text: beyond it [str.isdigit] accepts characters
    (superscript digits and the like) that the class [\d] of a pattern
    does not, so a property that compares the two is stated for
    [ascii_text] only. *)
Definition isdigit (s : string) : bool := nonempty s && sall is_digit s.
Definition isalpha (s : string) : bool := nonempty s && sall is_alpha s.

(** [s.startswith(p)] *)
Fixpoint startswith (p s : string) : bool :=
  match p, s with
  | EmptyString, _ => true
  | String a p', String b s' => Ascii.eqb a b && startswith p' s'
  | String _ _, EmptyString => false
  end.

(** [sub in s] *)
Fixpoint contains (sub s : string) : bool :=
  startswith sub s ||
  match s with
  | EmptyString => false
  | String _ s' => contains sub s'
  end.

(** [s.find(sub)]; [None] stands for Python's [-1]. *)
Fixpoint find (sub s : string) : option nat :=
  if startswith sub s then Some 0%nat
  else match s with
       | EmptyString => None
       | String _ s' => S <$> find sub s'
       end.

(** [s[n:]] *)
Fixpoint drop (n : nat) (s : string) : string :=
  match n, s with
  | O, _ => s
  | S n', String _ s' => drop n' s'
  | S _, EmptyString => EmptyString
  end.

(** [s[:n]] *)
Fixpoint prefix (n : nat) (s : string) : string :=
  match n, s with
  | S n', String c s' => String c (prefix n' s')
  | _, _ => EmptyString
  end.

(** [s[-n:]] *)
Definition last_chars (n : nat) (s : string) : string :=
  drop (String.length s - n) s.

(** The maximal runs of characters that are not separators.  [cur] is
    the run being read, in reverse. *)
Fixpoint runs_acc (sep : ascii -> bool) (cur : list ascii) (s : string)
    : list string :=
  let flush := match cur with
               | [] => []
               | _ => [string_of_list_ascii (rev cur)]
               end in
  match s with
  | EmptyString => flush
  | String c s' =>
      if sep c then flush ++ runs_acc sep [] s'
      else runs_acc sep (c :: cur) s'
  end.

(** [s.split()]: the maximal runs of non-blank characters. *)
Definition split (s : string) : list string := runs_acc is_space [] s.

(** The maximal prefix of characters in a class, and what follows it. *)
Fixpoint take_while (p : ascii -> bool) (s : string) : string :=
  match s with
  | String c s' => if p c then String c (take_while p s') else EmptyString
  | EmptyString => EmptyString
  end.
Fixpoint drop_while (p : ascii -> bool) (s : string) : string :=
  match s with
  | String c s' => if p c then drop_while p s' else s
  | EmptyString => EmptyString
  end.

(** [sep.join(l)] *)
Fixpoint join (sep : string) (l : list string) : string :=
  match l with
  | [] => ""
  | [x] => x
  | x :: l' => x +:+ sep +:+ join sep l'
  end.

Definition mem_char (c : ascii) (chars : string) : bool :=
  existsb (Ascii.eqb c) (list_ascii_of_string chars).

Fixpoint lstrip (chars : string) (s : string) : string :=
  match s with
  | String c s' => if mem_char c chars then lstrip chars s' else s
  | EmptyString => EmptyString
  end.

Definition srev (s : string) : string :=
  string_of_list_ascii (rev (list_ascii_of_string s)).

(** [s.strip(chars)] *)
Definition strip (chars : string) (s : string) : string :=
  srev (lstrip chars (srev (lstrip chars s))).

(** [s.strip()] *)
Fixpoint lstrip_ws (s : string) : string :=
  match s with
  | String c s' => if is_space c then lstrip_ws s' else s
  | EmptyString => EmptyString
  end.
Definition strip_ws (s : string) : string :=
  srev (lstrip_ws (srev (lstrip_ws s))).

(** [s.replace(c, '')] for a one-character [c]. *)
Definition remove_char (c : ascii) (s : string) : string :=
  sfilter (fun x => negb (Ascii.eqb x c)) s.

(** [s.title()]: a letter that follows a letter is lowered, any other
    letter is raised. *)
Fixpoint title_acc (prev_alpha : bool) (s : string) : string :=
  match s with
  | EmptyString => EmptyString
  | String c s' =>
      String (if prev_alpha then to_lower c else to_upper c)
             (title_acc (is_alpha c) s')
  end.
Definition title (s : string) : string := title_acc false s.

(** [x in l] for a list of strings. *)
Definition mem (x : string) (l : list string) : bool :=
  existsb (String.eqb x) l.

(** [sum(1 for kw in kws if kw in text)] *)
Definition count_hits (kws : list string) (text : string) : nat :=
  length (filter (fun kw => contains kw text = true) kws).

(** [any(kw in text for kw in kws)] *)
Definition any_hit (kws : list string) (text : string) : bool :=
  existsb (fun kw => contains kw text) kws.

(** A truthy string. *)
Definition truthy (o : option string) : bool :=
  match o with Some s => nonempty s | None => false end.

End Py.

(** ** The fragment of [re] the agent uses

    The three patterns of [_analyze_intent] are sequences of word
    boundaries and greedily repeated character classes.  [rep] tries the
    longest repetition first and gives characters back one at a time, as
    the backtracking matcher of [re] does. *)

Module Re.

Inductive item : Type :=
  | Boundary                                               (* \b *)
  | Rep (cls : ascii -> bool) (lo : nat) (hi : option nat). (* cls{lo,hi} *)

Definition pattern := list item.

Definition word_of (o : option ascii) : bool :=
  match o with Some c => Py.is_word c | None => false end.

Definition head_char (s : string) : option ascii :=
  match s with String c _ => Some c | EmptyString => None end.

(** [\b] between the previous character and the rest of the text. *)
Definition at_boundary (prev : option ascii) (s : string) : bool :=
  xorb (word_of prev) (word_of (head_char s)).

Definition may_take (hi : option nat) : bool :=
  match hi with Some O => false | _ => true end.

Definition dec (hi : option nat) : option nat :=
  match hi with Some n => Some (pred n) | None => None end.

Fixpoint rep (cls : ascii -> bool) (lo : nat) (hi : option nat)
    (k : option ascii -> string -> option string)
    (prev : option ascii) (s : string) {struct s} : option string :=
  let stop := match lo with O => k prev s | S _ => None end in
  match s with
  | String c s' =>
      if cls c && may_take hi then
        match rep cls (pred lo) (dec hi) k (Some c) s' with
        | Some r => Some (String c r)
        | None => stop
        end
      else stop
  | EmptyString => stop
  end.

(** The text matched by the pattern at the current position, if any. *)
Fixpoint match_here (p : pattern) (prev : option ascii) (s : string)
    : option string :=
  match p with
  | [] => Some ""
  | Boundary :: p' => if at_boundary prev s then match_here p' prev s else None
  | Rep cls lo hi :: p' => rep cls lo hi (match_here p') prev s
  end.

(** The leftmost match: [re.findall(p, s)[0]] when [re.findall(p, s)] is
    not empty (none of the patterns has a group). *)
Fixpoint search_from (p : pattern) (prev : option ascii) (s : string)
    : option string :=
  match match_here p prev s with
  | Some r => Some r
  | None =>
      match s with
      | EmptyString => None
      | String c s' => search_from p (Some c) s'
      end
  end.

Definition search (p : pattern) (s : string) : option string :=
  search_from p None s.

Definition lit (c : ascii) : item := Rep (Ascii.eqb c) 1 (Some 1%nat).
Definition one (cls : ascii -> bool) : item := Rep cls 1 (Some 1%nat).
Definition opt (cls : ascii -> bool) : item := Rep cls 0 (Some 1%nat).
Definition plus (cls : ascii -> bool) : item := Rep cls 1 None.
Definition at_least (n : nat) (cls : ascii -> bool) : item := Rep cls n None.
Definition exactly (n : nat) (cls : ascii -> bool) : item := Rep cls n (Some n).

Definition in_set (chars : string) (c : ascii) : bool := Py.mem_char c chars.

(** [r'\b\d{6,}\b'] *)
Definition account_pattern : pattern :=
  [Boundary; at_least 6 Py.is_digit; Boundary].

(** [r'\b\d{3}[-.]?\d{3}[-.]?\d{4}\b'] *)
Definition phone_pattern : pattern :=
  [Boundary; exactly 3 Py.is_digit; opt (in_set "-.");
   exactly 3 Py.is_digit; opt (in_set "-."); exactly 4 Py.is_digit; Boundary].

(** [r'\b[A-Za-z0-9._%+-]+@[A-Za-z0-9.-]+\.[A-Z|a-z]{2,}\b'] *)
Definition email_pattern : pattern :=
  [Boundary;
   plus (fun c => Py.is_alpha c || Py.is_digit c || in_set "._%+-" c);
   lit "@";
   plus (fun c => Py.is_alpha c || Py.is_digit c || in_set ".-" c);
   lit ".";
   at_least 2 (fun c => Py.is_alpha c || in_set "|" c);
   Boundary].

End Re.

(** ** Python floats (IEEE-754 binary64) *)

Module F64.

Definition prec : Z := 53.
Definition emax : Z := 1024.

Definition float := spec_float.

(** [float(n)] for an integer [n]. *)
Definition of_Z (n : Z) : float := binary_normalize prec emax n 0 false.
Definition of_nat (n : nat) : float := of_Z (Z.of_nat n).

Definition mul : float -> float -> float := SFmul prec emax.
Definition div : float -> float -> float := SFdiv prec emax.
Definition ltb : float -> float -> bool := SFltb.
Definition eqb : float -> float -> bool := SFeqb.

(** The decimal literal [n/d], read as the interpreter reads it: the
    binary64 number nearest to the quotient ([0.3] is [lit 3 10]). *)
Definition lit (n d : Z) : float := div (of_Z n) (of_Z d).

(** A positive finite number: every score of the classifier is one. *)
Definition pos_finite (x : float) : bool :=
  match x with S754_finite false _ _ => true | _ => false end.

(** [x + y], [x - y] and the literal [0]. *)
Definition add : float -> float -> float := SFadd prec emax.
Definition sub : float -> float -> float := SFsub prec emax.
Definition zero : float := S754_zero false.

Definition is_nan (x : float) : bool :=
  match x with S754_nan => true | _ => false end.

End F64.

(** ** Intent analysis: [_analyze_intent] *)

Record Entities : Type := mkEntities {
  account_number : option string;
  update_field : option string;
  new_email : option string;
  new_phone : option string
}.

Definition scored : Type := (string * F64.float)%type.

Record IntentAnalysis : Type := mkAnalysis {
  primary_intent : string;
  confidence : F64.float;
  all_intents : list scored;
  entities : Entities
}.

Module Intent.

(** [intents.sort(key=lambda x: x[1], reverse=True)]: a stable sort by
    descending score.  [insert_desc x l] puts [x] in front of the first
    entry whose score is not above the score of [x], so an entry stays in
    front of the later entries it ties with. *)
Fixpoint insert_desc (x : scored) (l : list scored) : list scored :=
  match l with
  | [] => [x]
  | y :: l' =>
      if F64.ltb (snd x) (snd y) then y :: insert_desc x l'
      else x :: y :: l'
  end.

Definition sort_desc (l : list scored) : list scored :=
  foldr insert_desc [] l.

Definition identity_keywords : list string :=
  ["verify"; "identity"; "login"; "authenticate"; "who am i"; "my name"].
Definition balance_keywords : list string :=
  ["balance"; "how much"; "account total"; "money"; "funds"; "available";
   "checking"; "savings"].
Definition transaction_keywords : list string :=
  ["history"; "transactions"; "recent"; "statements"; "spent"; "charges";
   "deposits"; "withdrawals"; "activity"].
Definition update_keywords : list string :=
  ["update"; "change"; "modify"; "new"; "correct"].
Definition contact_keywords : list string :=
  ["address"; "phone"; "email"; "number"; "contact"].
Definition help_keywords : list string :=
  ["help"; "how"; "what"; "explain"; "support"; "assist"; "can you"].
Definition escalation_keywords : list string :=
  ["human"; "representative"; "manager"; "escalate"; "complain";
   "supervisor"; "agent"; "person"; "speak to"].
Definition greeting_keywords : list string :=
  ["hello"; "hi"; "good morning"; "good afternoon"; "good evening"; "hey";
   "greetings"].

(** [if score > 0: intents.append((name, score * weight))] *)
Definition keyword_entry (name : string) (score : nat) (weight : F64.float)
    : list scored :=
  if (0 <? score)%nat then [(name, F64.mul (F64.of_nat score) weight)] else [].

Definition identity_entry (message_lower : string) : list scored :=
  keyword_entry "identity_verification"
    (Py.count_hits identity_keywords message_lower) (F64.lit 3 10).

Definition account_matches (message : string) : option string :=
  Re.search Re.account_pattern message.

Definition account_entry (message : string) : list scored :=
  match account_matches message with
  | Some _ => [("identity_verification", F64.lit 5 10)]
  | None => []
  end.

Definition balance_entry (message_lower : string) : list scored :=
  keyword_entry "balance_inquiry"
    (Py.count_hits balance_keywords message_lower) (F64.lit 4 10).

Definition transaction_entry (message_lower : string) : list scored :=
  keyword_entry "transaction_history"
    (Py.count_hits transaction_keywords message_lower) (F64.lit 35 100).

Definition update_wanted (message_lower : string) : bool :=
  (0 <? Py.count_hits update_keywords message_lower)%nat
  || (0 <? Py.count_hits contact_keywords message_lower)%nat.

Definition update_entry (message_lower : string) : list scored :=
  if update_wanted message_lower then
    [("update_information",
      F64.mul (F64.of_nat (Py.count_hits update_keywords message_lower
                           + Py.count_hits contact_keywords message_lower))
              (F64.lit 3 10))]
  else [].

Definition help_entry (message_lower : string) : list scored :=
  keyword_entry "general_support"
    (Py.count_hits help_keywords message_lower) (F64.lit 2 10).

Definition escalation_entry (message_lower : string) : list scored :=
  keyword_entry "escalation"
    (Py.count_hits escalation_keywords message_lower) (F64.lit 5 10).

Definition greeting_entry (message_lower : string) : list scored :=
  if Py.any_hit greeting_keywords message_lower
     && (length (Py.split message_lower) <? 10)%nat
  then [("greeting", F64.lit 8 10)] else [].

(** The entities, as the three [if] blocks under the update patterns
    leave them: a later block overwrites [update_field]. *)
Definition extract_entities (message : string) : Entities :=
  let message_lower := Py.lower message in
  let upd := update_wanted message_lower in
  let has_email := upd && Py.contains "email" message_lower in
  let has_phone := upd && (Py.contains "phone" message_lower
                           || Py.contains "number" message_lower) in
  let has_address := upd && Py.contains "address" message_lower in
  {| account_number := account_matches message;
     update_field :=
       if has_address then Some "address"
       else if has_phone then Some "phone"
       else if has_email then Some "email"
       else None;
     new_email := if has_email then Re.search Re.email_pattern message else None;
     new_phone := if has_phone then Re.search Re.phone_pattern message else None |}.

(** The two agents differ in the file/document block only, which is the
    parameter [file_entry]. *)
Definition candidates (file_entry : string -> list scored) (message : string)
    : list scored :=
  let message_lower := Py.lower message in
  identity_entry message_lower
  ++ account_entry message
  ++ balance_entry message_lower
  ++ transaction_entry message_lower
  ++ update_entry message_lower
  ++ file_entry message_lower
  ++ help_entry message_lower
  ++ escalation_entry message_lower
  ++ greeting_entry message_lower.

Definition analyze (file_entry : string -> list scored) (message : string)
    : IntentAnalysis :=
  let intents := sort_desc (candidates file_entry message) in
  {| primary_intent :=
       match intents with (name, _) :: _ => name | [] => "general_inquiry" end;
     confidence :=
       match intents with (_, score) :: _ => score | [] => F64.lit 1 10 end;
     all_intents := intents;
     entities := extract_entities message |}.

End Intent.

Module NANOAgentIntent.

Definition file_keywords : list string :=
  ["upload"; "document"; "file"; "statement"; "download"; "pdf";
   "attachment"; "scan"; "image"; "photo"].
Definition ocr_keywords : list string :=
  ["read"; "extract"; "text"; "ocr"; "analyze"; "check"; "receipt"].

Definition file_entry (message_lower : string) : list scored :=
  let file_score := Py.count_hits file_keywords message_lower in
  let ocr_score := Py.count_hits ocr_keywords message_lower in
  if (0 <? file_score)%nat || (0 <? ocr_score)%nat then
    if (0 <? ocr_score)%nat then
      [("document_ocr", F64.mul (F64.of_nat (file_score + ocr_score)) (F64.lit 4 10))]
    else
      [("file_management", F64.mul (F64.of_nat file_score) (F64.lit 35 100))]
  else [].

(** [NANOAgent._analyze_intent] *)
Definition _analyze_intent (message : string) : IntentAnalysis :=
  Intent.analyze file_entry message.

End NANOAgentIntent.

Module SimpleNANOAgentIntent.

Definition file_keywords : list string :=
  ["upload"; "document"; "file"; "statement"; "download"; "pdf"; "attachment"].

Definition file_entry (message_lower : string) : list scored :=
  Intent.keyword_entry "file_management"
    (Py.count_hits file_keywords message_lower) (F64.lit 35 100).

(** [SimpleNANOAgent._analyze_intent] *)
Definition _analyze_intent (message : string) : IntentAnalysis :=
  Intent.analyze file_entry message.

End SimpleNANOAgentIntent.

(** ** Formatting numbers and dates *)

Module Fmt.

Local Open Scope Z_scope.

Definition digit_char (d : Z) : ascii := ascii_of_nat (48 + Z.to_nat d)%nat.

(** The decimal digits of a natural number, most significant first. *)
Fixpoint digits_fuel (fuel : nat) (n : Z) (acc : string) : string :=
  match fuel with
  | O => acc
  | S fuel' =>
      let acc' := String (digit_char (n mod 10)%Z) acc in
      if (n <? 10)%Z then acc' else digits_fuel fuel' (n / 10)%Z acc'
  end.

Definition decimal (n : Z) : string :=
  digits_fuel (S (Z.to_nat (Z.log2 n))) n "".

(** ["%02d"] and ["%04d"] on a natural number. *)
Definition pad (width : nat) (n : Z) : string :=
  let s := decimal n in
  string_of_list_ascii (repeat "0"%char (width - String.length s)%nat) +:+ s.

(** [n * 2^e] rounded to the nearest integer, ties to even. *)
Definition round_scaled (n e : Z) : Z :=
  (if 0 <=? e then n * 2 ^ e
   else
     let d := 2 ^ (- e) in
     let q := n / d in
     let r := n mod d in
     match 2 * r ?= d with
     | Lt => q
     | Gt => q + 1
     | Eq => if Z.even q then q else q + 1
     end)%Z.

(** [f"{x:.2f}"]: the exact binary value, rounded to two decimals. *)
Definition format_2f (x : F64.float) : string :=
  match x with
  | S754_nan => "nan"
  | S754_infinity s => if s then "-inf" else "inf"
  | S754_zero s => if s then "-0.00" else "0.00"
  | S754_finite s m e =>
      let q := round_scaled (Z.pos m * 100) e in
      (if s then "-" else "") +:+ decimal (q / 100) +:+ "." +:+ pad 2 (q mod 100)
  end.

(** The civil date of a day number counted from 1970-01-01. *)
Definition civil_from_days (z : Z) : Z * Z * Z :=
  let z := z + 719468 in
  let era := z / 146097 in
  let doe := z - era * 146097 in
  let yoe := (doe - doe / 1460 + doe / 36524 - doe / 146096) / 365 in
  let doy := doe - (365 * yoe + yoe / 4 - yoe / 100) in
  let mp := (5 * doy + 2) / 153 in
  let d := doy - (153 * mp + 2) / 5 + 1 in
  let m := if (mp <? 10)%Z then mp + 3 else mp - 9 in
  let y := yoe + era * 400 + (if (m <=? 2)%Z then 1 else 0) in
  (y, m, d).

(** [t.strftime('%Y%m%d')] for a time [t] in seconds since the epoch. *)
Definition strftime_Ymd (t : Z) : string :=
  let '(y, m, d) := civil_from_days (t / 86400) in
  pad 4 y +:+ pad 2 m +:+ pad 2 d.

(** [t.strftime("%Y-%m-%d %H:%M:%S")] *)
Definition strftime_full (t : Z) : string :=
  let '(y, m, d) := civil_from_days (t / 86400) in
  let s := t mod 86400 in
  pad 4 y +:+ "-" +:+ pad 2 m +:+ "-" +:+ pad 2 d +:+ " "
  +:+ pad 2 (s / 3600) +:+ ":" +:+ pad 2 (s mod 3600 / 60) +:+ ":" +:+ pad 2 (s mod 60).

End Fmt.

(** ** The relational store: [app/database.py] *)

Module Customer.
Record t : Type := mk {
  customer_id : string;
  full_name : string;
  account_number : string;
  email : string;
  phone : option string;
  address : option string;
  security_question : string;
  security_answer : string;
  account_balance : F64.float;
  account_status : string;
  updated_at : option Z;
  is_verified : bool;
  login_attempts : Z;
  last_login : option Z
}.

Definition with_login_attempts (n : Z) (c : t) : t :=
  mk (customer_id c) (full_name c) (account_number c) (email c) (phone c)
     (address c) (security_question c) (security_answer c) (account_balance c)
     (account_status c) (updated_at c) (is_verified c) n (last_login c).

(** [customer.login_attempts += 1] and the commit.  The UPDATE of a
    customer row stamps [updated_at] (the column's [onupdate]). *)
Definition failed_attempt (now : Z) (c : t) : t :=
  mk (customer_id c) (full_name c) (account_number c) (email c) (phone c)
     (address c) (security_question c) (security_answer c) (account_balance c)
     (account_status c) (Some now) (is_verified c) (login_attempts c + 1)%Z
     (last_login c).

(** The three assignments of a successful verification, committed. *)
Definition logged_in (now : Z) (c : t) : t :=
  mk (customer_id c) (full_name c) (account_number c) (email c) (phone c)
     (address c) (security_question c) (security_answer c) (account_balance c)
     (account_status c) (Some now) true 0%Z (Some now).

Definition with_email (v : string) (c : t) : t :=
  mk (customer_id c) (full_name c) (account_number c) v (phone c)
     (address c) (security_question c) (security_answer c) (account_balance c)
     (account_status c) (updated_at c) (is_verified c) (login_attempts c)
     (last_login c).

Definition with_phone (v : string) (c : t) : t :=
  mk (customer_id c) (full_name c) (account_number c) (email c) (Some v)
     (address c) (security_question c) (security_answer c) (account_balance c)
     (account_status c) (updated_at c) (is_verified c) (login_attempts c)
     (last_login c).

Definition with_address (v : string) (c : t) : t :=
  mk (customer_id c) (full_name c) (account_number c) (email c) (phone c)
     (Some v) (security_question c) (security_answer c) (account_balance c)
     (account_status c) (updated_at c) (is_verified c) (login_attempts c)
     (last_login c).

Definition with_updated_at (now : Z) (c : t) : t :=
  mk (customer_id c) (full_name c) (account_number c) (email c) (phone c)
     (address c) (security_question c) (security_answer c) (account_balance c)
     (account_status c) (Some now) (is_verified c) (login_attempts c)
     (last_login c).

(** [customer.account_balance = b; customer.updated_at = now] *)
Definition with_account_balance (b : F64.float) (now : Z) (c : t) : t :=
  mk (customer_id c) (full_name c) (account_number c) (email c) (phone c)
     (address c) (security_question c) (security_answer c) b
     (account_status c) (Some now) (is_verified c) (login_attempts c)
     (last_login c).
End Customer.

Module Transaction.
Record t : Type := mk {
  transaction_id : string;
  customer_id : string;
  amount : F64.float;
  transaction_type : string;
  description : option string;
  balance_after : F64.float;
  created_at : Z;
  status : string
}.
End Transaction.

Module DBSession.
Record t : Type := mk {
  session_id : string;
  customer_id : option string;
  is_verified : bool;
  created_at : Z;
  last_activity : Z;
  status : string
}.
End DBSession.

Module AuditLog.
(** The [details] text of an entry is not kept. *)
Record t : Type := mk {
  session_id : string;
  customer_id : option string;
  action : string;
  status : string;
  timestamp : Z
}.
End AuditLog.

Module Conversation.
(** [extra_data], the JSON rendering of the reply's metadata, is not kept. *)
Record t : Type := mk {
  session_id : string;
  customer_id : option string;
  role : string;
  message : string;
  created_at : Z
}.
End Conversation.

Module DB.
Record t : Type := mk {
  customers : list Customer.t;
  transactions : list Transaction.t;
  sessions : list DBSession.t;
  audit_logs : list AuditLog.t;
  conversations : list Conversation.t
}.

Definition with_customers (cs : list Customer.t) (db : t) : t :=
  mk cs (transactions db) (sessions db) (audit_logs db) (conversations db).
Definition with_sessions (ss : list DBSession.t) (db : t) : t :=
  mk (customers db) (transactions db) ss (audit_logs db) (conversations db).
Definition with_audit_logs (ls : list AuditLog.t) (db : t) : t :=
  mk (customers db) (transactions db) (sessions db) ls (conversations db).
Definition with_conversations (cs : list Conversation.t) (db : t) : t :=
  mk (customers db) (transactions db) (sessions db) (audit_logs db) cs.

Definition with_transactions (ts : list Transaction.t) (db : t) : t :=
  mk (customers db) ts (sessions db) (audit_logs db) (conversations db).

(** [query.filter(...).first()] *)
Definition first {A} (p : A -> bool) (rows : list A) : option A :=
  List.find p rows.

(** An assignment to the attributes of the row [first p rows] returned,
    written back by the next commit. *)
Fixpoint update_first {A} (p : A -> bool) (f : A -> A) (rows : list A)
    : list A :=
  match rows with
  | [] => []
  | r :: rows' => if p r then f r :: rows' else r :: update_first p f rows'
  end.

(** [_log_audit]: one more row in the audit trail. *)
Definition log_audit (now : Z) (session_id : string)
    (customer_id : option string) (action status : string) (db : t) : t :=
  with_audit_logs
    (audit_logs db ++ [AuditLog.mk session_id customer_id action status now]) db.

End DB.

(** ** SQL [LIKE], as SQLite evaluates it: [%] stands for any run of
    characters, [_] for any one character, and there is no escape
    character. *)

Module Sql.

Fixpoint like (p : string) : string -> bool :=
  match p with
  | EmptyString => fun s => negb (Py.nonempty s)
  | String c p' =>
      if Ascii.eqb c "%" then
        fix star (s : string) : bool :=
          like p' s
          || match s with
             | EmptyString => false
             | String _ s' => star s'
             end
      else if Ascii.eqb c "_" then
        fun s => match s with
                 | EmptyString => false
                 | String _ s' => like p' s'
                 end
      else
        fun s => match s with
                 | EmptyString => false
                 | String d s' => Ascii.eqb c d && like p' s'
                 end
  end.

(** [column.ilike(p)]: [lower(column) LIKE lower(p)]. *)
Definition ilike (column p : string) : bool :=
  like (Py.lower p) (Py.lower column).

End Sql.

(** ** Identity verification: [nano/tools/identity.py] *)

Module IdentityVerificationTools.

(** The dictionary [verify_customer_identity] returns; a key the source
    leaves out is [None]. *)
Record result : Type := mk_result {
  verified : bool;
  message : string;
  requires_security_question : option bool;
  customer_id : option string;
  remaining_attempts : option Z;
  customer_name : option string
}.

(** The filter of the customer query: the account number is compared
    exactly, the name through [ilike] with a wildcard on both sides. *)
Definition name_matches (full_name : string) (c : Customer.t) : bool :=
  Sql.ilike (Customer.full_name c) ("%" +:+ full_name +:+ "%").

Definition customer_matches (full_name account_number : string)
    (c : Customer.t) : bool :=
  String.eqb (Customer.account_number c) account_number
  && name_matches full_name c.

Definition find_customer (db : DB.t) (full_name account_number : string)
    : option Customer.t :=
  DB.first (customer_matches full_name account_number) (DB.customers db).

(** [_verify_security_answer] *)
Definition _verify_security_answer (stored_answer provided_answer : string)
    : bool :=
  String.eqb (Py.strip_ws (Py.lower stored_answer))
             (Py.strip_ws (Py.lower provided_answer)).

Definition session_row (session_id : string) (r : DBSession.t) : bool :=
  String.eqb (DBSession.session_id r) session_id.

Definition bind_session (now : Z) (customer_id : string) (r : DBSession.t)
    : DBSession.t :=
  DBSession.mk (DBSession.session_id r) (Some customer_id) true
               (DBSession.created_at r) now (DBSession.status r).

Definition verify_customer_identity (db : DB.t) (now : Z)
    (session_id full_name account_number : string)
    (security_answer : option string) : DB.t * result :=
  let this := customer_matches full_name account_number in
  match find_customer db full_name account_number with
  | None =>
      (DB.log_audit now session_id None "identity_verification" "failed" db,
       mk_result false
         "Customer information not found. Please check your details or visit a branch."
         (Some false) None None None)
  | Some customer =>
      let cid := Customer.customer_id customer in
      if negb (String.eqb (Customer.account_status customer) "active") then
        (DB.log_audit now session_id (Some cid) "identity_verification" "failed" db,
         mk_result false
           "Account is not active. Please contact customer service."
           (Some false) None None None)
      else if (3 <=? Customer.login_attempts customer)%Z then
        (DB.log_audit now session_id (Some cid) "identity_verification" "failed" db,
         mk_result false
           "Too many failed verification attempts. Please visit a branch."
           (Some false) None None None)
      else if negb (Py.truthy security_answer) then
        (db,
         mk_result false
           ("Please answer your security question: "
            +:+ Customer.security_question customer)
           (Some true) (Some cid) None None)
      else if negb (_verify_security_answer (Customer.security_answer customer)
                      (default "" security_answer)) then
        let db1 :=
          DB.with_customers
            (DB.update_first this (Customer.failed_attempt now)
               (DB.customers db)) db in
        (DB.log_audit now session_id (Some cid) "identity_verification" "failed" db1,
         mk_result false "Incorrect security answer. Please try again."
           (Some true) None
           (Some (3 - (Customer.login_attempts customer + 1))%Z) None)
      else
        let db1 :=
          DB.with_customers
            (DB.update_first this (Customer.logged_in now) (DB.customers db)) db in
        let db2 :=
          DB.with_sessions
            (DB.update_first (session_row session_id) (bind_session now cid)
               (DB.sessions db1)) db1 in
        (DB.log_audit now session_id (Some cid) "identity_verification" "success" db2,
         mk_result true
           ("Identity verified successfully. Welcome, "
            +:+ Customer.full_name customer +:+ "!")
           None (Some cid) None (Some (Customer.full_name customer)))
  end.

End IdentityVerificationTools.

(** ** Account operations: [nano/tools/database.py] *)

Module DatabaseOperationTools.

Record update_result : Type := mk_update_result {
  u_success : bool;
  u_message : string;
  updated_fields : option (list string);
  u_customer_name : option string
}.

Definition updatable_fields : list string := ["email"; "phone"; "address"].

Definition has_id (customer_id : string) (c : Customer.t) : bool :=
  String.eqb (Customer.customer_id c) customer_id.

(** [setattr(customer, field, value)] for an updatable field. *)
Definition setattr (field value : string) (c : Customer.t) : Customer.t :=
  if String.eqb field "email" then Customer.with_email value c
  else if String.eqb field "phone" then Customer.with_phone value c
  else if String.eqb field "address" then Customer.with_address value c
  else c.

(** The loop over [updates.items()]: the customer after the assignments,
    and whether [updated_fields] received an entry. *)
Fixpoint apply_updates (updates : list (string * string)) (c : Customer.t)
    : Customer.t * bool :=
  match updates with
  | [] => (c, false)
  | (field, value) :: rest =>
      if Py.mem field updatable_fields then
        (fst (apply_updates rest (setattr field value c)), true)
      else apply_updates rest c
  end.

(** The [UNIQUE] constraint on [customers.email]: the commit of a changed
    address fails when it is the address of another row.  The text of the
    exception is abbreviated. *)
Fixpoint email_taken (customer_id new_email : string) (rows : list Customer.t)
    : bool :=
  match rows with
  | [] => false
  | r :: rows' =>
      if has_id customer_id r then
        existsb (fun r' => String.eqb (Customer.email r') new_email) rows'
      else
        String.eqb (Customer.email r) new_email
        || email_taken customer_id new_email rows'
  end.

Definition update_customer_record (db : DB.t) (now : Z)
    (session_id customer_id : string) (updates : list (string * string))
    : DB.t * update_result :=
  match DB.first (has_id customer_id) (DB.customers db) with
  | None => (db, mk_update_result false "Customer not found" None None)
  | Some customer =>
      let '(customer', touched) := apply_updates updates customer in
      if negb touched then
        (db, mk_update_result false "No valid fields to update" None None)
      else if negb (String.eqb (Customer.email customer') (Customer.email customer))
              && email_taken customer_id (Customer.email customer') (DB.customers db) then
        (* IntegrityError at the commit: rollback *)
        (DB.log_audit now session_id (Some customer_id) "update_customer_record"
           "failed" db,
         mk_update_result false
           "Update failed: UNIQUE constraint failed: customers.email" None None)
      else
        let db1 :=
          DB.with_customers
            (DB.update_first (has_id customer_id)
               (fun _ => Customer.with_updated_at now customer')
               (DB.customers db)) db in
        (DB.log_audit now session_id (Some customer_id) "update_customer_record"
           "success" db1,
         mk_update_result true "Customer record updated successfully"
           (Some (map fst updates)) (Some (Customer.full_name customer')))
  end.

Record balance_result : Type := mk_balance_result {
  b_success : bool;
  b_message : string;
  b_customer_name : option string;
  b_account_number : option string;
  current_balance : F64.float;
  balance_status : option string
}.

Definition active_with_id (customer_id : string) (c : Customer.t) : bool :=
  has_id customer_id c && String.eqb (Customer.account_status c) "active".

Definition of_customer (customer_id : string) (t : Transaction.t) : bool :=
  String.eqb (Transaction.customer_id t) customer_id.

(** [order_by(desc(Transaction.created_at))]: newest first, rows of the
    same instant in table order. *)
Fixpoint insert_newest (t : Transaction.t) (l : list Transaction.t)
    : list Transaction.t :=
  match l with
  | [] => [t]
  | u :: l' =>
      if (Transaction.created_at t <? Transaction.created_at u)%Z
      then u :: insert_newest t l'
      else t :: u :: l'
  end.
Definition newest_first (l : list Transaction.t) : list Transaction.t :=
  foldr insert_newest [] l.

Definition query_account_balance (db : DB.t) (now : Z)
    (session_id customer_id : string) : DB.t * balance_result :=
  match DB.first (active_with_id customer_id) (DB.customers db) with
  | None =>
      (db, mk_balance_result false "Customer account not found or inactive"
             None None (S754_zero false) None)
  | Some customer =>
      let last_transaction :=
        head (newest_first
                (List.filter (of_customer customer_id) (DB.transactions db))) in
      let balance_verification :=
        match last_transaction with
        | Some t =>
            if F64.eqb (Transaction.balance_after t)
                       (Customer.account_balance customer)
            then "verified" else "needs_reconciliation"
        | None => "verified"
        end in
      (DB.log_audit now session_id (Some customer_id) "query_account_balance"
         "success" db,
       mk_balance_result true ""
         (Some (Customer.full_name customer))
         (Some (Customer.account_number customer))
         (Customer.account_balance customer)
         (Some balance_verification))
  end.

(** One entry of the [transactions] list of [transaction_history]. *)
Record txn_view : Type := mk_txn_view {
  v_date : string;
  v_type : string;
  v_amount : F64.float;
  v_description : option string
}.

Record history_result : Type := mk_history_result {
  h_success : bool;
  h_transactions : list txn_view;
  total_transactions : nat
}.

Definition view (t : Transaction.t) : txn_view :=
  mk_txn_view (Fmt.strftime_full (Transaction.created_at t))
              (Transaction.transaction_type t) (Transaction.amount t)
              (Transaction.description t).

Definition transaction_history (db : DB.t) (now : Z)
    (session_id customer_id : string) (limit : nat) (days : Z)
    : DB.t * history_result :=
  let start_date := (now - days * 86400)%Z in
  let transactions :=
    take limit
      (newest_first
         (List.filter
            (fun t => of_customer customer_id t
                      && (start_date <=? Transaction.created_at t)%Z)
            (DB.transactions db))) in
  let transaction_list := map view transactions in
  (DB.log_audit now session_id (Some customer_id) "transaction_history"
     "success" db,
   mk_history_result true transaction_list (length transaction_list)).

(** [update_contact_info]: the dictionary of the fields that were given,
    handed to [update_customer_record]. *)
Definition contact_updates (email phone address : option string)
    : list (string * string) :=
  (match email with Some v => [("email", v)] | None => [] end)
  ++ (match phone with Some v => [("phone", v)] | None => [] end)
  ++ (match address with Some v => [("address", v)] | None => [] end).

Definition update_contact_info (db : DB.t) (now : Z)
    (session_id customer_id : string) (email phone address : option string)
    : DB.t * update_result :=
  match DB.first (has_id customer_id) (DB.customers db) with
  | None => (db, mk_update_result false "Customer not found" None None)
  | Some _ =>
      match contact_updates email phone address with
      | [] =>
          (db, mk_update_result false
                 "No contact information provided to update" None None)
      | updates => update_customer_record db now session_id customer_id updates
      end
  end.

(** Of the dictionary [create_transaction] returns, the entries that do
    not repeat an argument. *)
Record transaction_result : Type := mk_transaction_result {
  t_success : bool;
  t_message : string;
  t_transaction_id : option string;
  new_balance : option F64.float
}.

Definition has_transaction_id (transaction_id : string) (t : Transaction.t)
    : bool :=
  String.eqb (Transaction.transaction_id t) transaction_id.

(** The constraints the INSERT of the transaction can violate:
    [transaction_id] is UNIQUE, [amount] and [balance_after] are NOT NULL
    (SQLite stores a NaN as NULL).  The text of the exception is
    abbreviated. *)
Definition insert_violation (transaction_id : string)
    (amount balance_after : F64.float) (rows : list Transaction.t)
    : option string :=
  if F64.is_nan amount then
    Some "NOT NULL constraint failed: transactions.amount"
  else if F64.is_nan balance_after then
    Some "NOT NULL constraint failed: transactions.balance_after"
  else if existsb (has_transaction_id transaction_id) rows then
    Some "UNIQUE constraint failed: transactions.transaction_id"
  else None.

(** [create_transaction]; [transaction_id] is the [uuid4] it draws. *)
Definition create_transaction (db : DB.t) (now : Z) (transaction_id : string)
    (session_id customer_id : string) (amount : F64.float)
    (transaction_type description : string) : DB.t * transaction_result :=
  let refuse text := (db, mk_transaction_result false text None None) in
  match DB.first (active_with_id customer_id) (DB.customers db) with
  | None => refuse "Customer account not found or inactive"
  | Some customer =>
      let commit balance :=
        match insert_violation transaction_id amount balance
                (DB.transactions db) with
        | Some e =>
            (* the commit fails: rollback *)
            (DB.log_audit now session_id (Some customer_id) "create_transaction"
               "failed" db,
             mk_transaction_result false ("Transaction failed: " +:+ e) None None)
        | None =>
            let db1 :=
              DB.with_customers
                (DB.update_first (active_with_id customer_id)
                   (Customer.with_account_balance balance now)
                   (DB.customers db)) db in
            let db2 :=
              DB.with_transactions
                (DB.transactions db1
                 ++ [Transaction.mk transaction_id customer_id amount
                       transaction_type (Some description) balance now
                       "completed"]) db1 in
            (DB.log_audit now session_id (Some customer_id) "create_transaction"
               "success" db2,
             mk_transaction_result true "Transaction completed successfully"
               (Some transaction_id) (Some balance))
        end in
      if String.eqb transaction_type "credit" then
        commit (F64.add (Customer.account_balance customer) amount)
      else if String.eqb transaction_type "debit" then
        let balance := F64.sub (Customer.account_balance customer) amount in
        if F64.ltb balance F64.zero then
          refuse "Insufficient funds for this transaction"
        else commit balance
      else refuse "Invalid transaction type. Must be 'credit' or 'debit'"
  end.

End DatabaseOperationTools.

(** ** General support: [nano/tools/support.py] *)

Module GeneralSupportTools.

Record kb_entry : Type := mk_kb {
  category : string;
  topic : string;
  information : string;
  steps : list string;
  requirements : list string
}.

(** [_load_banking_knowledge], in the order of the dictionary. *)
Definition knowledge_base : list kb_entry := [
  mk_kb "account_services" "Account Balance Inquiry"
    "Check your current account balance and recent transactions."
    ["Verify identity"; "Access account information"; "Display balance"]
    ["Valid ID"; "Security verification"];
  mk_kb "account_services" "Account Statements"
    "View and download monthly account statements."
    ["Log in to account"; "Navigate to statements"; "Select date range"; "Download PDF"]
    ["Account access"; "Identity verification"];
  mk_kb "account_services" "Update Contact Information"
    "Change your address, phone number, or email address."
    ["Verify identity"; "Provide new information"; "Confirm changes"]
    ["Identity verification"; "Valid contact details"];
  mk_kb "transactions" "Transfer Funds"
    "Transfer money between your accounts or to external accounts."
    ["Verify identity"; "Select accounts"; "Enter amount"; "Confirm transfer"]
    ["Sufficient funds"; "Valid recipient account"];
  mk_kb "transactions" "Transaction History"
    "View your recent transaction history and details."
    ["Access account"; "Select date range"; "View transactions"]
    ["Account access"];
  mk_kb "transactions" "Stop Payment"
    "Stop payment on a check or recurring transaction."
    ["Provide check/transaction details"; "Pay stop payment fee"; "Confirm request"]
    ["Valid reason"; "Transaction details"; "Fee payment"];
  mk_kb "security" "Password Reset"
    "Reset your online banking password securely."
    ["Verify identity"; "Set new password"; "Confirm changes"]
    ["Identity verification"; "Strong password"];
  mk_kb "security" "Account Security"
    "Information about keeping your account secure."
    ["Use strong passwords"; "Monitor statements"; "Report suspicious activity"]
    ["Regular monitoring"; "Secure practices"];
  mk_kb "security" "Fraud Reporting"
    "Report suspected fraudulent activity on your account."
    ["Contact bank immediately"; "Provide transaction details"; "Complete fraud affidavit"]
    ["Immediate action"; "Documentation"];
  mk_kb "general" "Branch Locations"
    "Find Bank Of AI branches and ATM locations near you."
    ["Use branch locator"; "Check hours"; "Plan visit"]
    ["Location information"];
  mk_kb "general" "Contact Information"
    "Get contact information for different banking services."
    ["Select service type"; "Choose contact method"]
    ["Service identification"];
  mk_kb "general" "Banking Hours"
    "Bank operating hours and holiday schedule."
    ["Check regular hours"; "Verify holiday schedule"]
    ["None"]
].

Definition fallback_entry : kb_entry :=
  mk_kb "account_services" "Account Balance Inquiry"
    "I can help you check your account balance after verifying your identity."
    ["Provide full name and account number"; "Answer security question";
     "View current balance"]
    ["Valid identification"; "Security verification"].

Record kb_result : Type := mk_kb_result {
  kb_success : bool;
  results : list kb_entry
}.

Definition banking_knowledge_base (db : DB.t) (now : Z) (session_id : string)
    (customer_id : option string) (query : string) : DB.t * kb_result :=
  let query_lower := Py.lower query in
  let relevant_info :=
    List.filter
      (fun e => Py.any_hit (Py.split (Py.lower (topic e))) query_lower)
      knowledge_base in
  let relevant_info :=
    match relevant_info with
    | [] => if Py.any_hit ["balance"; "account"] query_lower
            then [fallback_entry] else []
    | _ => relevant_info
    end in
  (DB.log_audit now session_id customer_id "banking_knowledge_base" "success" db,
   mk_kb_result true relevant_info).

Record escalation_result : Type := mk_escalation_result {
  e_success : bool;
  e_message : string;
  e_escalation_id : string
}.

Definition escalate_to_human (db : DB.t) (now : Z) (session_id : string)
    (customer_id : option string) (reason priority : string)
    : DB.t * escalation_result :=
  let escalation_id :=
    "ESC-" +:+ Fmt.strftime_Ymd now +:+ "-" +:+ Py.last_chars 6 session_id in
  let wait_time :=
    if String.eqb priority "urgent" then "immediate"
    else if String.eqb priority "high" then "5-10 minutes"
    else "15-20 minutes" in
  (DB.log_audit now session_id customer_id "escalate_to_human" "success" db,
   mk_escalation_result true
     ("I've created escalation ticket " +:+ escalation_id
      +:+ " to connect you with a human representative. Expected wait time: "
      +:+ wait_time +:+ ".")
     escalation_id).

End GeneralSupportTools.

(** ** The dialogue controller: [nano/agent.py] *)

(** A call either returns or raises. *)
Inductive outcome (A : Type) : Type :=
  | Ok (a : A)
  | Raised (exn : string).
Arguments Ok {A} a.
Arguments Raised {A} exn.

Module Session.
(** One entry of [conversation_history]. *)
Record history_entry : Type := mk_entry {
  role : string;
  message : string;
  timestamp : Z
}.

(** The in-memory session dictionary.  A key that is absent reads as
    [None] (or [False], or the empty list). *)
Record t : Type := mk {
  created_at : Z;
  customer_id : option string;
  is_verified : bool;
  last_activity : option Z;
  conversation_history : list history_entry;
  awaiting_security_answer : bool;
  temp_customer_id : option string;
  temp_name : option string;
  temp_account : option string
}.

Definition fresh (now : Z) (customer_id : option string) : t :=
  mk now customer_id false None [] false None None None.

Definition with_last_activity (now : Z) (s : t) : t :=
  mk (created_at s) (customer_id s) (is_verified s) (Some now)
     (conversation_history s) (awaiting_security_answer s)
     (temp_customer_id s) (temp_name s) (temp_account s).

Definition with_history (h : list history_entry) (s : t) : t :=
  mk (created_at s) (customer_id s) (is_verified s) (last_activity s)
     h (awaiting_security_answer s)
     (temp_customer_id s) (temp_name s) (temp_account s).

(** [session["is_verified"] = True; session["customer_id"] = cid] *)
Definition verified_as (cid : option string) (s : t) : t :=
  mk (created_at s) cid true (last_activity s)
     (conversation_history s) (awaiting_security_answer s)
     (temp_customer_id s) (temp_name s) (temp_account s).

(** The four assignments that start a security-question episode. *)
Definition awaiting (cid : option string) (name account : string) (s : t) : t :=
  mk (created_at s) (customer_id s) (is_verified s) (last_activity s)
     (conversation_history s) true cid (Some name) (Some account).

(** [awaiting_security_answer = False] and the three [pop]s. *)
Definition cleared (s : t) : t :=
  mk (created_at s) (customer_id s) (is_verified s) (last_activity s)
     (conversation_history s) false None None None.
End Session.

Module Response.
(** The dictionary a turn returns; an absent key is [None]. *)
Record t : Type := mk {
  response : string;
  session_id : string;
  requires_verification : option bool;
  next_intent : option string;
  tools_used : option (list string);
  verified : option bool;
  customer_id : option string;
  escalation_id : option string;
  requires_security_question : option bool;
  verification_failed : option bool;
  requires_new_session : option bool;
  error : option bool
}.

Definition plain (text sid : string) : t :=
  mk text sid None None None None None None None None None None.
Definition with_tools (text sid : string) (tools : list string) : t :=
  mk text sid None None (Some tools) None None None None None None None.
Definition needs_verification (text sid : string) (next : option string) : t :=
  mk text sid (Some true) next None None None None None None None None.
Definition new_session_needed (text sid : string) : t :=
  mk text sid None None None None None None None None (Some true) None.
End Response.

Module Settings.
Definition bank_name : string := "Bank Of AI".
Definition session_timeout_minutes : Z := 30.
End Settings.

Definition nl : string := String "010"%char "".

Module NANOAgent.

Import Intent.

(** The bullet of the listings, as its three UTF-8 bytes. *)
Definition bullet : string :=
  String (ascii_of_nat 226) (String (ascii_of_nat 128) (String (ascii_of_nat 162) "")).

Definition verification_prompt : string :=
  "I'd be happy to help with that! First, I need to verify your identity for security purposes. Please provide your full name and account number.".

Definition sensitive_intents : list string :=
  ["balance_inquiry"; "transaction_history"; "update_information";
   "file_management"; "document_ocr"].

(** *** [_handle_identity_verification] *)

Definition long_number (word : string) : bool :=
  Py.isdigit word && (6 <=? String.length word)%nat.

(** The account number the handler works with, and the list [words],
    which is bound only when the entities carry no account number. *)
Definition account_of (message : string) (ents : Entities)
    : option string * option (list string) :=
  if Py.truthy (account_number ents) then (account_number ents, None)
  else
    let words := Py.split message in
    (match List.find long_number words with
     | Some w => Some w
     | None => account_number ents
     end, Some words).

(** The loop over [words] that stops at the account number. *)
Fixpoint name_words_before (account : string) (words : list string)
    : list string :=
  match words with
  | [] => []
  | word :: rest =>
      if String.eqb word account then []
      else
        let clean_word := Py.remove_char "." (Py.remove_char "," word) in
        if Py.isalpha clean_word
           && negb (Py.mem (Py.lower clean_word)
                      ["my"; "name"; "is"; "and"; "account"; "number"])
        then clean_word :: name_words_before account rest
        else name_words_before account rest
  end.

(** [l[-2:]] *)
Definition last_two (l : list string) : list string :=
  List.skipn (length l - 2) l.

Definition name_of (message : string) (account : option string)
    (words : option (list string)) : outcome (option string) :=
  if Py.contains "name is" (Py.lower message) then
    let name_start := (default 0 (Py.find "name is" (Py.lower message)) + 7)%nat in
    let name_part := take 3 (Py.split (Py.drop name_start message)) in
    let clean_words :=
      List.filter
        (fun word => negb (Py.mem (Py.lower word) ["and"; "my"; "account"; "number"]))
        name_part in
    Ok (Some (Py.strip ".,!?" (Py.join " " clean_words)))
  else if Py.truthy account then
    match words with
    | None => Raised "UnboundLocalError: words"
    | Some words =>
        let name_words := name_words_before (default "" account) words in
        if (2 <=? length name_words)%nat
        then Ok (Some (Py.join " " (last_two name_words)))
        else Ok None
    end
  else Ok None.

Definition retry_prompt : string :=
  "To verify your identity, I need your full name and account number. Please provide both in your message.".

(** What the first half of the handler extracts from the message: the
    pair the test [if full_name and account_number] lets through. *)
Definition credentials (message : string) (ents : Entities)
    : outcome (option (string * string)) :=
  let '(account, words) := account_of message ents in
  match name_of message account words with
  | Raised e => Raised e
  | Ok full_name =>
      if Py.truthy full_name && Py.truthy account
      then Ok (Some (default "" full_name, default "" account))
      else Ok None
  end.

Definition tool_reply (session_id text : string) (verified : option bool)
    (cid : option string) (question failed : option bool) : Response.t :=
  Response.mk text session_id None None (Some ["verify_customer_identity"])
    verified cid None question failed None None.

Definition _handle_identity_verification (db : DB.t) (now : Z)
    (session_id message : string) (session : Session.t) (ents : Entities)
    : outcome (DB.t * Session.t * Response.t) :=
  match credentials message ents with
  | Raised e => Raised e
  | Ok (Some (full_name, account)) =>
      let '(db1, result) :=
        IdentityVerificationTools.verify_customer_identity db now session_id
          full_name account None in
      let cid := IdentityVerificationTools.customer_id result in
      let text := IdentityVerificationTools.message result in
      if IdentityVerificationTools.verified result then
        Ok (db1, Session.verified_as cid session,
            tool_reply session_id (text +:+ " What can I help you with today?")
              (Some true) cid None None)
      else if default false
                (IdentityVerificationTools.requires_security_question result) then
        Ok (db1, Session.awaiting cid full_name account session,
            tool_reply session_id text None cid (Some true) None)
      else
        Ok (db1, session, tool_reply session_id text None None None (Some true))
  | Ok None =>
      if Session.awaiting_security_answer session
         && Py.truthy (Session.temp_customer_id session) then
        let '(db1, result) :=
          IdentityVerificationTools.verify_customer_identity db now session_id
            (default "" (Session.temp_name session))
            (default "" (Session.temp_account session)) (Some message) in
        let cid := IdentityVerificationTools.customer_id result in
        let text := IdentityVerificationTools.message result in
        if IdentityVerificationTools.verified result then
          Ok (db1, Session.verified_as cid (Session.cleared session),
              tool_reply session_id (text +:+ " What can I help you with today?")
                (Some true) cid None None)
        else
          Ok (db1,
              (if Py.contains "too many" (Py.lower text)
               then Session.cleared session else session),
              tool_reply session_id text None None None (Some true))
      else
        Ok (db, session, Response.needs_verification retry_prompt session_id None)
  end.

(** *** [_handle_verified_request] *)

Definition update_prompt : string :=
  "I can help update your contact information. What would you like to change - your email, phone number, or address? Please provide the new information.".

Definition txn_line (v : DatabaseOperationTools.txn_view) : string :=
  bullet +:+ " " +:+ DatabaseOperationTools.v_date v +:+ ": "
  +:+ Py.title (DatabaseOperationTools.v_type v) +:+ " $"
  +:+ Fmt.format_2f (DatabaseOperationTools.v_amount v) +:+ " - "
  +:+ default "None" (DatabaseOperationTools.v_description v) +:+ nl.

Definition _handle_verified_request (db : DB.t) (now : Z)
    (session_id message intent customer_id : string) (ents : Entities)
    : DB.t * Response.t :=
  let reply db text tools :=
    (db, Response.mk text session_id None None (Some tools) None
           (Some customer_id) None None None None None) in
  if String.eqb intent "balance_inquiry" then
    let '(db1, result) :=
      DatabaseOperationTools.query_account_balance db now session_id customer_id in
    reply db1
      (if DatabaseOperationTools.b_success result then
         "Your current account balance is $"
         +:+ Fmt.format_2f (DatabaseOperationTools.current_balance result)
         +:+ ". Is there anything else I can help you with?"
       else
         "I'm sorry, I couldn't retrieve your balance at this time. "
         +:+ DatabaseOperationTools.b_message result)
      ["query_account_balance"]
  else if String.eqb intent "transaction_history" then
    let '(db1, result) :=
      DatabaseOperationTools.transaction_history db now session_id customer_id 5 30 in
    reply db1
      (if DatabaseOperationTools.h_success result
          && (0 <? DatabaseOperationTools.total_transactions result)%nat then
         "Here are your recent transactions:" +:+ nl +:+ nl
         +:+ Py.join "" (map txn_line (take 3 (DatabaseOperationTools.h_transactions result)))
         +:+ nl +:+ "Total transactions in last 30 days: "
         +:+ Fmt.decimal (Z.of_nat (DatabaseOperationTools.total_transactions result))
       else "I don't see any recent transactions on your account.")
      ["transaction_history"]
  else if String.eqb intent "update_information" then
    if Py.truthy (update_field ents)
       && (Py.truthy (new_email ents) || Py.truthy (new_phone ents)) then
      let field := default "" (update_field ents) in
      let updates :=
        if String.eqb field "email" && Py.truthy (new_email ents)
        then [("email", default "" (new_email ents))]
        else if String.eqb field "phone" && Py.truthy (new_phone ents)
        then [("phone", default "" (new_phone ents))]
        else [] in
      match updates with
      | [] => reply db update_prompt []
      | (_, value) :: _ =>
          let '(db1, result) :=
            DatabaseOperationTools.update_customer_record db now session_id
              customer_id updates in
          reply db1
            (if DatabaseOperationTools.u_success result then
               "I've successfully updated your " +:+ field +:+ " to " +:+ value
               +:+ ". Is there anything else I can help you with?"
             else
               "I encountered an issue updating your " +:+ field +:+ ". "
               +:+ DatabaseOperationTools.u_message result)
            ["update_customer_record"]
      end
    else reply db update_prompt []
  else if String.eqb intent "file_management" then
    reply db
      "I can help with document management. Would you like to upload a document, view your existing documents, or organize your files?"
      []
  else if String.eqb intent "document_ocr" then
    reply db
      "I can help you process documents using OCR technology to extract text and banking information. Please upload your document (PDF, image, or scan) and I'll analyze it for you. What type of document would you like me to process?"
      []
  else
    let '(db1, result) :=
      GeneralSupportTools.banking_knowledge_base db now session_id
        (Some customer_id) message in
    reply db1
      (match GeneralSupportTools.results result with
       | info :: _ =>
           if GeneralSupportTools.kb_success result then
             "Here's information about " +:+ GeneralSupportTools.topic info +:+ ":"
             +:+ nl +:+ nl +:+ GeneralSupportTools.information info
           else
             "I'm here to help with your banking needs. You can ask about your balance, transaction history, update your information, or get general banking assistance."
       | [] =>
           "I'm here to help with your banking needs. You can ask about your balance, transaction history, update your information, or get general banking assistance."
       end)
      ["banking_knowledge_base"].

(** *** [_generate_response] *)

Definition credentials_requested : string :=
  "provide your full name and account number".

(** The context override: the intent after the look at the last entry of
    the conversation history. *)
Definition override_intent (message intent : string) (session : Session.t)
    (ents : Entities) : string :=
  match last (Session.conversation_history session) with
  | Some last_message =>
      if String.eqb (Session.role last_message) "assistant"
         && Py.contains credentials_requested (Session.message last_message)
         && (Py.truthy (account_number ents)
             || Py.contains "name" (Py.lower message))
      then "identity_verification"
      else intent
  | None => intent
  end.

Definition steps_text (steps : list string) : string :=
  match steps with
  | [] => ""
  | _ => nl +:+ nl +:+ "Steps:" +:+ nl
         +:+ Py.join nl (map (fun step => bullet +:+ " " +:+ step) steps)
  end.

Definition _generate_response (db : DB.t) (now : Z)
    (session_id message intent : string) (session : Session.t)
    (ents : Entities) : outcome (DB.t * Session.t * Response.t) :=
  let is_verified := Session.is_verified session in
  let customer_id := Session.customer_id session in
  let intent := override_intent message intent session ents in
  if String.eqb intent "greeting" then
    Ok (db, session,
        Response.mk
          ("Hello! I'm NANO, your " +:+ Settings.bank_name
           +:+ " customer service assistant. How can I help you today?")
          session_id (Some false) None None None None None None None None None)
  else if String.eqb intent "escalation" then
    let '(db1, result) :=
      GeneralSupportTools.escalate_to_human db now session_id customer_id
        "Customer requested human representative" "normal" in
    if GeneralSupportTools.e_success result then
      Ok (db1, session,
          Response.mk (GeneralSupportTools.e_message result) session_id
            None None (Some ["escalate_to_human"]) None None
            (Some (GeneralSupportTools.e_escalation_id result)) None None None None)
    else
      Ok (db1, session,
          Response.with_tools
            "I'm having trouble connecting you to a representative right now. Please try calling our customer service line directly."
            session_id ["escalate_to_human"])
  else if Py.mem intent sensitive_intents && negb is_verified then
    Ok (db, session,
        Response.needs_verification verification_prompt session_id (Some intent))
  else if String.eqb intent "identity_verification"
          || (negb is_verified && Py.truthy (account_number ents)) then
    _handle_identity_verification db now session_id message session ents
  else if is_verified && Py.truthy customer_id then
    let '(db1, r) :=
      _handle_verified_request db now session_id message intent
        (default "" customer_id) ents in
    Ok (db1, session, r)
  else if String.eqb intent "general_support" then
    let '(db1, result) :=
      GeneralSupportTools.banking_knowledge_base db now session_id customer_id
        message in
    Ok (db1, session,
        Response.with_tools
          (match GeneralSupportTools.results result with
           | info :: _ =>
               if GeneralSupportTools.kb_success result then
                 "Here's information about " +:+ GeneralSupportTools.topic info
                 +:+ ":" +:+ nl +:+ nl +:+ GeneralSupportTools.information info
                 +:+ steps_text (GeneralSupportTools.steps info)
               else
                 "I'd be happy to help! Could you please provide more details about what you're looking for?"
           | [] =>
               "I'd be happy to help! Could you please provide more details about what you're looking for?"
           end)
          session_id ["banking_knowledge_base"])
  else
    Ok (db, session,
        Response.plain
          "I understand you need assistance. Could you please provide more specific information about how I can help you today?"
          session_id).

(** *** Sessions and [process_message] *)

(** The agent object: the store it was built on and [active_sessions]. *)
Record t : Type := mk {
  db : DB.t;
  active_sessions : gmap string Session.t
}.

Definition create_session (a : t) (now : Z) (session_id : string)
    (customer_id : option string) : t :=
  let row := DBSession.mk session_id customer_id false now now "active" in
  let db1 := DB.with_sessions (DB.sessions (db a) ++ [row]) (db a) in
  mk (DB.log_audit now session_id customer_id "create_session" "success" db1)
     (<[session_id := Session.fresh now customer_id]> (active_sessions a)).

(** [_is_session_expired], for a session that is in [active_sessions]. *)
Definition _is_session_expired (now : Z) (session : Session.t) : bool :=
  (Settings.session_timeout_minutes * 60 <? now - Session.created_at session)%Z.

Definition _update_session_activity (now : Z) (session_id : string) (db : DB.t)
    : DB.t :=
  DB.with_sessions
    (DB.update_first (IdentityVerificationTools.session_row session_id)
       (fun r => DBSession.mk (DBSession.session_id r) (DBSession.customer_id r)
                   (DBSession.is_verified r) (DBSession.created_at r) now
                   (DBSession.status r))
       (DB.sessions db)) db.

Definition _save_conversation_message (now : Z) (session_id role message : string)
    (customer_id : option string) (db : DB.t) : DB.t :=
  DB.with_conversations
    (DB.conversations db
     ++ [Conversation.mk session_id customer_id role message now]) db.

(** [order_by(Conversation.created_at.asc())]: oldest first, rows of the
    same instant in table order. *)
Fixpoint insert_oldest (c : Conversation.t) (l : list Conversation.t)
    : list Conversation.t :=
  match l with
  | [] => [c]
  | d :: l' =>
      if (Conversation.created_at d <? Conversation.created_at c)%Z
      then d :: insert_oldest c l'
      else c :: d :: l'
  end.
Definition oldest_first (l : list Conversation.t) : list Conversation.t :=
  foldr insert_oldest [] l.

Definition _get_conversation_history (db : DB.t) (now : Z) (session_id : string)
    (hours : Z) : list Session.history_entry :=
  let cutoff_time := (now - hours * 3600)%Z in
  map (fun c => Session.mk_entry (Conversation.role c) (Conversation.message c)
                  (Conversation.created_at c))
      (oldest_first
         (List.filter
            (fun c => String.eqb (Conversation.session_id c) session_id
                      && (cutoff_time <=? Conversation.created_at c)%Z)
            (DB.conversations db))).

Definition active_row (session_id : string) (r : DBSession.t) : bool :=
  String.eqb (DBSession.session_id r) session_id
  && String.eqb (DBSession.status r) "active".

(** The session the message is processed in: the one of
    [active_sessions], or the active row of the store. *)
Definition restore (a : t) (session_id : string) : option Session.t :=
  match active_sessions a !! session_id with
  | Some s => Some s
  | None =>
      match DB.first (active_row session_id) (DB.sessions (db a)) with
      | Some r =>
          Some (Session.mk (DBSession.created_at r) (DBSession.customer_id r)
                  (DBSession.is_verified r) None [] false None None None)
      | None => None
      end
  end.

Definition process_message (a : t) (now : Z) (session_id message : string)
    (customer_id : option string) : t * Response.t :=
  match restore a session_id with
  | None =>
      (a, Response.new_session_needed
            "I'm sorry, your session has expired. Please start a new conversation."
            session_id)
  | Some session =>
      if _is_session_expired now session then
        (mk (db a) (<[session_id := session]> (active_sessions a)),
         Response.new_session_needed
           "Your session has timed out for security reasons. Please start a new conversation."
           session_id)
      else
        let session := Session.with_last_activity now session in
        let db1 := _update_session_activity now session_id (db a) in
        let db2 :=
          _save_conversation_message now session_id "user" message
            (Session.customer_id session) db1 in
        let session :=
          Session.with_history (_get_conversation_history db2 now session_id 8)
            session in
        let intent_analysis := NANOAgentIntent._analyze_intent message in
        match _generate_response db2 now session_id message
                (primary_intent intent_analysis) session
                (entities intent_analysis) with
        | Ok (db3, session', response) =>
            let db4 :=
              _save_conversation_message now session_id "assistant"
                (Response.response response) (Session.customer_id session') db3 in
            (mk (DB.log_audit now session_id (Session.customer_id session')
                   "process_message" "success" db4)
                (<[session_id := session']> (active_sessions a)),
             response)
        | Raised _ =>
            (mk (DB.log_audit now session_id customer_id "process_message"
                   "failed" db2)
                (<[session_id := session]> (active_sessions a)),
             Response.mk
               "I apologize, but I'm experiencing technical difficulties. Please try again or contact customer service."
               session_id None None None None None None None None None (Some true))
        end
  end.

(** *** [cleanup_expired_sessions] *)

(** The bulk UPDATE of the session rows: an active row whose last
    activity is before the cutoff becomes expired, and the UPDATE stamps
    [last_activity] (the column's [onupdate]). *)
Definition expire_row (now cutoff_time : Z) (r : DBSession.t) : DBSession.t :=
  if (DBSession.last_activity r <? cutoff_time)%Z
     && String.eqb (DBSession.status r) "active"
  then DBSession.mk (DBSession.session_id r) (DBSession.customer_id r)
         (DBSession.is_verified r) (DBSession.created_at r) now "expired"
  else r.

Definition cleanup_expired_sessions (a : t) (now : Z) : t :=
  let cutoff_time := (now - Settings.session_timeout_minutes * 60)%Z in
  mk (DB.with_sessions (map (expire_row now cutoff_time) (DB.sessions (db a)))
        (db a))
     (filter (fun kv => (cutoff_time <= Session.created_at kv.2)%Z)
        (active_sessions a)).

End NANOAgent.

(** [SimpleNANOAgent.process_message] appends the user's message to the
    in-memory history before it calls [_generate_response], whose override
    is the one of [NANOAgent] (the text of an entry is under the key
    [content]). *)
Module SimpleNANOAgent.

Definition history_for_response (history : list Session.history_entry)
    (message : string) (now : Z) : list Session.history_entry :=
  (history ++ [Session.mk_entry "user" message now])%list.

Definition override_intent := NANOAgent.override_intent.

(** *** [_handle_identity_verification]

    The account number is found as in [NANOAgent]; the name keeps every
    word. *)

Fixpoint name_words_before (account : string) (words : list string)
    : list string :=
  match words with
  | [] => []
  | word :: rest =>
      if String.eqb word account then []
      else
        let clean_word := Py.remove_char "." (Py.remove_char "," word) in
        if Py.isalpha clean_word
        then clean_word :: name_words_before account rest
        else name_words_before account rest
  end.

Definition name_of (message : string) (account : option string)
    (words : option (list string)) : outcome (option string) :=
  if Py.contains "name is" (Py.lower message) then
    let name_start := (default 0 (Py.find "name is" (Py.lower message)) + 7)%nat in
    let name_part := take 3 (Py.split (Py.drop name_start message)) in
    Ok (Some (Py.strip ".,!?" (Py.join " " name_part)))
  else if Py.truthy account then
    match words with
    | None => Raised "UnboundLocalError: words"
    | Some words =>
        let name_words := name_words_before (default "" account) words in
        if (2 <=? length name_words)%nat
        then Ok (Some (Py.join " " (NANOAgent.last_two name_words)))
        else Ok None
    end
  else Ok None.

Definition credentials (message : string) (ents : Entities)
    : outcome (option (string * string)) :=
  let '(account, words) := NANOAgent.account_of message ents in
  match name_of message account words with
  | Raised e => Raised e
  | Ok full_name =>
      if Py.truthy full_name && Py.truthy account
      then Ok (Some (default "" full_name, default "" account))
      else Ok None
  end.

(** The handler never writes [awaiting_security_answer] or the pending
    name and account; it reads them. *)
Definition _handle_identity_verification (db : DB.t) (now : Z)
    (session_id message : string) (session : Session.t) (ents : Entities)
    : outcome (DB.t * Session.t * Response.t) :=
  match credentials message ents with
  | Raised e => Raised e
  | Ok (Some (full_name, account)) =>
      let '(db1, result) :=
        IdentityVerificationTools.verify_customer_identity db now session_id
          full_name account None in
      let cid := IdentityVerificationTools.customer_id result in
      let text := IdentityVerificationTools.message result in
      if IdentityVerificationTools.verified result then
        Ok (db1, Session.verified_as cid session,
            NANOAgent.tool_reply session_id
              (text +:+ " What can I help you with today?")
              (Some true) cid None None)
      else if default false
                (IdentityVerificationTools.requires_security_question result) then
        Ok (db1, session,
            NANOAgent.tool_reply session_id text None cid (Some true) None)
      else
        Ok (db1, session,
            NANOAgent.tool_reply session_id text None None None (Some true))
  | Ok None =>
      if Session.awaiting_security_answer session
         && Py.truthy (Session.temp_customer_id session) then
        let '(db1, result) :=
          IdentityVerificationTools.verify_customer_identity db now session_id
            (default "" (Session.temp_name session))
            (default "" (Session.temp_account session)) (Some message) in
        let cid := IdentityVerificationTools.customer_id result in
        let text := IdentityVerificationTools.message result in
        if IdentityVerificationTools.verified result then
          Ok (db1, Session.verified_as cid session,
              NANOAgent.tool_reply session_id
                (text +:+ " What can I help you with today?")
                (Some true) cid None None)
        else
          Ok (db1, session,
              NANOAgent.tool_reply session_id text None None None (Some true))
      else
        Ok (db, session,
            Response.needs_verification NANOAgent.retry_prompt session_id None)
  end.

(** *** [_handle_verified_request] *)

Definition _handle_verified_request (db : DB.t) (now : Z)
    (session_id message intent customer_id : string) (ents : Entities)
    : DB.t * Response.t :=
  let reply db text tools :=
    (db, Response.mk text session_id None None (Some tools) None
           (Some customer_id) None None None None None) in
  if String.eqb intent "balance_inquiry" then
    let '(db1, result) :=
      DatabaseOperationTools.query_account_balance db now session_id customer_id in
    reply db1
      (if DatabaseOperationTools.b_success result then
         "Your current account balance is $"
         +:+ Fmt.format_2f (DatabaseOperationTools.current_balance result)
         +:+ ". Is there anything else I can help you with?"
       else
         "I'm sorry, I couldn't retrieve your balance at this time. "
         +:+ DatabaseOperationTools.b_message result)
      ["query_account_balance"]
  else if String.eqb intent "transaction_history" then
    let '(db1, result) :=
      DatabaseOperationTools.transaction_history db now session_id customer_id 5 30 in
    reply db1
      (if DatabaseOperationTools.h_success result
          && (0 <? DatabaseOperationTools.total_transactions result)%nat then
         "Here are your recent transactions:" +:+ nl +:+ nl
         +:+ Py.join ""
               (map NANOAgent.txn_line
                  (take 3 (DatabaseOperationTools.h_transactions result)))
         +:+ nl +:+ "Total transactions in last 30 days: "
         +:+ Fmt.decimal (Z.of_nat (DatabaseOperationTools.total_transactions result))
       else "I don't see any recent transactions on your account.")
      ["transaction_history"]
  else if String.eqb intent "update_information" then
    if Py.truthy (update_field ents)
       && (Py.truthy (new_email ents) || Py.truthy (new_phone ents)) then
      let field := default "" (update_field ents) in
      let updates :=
        if String.eqb field "email" && Py.truthy (new_email ents)
        then [("email", default "" (new_email ents))]
        else if String.eqb field "phone" && Py.truthy (new_phone ents)
        then [("phone", default "" (new_phone ents))]
        else [] in
      match updates with
      | [] => reply db NANOAgent.update_prompt []
      | (_, value) :: _ =>
          let '(db1, result) :=
            DatabaseOperationTools.update_customer_record db now session_id
              customer_id updates in
          reply db1
            (if DatabaseOperationTools.u_success result then
               "I've successfully updated your " +:+ field +:+ " to " +:+ value
               +:+ ". Is there anything else I can help you with?"
             else
               "I encountered an issue updating your " +:+ field +:+ ". "
               +:+ DatabaseOperationTools.u_message result)
            ["update_customer_record"]
      end
    else reply db NANOAgent.update_prompt []
  else if String.eqb intent "file_management" then
    reply db
      "I can help with document management. Would you like to upload a document, view your existing documents, or organize your files?"
      []
  else
    let '(db1, result) :=
      GeneralSupportTools.banking_knowledge_base db now session_id
        (Some customer_id) message in
    reply db1
      (match GeneralSupportTools.results result with
       | info :: _ =>
           if GeneralSupportTools.kb_success result then
             "Here's information about " +:+ GeneralSupportTools.topic info +:+ ":"
             +:+ nl +:+ nl +:+ GeneralSupportTools.information info
           else
             "I'm here to help with your banking needs. You can ask about your balance, transaction history, update your information, or get general banking assistance."
       | [] =>
           "I'm here to help with your banking needs. You can ask about your balance, transaction history, update your information, or get general banking assistance."
       end)
      ["banking_knowledge_base"].

(** *** [_generate_response] *)

Definition sensitive_intents : list string :=
  ["balance_inquiry"; "transaction_history"; "update_information";
   "file_management"].

Definition _generate_response (db : DB.t) (now : Z)
    (session_id message intent : string) (session : Session.t)
    (ents : Entities) : outcome (DB.t * Session.t * Response.t) :=
  let is_verified := Session.is_verified session in
  let customer_id := Session.customer_id session in
  let intent := override_intent message intent session ents in
  if String.eqb intent "greeting" then
    Ok (db, session,
        Response.mk
          ("Hello! I'm NANO, your " +:+ Settings.bank_name
           +:+ " customer service assistant. How can I help you today?")
          session_id (Some false) None None None None None None None None None)
  else if String.eqb intent "escalation" then
    let '(db1, result) :=
      GeneralSupportTools.escalate_to_human db now session_id customer_id
        "Customer requested human representative" "normal" in
    if GeneralSupportTools.e_success result then
      Ok (db1, session,
          Response.mk (GeneralSupportTools.e_message result) session_id
            None None (Some ["escalate_to_human"]) None None
            (Some (GeneralSupportTools.e_escalation_id result)) None None None None)
    else
      Ok (db1, session,
          Response.with_tools
            "I'm having trouble connecting you to a representative right now. Please try calling our customer service line directly."
            session_id ["escalate_to_human"])
  else if Py.mem intent sensitive_intents && negb is_verified then
    Ok (db, session,
        Response.needs_verification NANOAgent.verification_prompt session_id
          (Some intent))
  else if String.eqb intent "identity_verification"
          || (negb is_verified && Py.truthy (account_number ents)) then
    _handle_identity_verification db now session_id message session ents
  else if is_verified && Py.truthy customer_id then
    let '(db1, r) :=
      _handle_verified_request db now session_id message intent
        (default "" customer_id) ents in
    Ok (db1, session, r)
  else if String.eqb intent "general_support" then
    let '(db1, result) :=
      GeneralSupportTools.banking_knowledge_base db now session_id customer_id
        message in
    Ok (db1, session,
        Response.with_tools
          (match GeneralSupportTools.results result with
           | info :: _ =>
               if GeneralSupportTools.kb_success result then
                 "Here's information about " +:+ GeneralSupportTools.topic info
                 +:+ ":" +:+ nl +:+ nl +:+ GeneralSupportTools.information info
                 +:+ NANOAgent.steps_text (GeneralSupportTools.steps info)
               else
                 "I'd be happy to help! Could you please provide more details about what you're looking for?"
           | [] =>
               "I'd be happy to help! Could you please provide more details about what you're looking for?"
           end)
          session_id ["banking_knowledge_base"])
  else
    Ok (db, session,
        Response.plain
          "I understand you need assistance. Could you please provide more specific information about how I can help you today?"
          session_id).

(** *** Sessions and [process_message] *)

Record t : Type := mk {
  db : DB.t;
  active_sessions : gmap string Session.t
}.

Definition create_session (a : t) (now : Z) (session_id : string)
    (customer_id : option string) : t :=
  let row := DBSession.mk session_id customer_id false now now "active" in
  let db1 := DB.with_sessions (DB.sessions (db a) ++ [row]) (db a) in
  mk (DB.log_audit now session_id customer_id "create_session" "success" db1)
     (<[session_id := Session.fresh now customer_id]> (active_sessions a)).

(** The session the message is processed in: the one of
    [active_sessions], or the active row of the store with the
    conversation the store holds for it. *)
Definition restore (a : t) (now : Z) (session_id : string) : option Session.t :=
  match active_sessions a !! session_id with
  | Some s => Some s
  | None =>
      match DB.first (NANOAgent.active_row session_id) (DB.sessions (db a)) with
      | Some r =>
          Some (Session.mk (DBSession.created_at r) (DBSession.customer_id r)
                  (DBSession.is_verified r) None
                  (NANOAgent._get_conversation_history (db a) now session_id 8)
                  false None None None)
      | None => None
      end
  end.

Definition process_message (a : t) (now : Z) (session_id message : string)
    (customer_id : option string) : t * Response.t :=
  match restore a now session_id with
  | None =>
      (a, Response.new_session_needed
            "I'm sorry, your session has expired. Please start a new conversation."
            session_id)
  | Some session =>
      if NANOAgent._is_session_expired now session then
        (mk (db a) (<[session_id := session]> (active_sessions a)),
         Response.new_session_needed
           "Your session has timed out for security reasons. Please start a new conversation."
           session_id)
      else
        let session := Session.with_last_activity now session in
        let db1 := NANOAgent._update_session_activity now session_id (db a) in
        let db2 :=
          NANOAgent._save_conversation_message now session_id "user" message
            (Session.customer_id session) db1 in
        let session :=
          Session.with_history
            (history_for_response (Session.conversation_history session)
               message now) session in
        let intent_analysis := SimpleNANOAgentIntent._analyze_intent message in
        match _generate_response db2 now session_id message
                (primary_intent intent_analysis) session
                (entities intent_analysis) with
        | Ok (db3, session', response) =>
            let db4 :=
              NANOAgent._save_conversation_message now session_id "assistant"
                (Response.response response) (Session.customer_id session') db3 in
            let session' :=
              Session.with_history
                (Session.conversation_history session'
                 ++ [Session.mk_entry "assistant" (Response.response response) now])
                session' in
            (mk (DB.log_audit now session_id (Session.customer_id session')
                   "process_message" "success" db4)
                (<[session_id := session']> (active_sessions a)),
             response)
        | Raised _ =>
            (mk (DB.log_audit now session_id customer_id "process_message"
                   "failed" db2)
                (<[session_id := session]> (active_sessions a)),
             Response.mk
               "I apologize, but I'm experiencing technical difficulties. Please try again or contact customer service."
               session_id None None None None None None None None None (Some true))
        end
  end.

End SimpleNANOAgent.

(** ** Input validation: [app/api/middleware/auth.py] *)

Module InputValidator.

(** The characters [sanitize_string] removes: the angle brackets, the two
    quotes, the ampersand, NUL and carriage return. *)
Definition dangerous_chars : list ascii :=
  ["<"%char; ">"%char; ascii_of_nat 34; "'"%char; "&"%char; ascii_of_nat 0;
   ascii_of_nat 13].

(** [sanitize_string], for a string argument. *)
Definition sanitize_string (input_str : string) (max_length : nat) : string :=
  let sanitized :=
    fold_left (fun sanitized char => Py.remove_char char sanitized)
      dangerous_chars input_str in
  Py.strip_ws (Py.prefix max_length sanitized).

(** [validate_customer_message] *)
Definition validate_customer_message (message : string) : bool * string :=
  if negb (Py.nonempty message) then (false, "Message cannot be empty")
  else if (2000 <? String.length message)%nat then
    (false, "Message too long (maximum 2000 characters)")
  else if (String.length (Py.strip_ws message) <? 1)%nat then
    (false, "Message cannot be empty")
  else (true, "Valid").

(** [[0-9a-f]] under [re.IGNORECASE] *)
Definition is_hex (c : ascii) : bool :=
  Py.is_digit c
  || ((97 <=? Py.ord c)%nat && (Py.ord c <=? 102)%nat)
  || ((65 <=? Py.ord c)%nat && (Py.ord c <=? 70)%nat).

(** The pattern of [validate_session_id] between [^] and [$]. *)
Definition uuid_pattern : Re.pattern :=
  [Re.exactly 8 is_hex; Re.lit "-"; Re.exactly 4 is_hex; Re.lit "-";
   Re.exactly 4 is_hex; Re.lit "-"; Re.exactly 4 is_hex; Re.lit "-";
   Re.exactly 12 is_hex].

(** [$]: the end of the text, or the place before a final newline. *)
Definition at_end (s : string) : bool :=
  match s with
  | EmptyString => true
  | String c EmptyString => Ascii.eqb c "010"
  | _ => false
  end.

(** [validate_session_id]: [uuid_pattern.match] anchors the pattern at
    the start of the text. *)
Definition validate_session_id (session_id : string) : bool :=
  Py.nonempty session_id
  && match Re.match_here uuid_pattern None session_id with
     | Some r => at_end (Py.drop (String.length r) session_id)
     | None => false
     end.

End InputValidator.

(** ** The chat endpoints: [app/api/endpoints/chat.py]

    A request is served at one reading of the clock.  Every request
    builds its agent anew ([get_nano_agent]), so of the agent only the
    store outlives the request. *)

Module ChatAPI.

Record ChatRequest : Type := mk_request {
  message : string;
  session_id : option string;
  customer_id : option string
}.

(** The validators of [ChatRequest]. *)
Definition validate (message : string) (session_id customer_id : option string)
    : outcome ChatRequest :=
  let '(is_valid, error_msg) := InputValidator.validate_customer_message message in
  if negb is_valid then Raised error_msg
  else if Py.truthy session_id
          && negb (InputValidator.validate_session_id (default "" session_id))
  then Raised "Invalid session ID format"
  else Ok (mk_request (InputValidator.sanitize_string message 2000)
             session_id customer_id).

Definition get_nano_agent (db : DB.t) : NANOAgent.t := NANOAgent.mk db ∅.

(** The [ChatResponse] built from the dictionary of the turn: the model
    has no field for [next_intent] and [verification_failed]. *)
Definition ChatResponse (r : Response.t) : Response.t :=
  Response.mk (Response.response r) (Response.session_id r)
    (Response.requires_verification r) None (Response.tools_used r)
    (Response.verified r) (Response.customer_id r) (Response.escalation_id r)
    (Response.requires_security_question r) None
    (Response.requires_new_session r) (Response.error r).

(** [sessions.session_id] is UNIQUE: the commit of [create_session] fails
    on an identifier that is in the table. *)
Definition session_id_taken (session_id : string) (db : DB.t) : bool :=
  existsb (IdentityVerificationTools.session_row session_id) (DB.sessions db).

(** [POST /chat]; [uuid] is the identifier [create_session] draws when the
    request names no session.  [Raised] is the reply with status 500. *)
Definition chat_endpoint (db : DB.t) (now : Z) (uuid : string)
    (request : ChatRequest) : DB.t * outcome Response.t :=
  let agent := get_nano_agent db in
  if Py.truthy (session_id request) then
    let '(agent', result) :=
      NANOAgent.process_message agent now (default "" (session_id request))
        (message request) (customer_id request) in
    (NANOAgent.db agent', Ok (ChatResponse result))
  else if session_id_taken uuid db then
    (db, Raised "Chat processing failed: UNIQUE constraint failed: sessions.session_id")
  else
    let agent := NANOAgent.create_session agent now uuid (customer_id request) in
    let '(agent', result) :=
      NANOAgent.process_message agent now uuid (message request)
        (customer_id request) in
    (NANOAgent.db agent', Ok (ChatResponse result)).

(** [POST /session] *)
Definition create_session_endpoint (db : DB.t) (now : Z) (uuid : string)
    (customer_id : option string) : DB.t * outcome (string * string) :=
  if session_id_taken uuid db then
    (db, Raised "Session creation failed: UNIQUE constraint failed: sessions.session_id")
  else
    (NANOAgent.db (NANOAgent.create_session (get_nano_agent db) now uuid customer_id),
     Ok (uuid, "New session created successfully")).

(** [DELETE /session/{session_id}]: the UPDATE of the row stamps
    [last_activity] (the column's [onupdate]). *)
Definition terminate (now : Z) (r : DBSession.t) : DBSession.t :=
  DBSession.mk (DBSession.session_id r) (DBSession.customer_id r)
    (DBSession.is_verified r) (DBSession.created_at r) now "terminated".

Definition end_session_endpoint (db : DB.t) (now : Z) (session_id : string)
    : DB.t * string :=
  (DB.with_sessions
     (DB.update_first (IdentityVerificationTools.session_row session_id)
        (terminate now) (DB.sessions db)) db,
   "Session ended successfully").

End ChatAPI.

(** * Specification vocabulary and test data *)

(** [x >= y] on scores: [x < y] does not hold. *)
Definition not_below (x y : F64.float) : Prop := F64.ltb x y = false.

(** The score of a candidate is a positive finite number. *)
Definition positive_score (p : scored) : Prop := F64.pos_finite (snd p) = true.

(** [p] is not ranked below [q]. *)
Definition ranks_before (p q : scored) : Prop := not_below (snd p) (snd q).

(** The candidate's score equals [v] (the [==] of floats). *)
Definition has_score (v : F64.float) (p : scored) : bool := F64.eqb (snd p) v.

(** [n * w] is positive and finite for every count [n] from 1 to
    [bound]. *)
Definition scores_ok (w : F64.float) (bound : nat) : bool :=
  forallb (fun n => F64.pos_finite (F64.mul (F64.of_nat n) w)) (seq 1 bound).

(** The categories in the order in which [_analyze_intent] evaluates
    them; the account-number rule is the second entry. *)
Definition common_head : list string :=
  ["identity_verification"; "identity_verification"; "balance_inquiry";
   "transaction_history"; "update_information"].
Definition common_tail : list string :=
  ["general_support"; "escalation"; "greeting"].

(** The keywords both agents look for, without the file/document block. *)
Definition common_keywords : list string :=
  Intent.identity_keywords ++ Intent.balance_keywords
  ++ Intent.transaction_keywords ++ Intent.update_keywords
  ++ Intent.contact_keywords ++ Intent.help_keywords
  ++ Intent.escalation_keywords ++ Intent.greeting_keywords.

(** What a caller of [_analyze_intent] can rely on. *)
Definition ranking (file_entry : string -> list scored)
    (order keywords : list string) (m : string) : Prop :=
  let a := Intent.analyze file_entry m in
  let c := Intent.candidates file_entry m in
  Permutation (all_intents a) c
  /\ StronglySorted ranks_before (all_intents a)
  /\ (forall v, List.filter (has_score v) (all_intents a)
                = List.filter (has_score v) c)
  /\ sublist (map fst c) order
  /\ (Py.any_hit keywords (Py.lower m) = false ->
      Intent.account_matches m = None ->
      all_intents a = [] /\ primary_intent a = "general_inquiry"
      /\ confidence a = F64.lit 1 10).

(** The evaluation order of the categories in [NANOAgent] and in
    [SimpleNANOAgent], and all the keywords of each. *)
Definition nano_order : list string :=
  ["identity_verification"; "identity_verification"; "balance_inquiry";
   "transaction_history"; "update_information"; "document_ocr";
   "file_management"; "general_support"; "escalation"; "greeting"].

Definition simple_order : list string :=
  ["identity_verification"; "identity_verification"; "balance_inquiry";
   "transaction_history"; "update_information"; "file_management";
   "general_support"; "escalation"; "greeting"].

Definition nano_keywords : list string :=
  common_keywords ++ NANOAgentIntent.file_keywords ++ NANOAgentIntent.ocr_keywords.

Definition simple_keywords : list string :=
  common_keywords ++ SimpleNANOAgentIntent.file_keywords.

(** The maximal runs of word characters (letters, digits, underscore). *)
Definition word_tokens (s : string) : list string :=
  Py.runs_acc (fun c => negb (Py.is_word c)) [] s.

(** A run of digits only, at least six of them. *)
Definition number_token (w : string) : bool :=
  Py.sall Py.is_digit w && (6 <=? String.length w)%nat.

(** The first run of word characters that is a number of six digits or
    more. *)
Definition first_number_token (m : string) : option string :=
  List.find number_token (word_tokens m).

(** The run read so far, if it is not empty. *)
Definition flush (x : string) : list string :=
  if Py.nonempty x then [x] else [].

(** The customer of the test suite ([tests/test_agent.py]). *)
Definition john_doe : Customer.t :=
  Customer.mk "test123" "John Doe" "1234567890" "john@test.com" None None
    "What is your pet's name?" "fluffy" (F64.of_Z 1000) "active" None false 0
    None.

(** The fields of a customer row that are not contact data. *)
Definition same_protected (c c' : Customer.t) : Prop :=
  Customer.customer_id c' = Customer.customer_id c
  /\ Customer.full_name c' = Customer.full_name c
  /\ Customer.account_number c' = Customer.account_number c
  /\ Customer.security_question c' = Customer.security_question c
  /\ Customer.security_answer c' = Customer.security_answer c
  /\ Customer.account_balance c' = Customer.account_balance c
  /\ Customer.account_status c' = Customer.account_status c
  /\ Customer.is_verified c' = Customer.is_verified c
  /\ Customer.login_attempts c' = Customer.login_attempts c
  /\ Customer.last_login c' = Customer.last_login c.

(** No key of the dictionary is an updatable field. *)
Definition nothing_updatable (updates : list (string * string)) : bool :=
  forallb (fun kv => negb (Py.mem (fst kv) DatabaseOperationTools.updatable_fields))
          updates.

(** Replies of [verify_customer_identity]. *)
Definition too_many_attempts : string :=
  "Too many failed verification attempts. Please visit a branch.".
Definition incorrect_answer : string :=
  "Incorrect security answer. Please try again.".
Definition security_question_text (c : Customer.t) : string :=
  "Please answer your security question: " +:+ Customer.security_question c.

(** The turns of one session, one second apart: the agent after the last
    message and the replies in order. *)
Fixpoint converse (a : NANOAgent.t) (now : Z) (session_id : string)
    (messages : list string) : NANOAgent.t * list Response.t :=
  match messages with
  | [] => (a, [])
  | m :: rest =>
      let '(a1, r) := NANOAgent.process_message a now session_id m None in
      let '(a2, rs) := converse a1 (now + 1) session_id rest in
      (a2, r :: rs)
  end.

(** Successive calls of the verification handler on one session. *)
Fixpoint answer_all (db : DB.t) (now : Z) (session_id : string)
    (session : Session.t) (messages : list string)
    : outcome (DB.t * Session.t * list Response.t) :=
  match messages with
  | [] => Ok (db, session, [])
  | m :: rest =>
      match NANOAgent._handle_identity_verification db now session_id m session
              (entities (NANOAgentIntent._analyze_intent m)) with
      | Raised e => Raised e
      | Ok (db1, session1, r) =>
          match answer_all db1 (now + 1) session_id session1 rest with
          | Raised e => Raised e
          | Ok (db2, session2, rs) => Ok (db2, session2, r :: rs)
          end
      end
  end.

(** The store of the test suite: John Doe, account 1234567890, security
    answer "fluffy", balance 1000.00. *)
Definition test_db : DB.t := DB.mk [john_doe] [] [] [] [].

(** The second message of the scenario. *)
Definition credentials_message : string :=
  "My name is John Doe and my account number is 1234567890".

(** John Doe with three recorded failed attempts, and with a closed
    account. *)
Definition john_locked : Customer.t := Customer.with_login_attempts 3 john_doe.
Definition john_closed : Customer.t :=
  Customer.mk "test123" "John Doe" "1234567890" "john@test.com" None None
    "What is your pet's name?" "fluffy" (F64.of_Z 1000) "closed" None false 0
    None.

(** The customer row the pending name and account of a session select. *)
Definition pending_customer (db : DB.t) (session : Session.t)
    : option Customer.t :=
  IdentityVerificationTools.find_customer db
    (default "" (Session.temp_name session))
    (default "" (Session.temp_account session)).

(** John Doe with two recorded failed attempts. *)
Definition john_two_failures : Customer.t :=
  Customer.with_login_attempts 2 john_doe.

(** The row of John Doe after failed answers at the instants 10, 11, 12. *)
Definition john_after_three_failures : Customer.t :=
  Customer.failed_attempt 12
    (Customer.failed_attempt 11 (Customer.failed_attempt 10 john_doe)).

(** A session that awaits the security answer of John Doe. *)
Definition awaiting_john : Session.t :=
  Session.awaiting (Some "test123") "John Doe" "1234567890" (Session.fresh 0 None).

(** No conversation row is dated after the clock reading [now]. *)
Definition store_not_ahead (db : DB.t) (now : Z) : Prop :=
  Forall (fun c => (Conversation.created_at c <= now)%Z) (DB.conversations db).

(** The last reply of [_generate_response], and a message that carries
    the credentials together with a balance request. *)
Definition default_reply : string :=
  "I understand you need assistance. Could you please provide more specific information about how I can help you today?".

Definition balance_message : string :=
  "My name is John Doe, my account number is 1234567890 and I want my checking balance".

(** The fields of a customer row that identity verification does not
    write. *)
Definition same_account (c c' : Customer.t) : Prop :=
  Customer.customer_id c' = Customer.customer_id c
  /\ Customer.full_name c' = Customer.full_name c
  /\ Customer.account_number c' = Customer.account_number c
  /\ Customer.email c' = Customer.email c
  /\ Customer.phone c' = Customer.phone c
  /\ Customer.address c' = Customer.address c
  /\ Customer.security_question c' = Customer.security_question c
  /\ Customer.security_answer c' = Customer.security_answer c
  /\ Customer.account_balance c' = Customer.account_balance c
  /\ Customer.account_status c' = Customer.account_status c.

(** A name that holds neither of the wildcards of [LIKE]. *)
Definition wildcard_free (s : string) : Prop :=
  Py.sall (fun c => negb (Ascii.eqb c "%") && negb (Ascii.eqb c "_")) s = true.

(** The filter of the customer lookup, read as the comparison of the
    account number and the search for the name, in lower case, in the
    stored full name, in lower case. *)
Definition account_and_fragment (name account : string) (c : Customer.t)
    : bool :=
  String.eqb (Customer.account_number c) account
  && Py.contains (Py.lower name) (Py.lower (Customer.full_name c)).

(** Text of 7-bit characters: on it [str.isdigit] and the digit class of
    the patterns accept the same characters. *)
Definition ascii_text (s : string) : Prop :=
  Py.sall (fun c => (Py.ord c <? 128)%nat) s = true.

(** A string of blanks. *)
Definition blank (s : string) : Prop := Py.sall Py.is_space s = true.

(** The customer row after [update_contact_info] wrote the fields that
    were given. *)
Definition contact_updated (email phone address : option string) (now : Z)
    (c : Customer.t) : Customer.t :=
  Customer.mk (Customer.customer_id c) (Customer.full_name c)
    (Customer.account_number c) (default (Customer.email c) email)
    (match phone with Some v => Some v | None => Customer.phone c end)
    (match address with Some v => Some v | None => Customer.address c end)
    (Customer.security_question c) (Customer.security_answer c)
    (Customer.account_balance c) (Customer.account_status c) (Some now)
    (Customer.is_verified c) (Customer.login_attempts c)
    (Customer.last_login c).

(** The filter of [transaction_history]: a transaction of the customer
    that is not older than [start_date]. *)
Definition in_window (customer_id : string) (start_date : Z)
    (t : Transaction.t) : bool :=
  DatabaseOperationTools.of_customer customer_id t
  && (start_date <=? Transaction.created_at t)%Z.

(** [t] is not older than [u]. *)
Definition not_older (t u : Transaction.t) : Prop :=
  (Transaction.created_at u <= Transaction.created_at t)%Z.

(** The test of the knowledge-base search: a word of the topic occurs in
    the query. *)
Definition topic_word_in (query_lower : string)
    (e : GeneralSupportTools.kb_entry) : bool :=
  Py.any_hit (Py.split (Py.lower (GeneralSupportTools.topic e))) query_lower.

(** The replies to a message for a session that is gone. *)
Definition session_expired_reply (session_id : string) : Response.t :=
  Response.new_session_needed
    "I'm sorry, your session has expired. Please start a new conversation."
    session_id.
Definition session_timed_out_reply (session_id : string) : Response.t :=
  Response.new_session_needed
    "Your session has timed out for security reasons. Please start a new conversation."
    session_id.

(** The store and the session [_generate_response] works on in a turn of
    [process_message]: the store after the activity stamp and the user's
    message, the session with its activity stamp and the history read
    back from that store. *)
Definition turn_store (a : NANOAgent.t) (now : Z) (session_id message : string)
    (session : Session.t) : DB.t :=
  NANOAgent._save_conversation_message now session_id "user" message
    (Session.customer_id session)
    (NANOAgent._update_session_activity now session_id (NANOAgent.db a)).

Definition turn_session (a : NANOAgent.t) (now : Z) (session_id message : string)
    (session : Session.t) : Session.t :=
  Session.with_history
    (NANOAgent._get_conversation_history
       (turn_store a now session_id message session) now session_id 8)
    (Session.with_last_activity now session).

(** The reply of [process_message] when the turn raised. *)
Definition error_reply (session_id : string) : Response.t :=
  Response.mk
    "I apologize, but I'm experiencing technical difficulties. Please try again or contact customer service."
    session_id None None None None None None None None None (Some true).

(** The greeting of [_generate_response]. *)
Definition greeting_reply (session_id : string) : Response.t :=
  Response.mk
    ("Hello! I'm NANO, your " +:+ Settings.bank_name
     +:+ " customer service assistant. How can I help you today?")
    session_id (Some false) None None None None None None None None None.

(** The ticket [escalate_to_human] issues at the time [now] for a
    session: the date and the last six characters of the session id. *)
Definition ticket (now : Z) (session_id : string) : string :=
  "ESC-" +:+ Fmt.strftime_Ymd now +:+ "-" +:+ Py.last_chars 6 session_id.

(** The filter of [_get_conversation_history]: a row of the session that
    is not older than the cutoff. *)
Definition in_history (session_id : string) (cutoff_time : Z)
    (c : Conversation.t) : bool :=
  String.eqb (Conversation.session_id c) session_id
  && (cutoff_time <=? Conversation.created_at c)%Z.

(** The history entry of a conversation row. *)
Definition entry_of (c : Conversation.t) : Session.history_entry :=
  Session.mk_entry (Conversation.role c) (Conversation.message c)
    (Conversation.created_at c).

(** [c] is not later than [d]. *)
Definition not_later (c d : Conversation.t) : Prop :=
  (Conversation.created_at c <= Conversation.created_at d)%Z.

(** The turns of one session with [SimpleNANOAgent], one second apart. *)
Fixpoint simple_converse (a : SimpleNANOAgent.t) (now : Z) (session_id : string)
    (messages : list string) : SimpleNANOAgent.t * list Response.t :=
  match messages with
  | [] => (a, [])
  | m :: rest =>
      let '(a1, r) := SimpleNANOAgent.process_message a now session_id m None in
      let '(a2, rs) := simple_converse a1 (now + 1) session_id rest in
      (a2, r :: rs)
  end.

(** A session that is neither verified nor awaiting a security answer. *)
Definition plain_session (s : Session.t) : Prop :=
  Session.is_verified s = false /\ Session.awaiting_security_answer s = false.

(** No session row of the store is verified. *)
Definition unverified_store (db : DB.t) : Prop :=
  Forall (fun r => DBSession.is_verified r = false) (DB.sessions db).

(** The tools that do not read or write the data of an account. *)
Definition open_tools : list string :=
  ["verify_customer_identity"; "escalate_to_human"; "banking_knowledge_base"].

(** The reply names no tool outside [open_tools]. *)
Definition uses_open_tools_only (r : Response.t) : Prop :=
  forall tool, In tool (default [] (Response.tools_used r)) -> In tool open_tools.

(** The number of characters a pattern takes when each of its items
    repeats a class a fixed number of times. *)
Fixpoint fixed_width (p : Re.pattern) : option nat :=
  match p with
  | [] => Some 0%nat
  | Re.Rep _ lo (Some hi) :: p' =>
      if (lo =? hi)%nat
      then match fixed_width p' with
           | Some n => Some (lo + n)%nat
           | None => None
           end
      else None
  | _ => None
  end.

(** * Properties *)

(** ** The embedding on sample inputs *)

Example search_account_1 :
  Re.search Re.account_pattern "my account number is 1234567890 ok" = Some "1234567890".
Proof. reflexivity. Qed.

Example search_account_2 :
  Re.search Re.account_pattern "acct123456 then 7654321." = Some "7654321".
Proof. reflexivity. Qed.

Example search_phone_1 :
  Re.search Re.phone_pattern "call 555-012-3456 now" = Some "555-012-3456".
Proof. reflexivity. Qed.

Example search_email_1 :
  Re.search Re.email_pattern "update my email to john.new@email.com." = Some "john.new@email.com".
Proof. reflexivity. Qed.

Example split_1 : Py.split "  My name  is	John " = ["My"; "name"; "is"; "John"].
Proof. reflexivity. Qed.

(** [3 * 0.3] is [0.8999999999999999], below the literal [0.9]. *)
Example float_3_03 :
  F64.ltb (F64.mul (F64.of_nat 3) (F64.lit 3 10)) (F64.lit 9 10) = true.
Proof. reflexivity. Qed.

(** [7 * 0.2] is [1.4000000000000001], above [4 * 0.35 = 1.4]. *)
Example float_7_02 :
  F64.ltb (F64.mul (F64.of_nat 4) (F64.lit 35 100)) (F64.mul (F64.of_nat 7) (F64.lit 2 10)) = true
  /\ F64.mul (F64.of_nat 4) (F64.lit 35 100) = F64.lit 14 10.
Proof. split; reflexivity. Qed.

Example float_2_04 : F64.mul (F64.of_nat 2) (F64.lit 4 10) = F64.lit 8 10.
Proof. reflexivity. Qed.

Example analyze_balance :
  let a := NANOAgentIntent._analyze_intent "What's my balance?" in
  primary_intent a = "balance_inquiry"
  /\ confidence a = F64.lit 4 10
  /\ map fst (all_intents a) = ["balance_inquiry"; "general_support"].
Proof. vm_compute. auto. Qed.

Example analyze_credentials :
  let a := NANOAgentIntent._analyze_intent
             "My name is John Doe and my account number is 1234567890" in
  primary_intent a = "identity_verification"
  /\ map fst (all_intents a)
     = ["identity_verification"; "identity_verification"; "update_information"]
  /\ entities a = {| account_number := Some "1234567890";
                     update_field := Some "phone";
                     new_email := None;
                     new_phone := Some "1234567890" |}.
Proof. vm_compute. auto. Qed.

Example analyze_fluffy :
  let a := NANOAgentIntent._analyze_intent "fluffy" in
  primary_intent a = "general_inquiry" /\ all_intents a = [].
Proof. vm_compute. auto. Qed.

Example format_1000 : Fmt.format_2f (F64.of_Z 1000) = "1000.00".
Proof. reflexivity. Qed.
Example format_eighth : Fmt.format_2f (F64.lit 125 1000) = "0.12".
Proof. reflexivity. Qed.
Example format_2675 : Fmt.format_2f (F64.lit 2675 1000) = "2.67".
Proof. reflexivity. Qed.
Example format_1005 : Fmt.format_2f (F64.lit 1005 10) = "100.50".
Proof. reflexivity. Qed.
Example strftime_1 : Fmt.strftime_full 1700000000 = "2023-11-14 22:13:20".
Proof. reflexivity. Qed.
Example strftime_2 : Fmt.strftime_Ymd 951782400 = "20000229".
Proof. reflexivity. Qed.

Example ilike_1 : Sql.ilike "John Doe" "%john d%" = true.
Proof. reflexivity. Qed.
Example ilike_2 : Sql.ilike "John Doe" "%Jane%" = false.
Proof. reflexivity. Qed.
Example ilike_3 : Sql.ilike "John Doe" "%j_hn%e%" = true.
Proof. reflexivity. Qed.


(** ** The order of positive binary64 numbers *)

Section FloatOrder.

Lemma ltb_pos_finite (m1 m2 : positive) (e1 e2 : Z) :
  F64.ltb (S754_finite false m1 e1) (S754_finite false m2 e2) = true
  <-> (e1 < e2 \/ (e1 = e2 /\ Z.pos m1 < Z.pos m2))%Z.
Proof.
  unfold F64.ltb, SFltb, SFcompare.
  destruct (Z.compare_spec e1 e2) as [He|He|He].
  - replace (Pos.compare_cont Eq m1 m2) with (m1 ?= m2)%positive by reflexivity.
    destruct (Pos.compare_spec m1 m2); split; intros H0;
      try discriminate; try reflexivity; lia.
  - split; [intros _; lia | reflexivity].
  - split; [discriminate | lia].
Qed.

Lemma eqb_pos_finite (m1 m2 : positive) (e1 e2 : Z) :
  F64.eqb (S754_finite false m1 e1) (S754_finite false m2 e2) = true
  <-> e1 = e2 /\ m1 = m2.
Proof.
  unfold F64.eqb, SFeqb, SFcompare.
  destruct (Z.compare_spec e1 e2) as [He|He|He].
  - replace (Pos.compare_cont Eq m1 m2) with (m1 ?= m2)%positive by reflexivity.
    destruct (Pos.compare_spec m1 m2); split; intros H0;
      try discriminate; try reflexivity; try (split; congruence);
      destruct H0; lia.
  - split; [discriminate | lia].
  - split; [discriminate | lia].
Qed.

Lemma ltb_asym (x y : F64.float) :
  F64.pos_finite x = true -> F64.pos_finite y = true ->
  F64.ltb x y = true -> not_below y x.
Proof.
  destruct x as [| | |[] m1 e1], y as [| | |[] m2 e2]; try discriminate.
  intros _ _ H. apply ltb_pos_finite in H.
  unfold not_below. apply not_true_is_false. rewrite ltb_pos_finite. lia.
Qed.

Lemma not_below_trans (x y z : F64.float) :
  F64.pos_finite x = true -> F64.pos_finite y = true ->
  F64.pos_finite z = true ->
  not_below x y -> not_below y z -> not_below x z.
Proof.
  destruct x as [| | |[] m1 e1], y as [| | |[] m2 e2], z as [| | |[] m3 e3];
    try discriminate.
  unfold not_below. intros _ _ _ H1 H2.
  apply not_true_iff_false in H1, H2. rewrite ltb_pos_finite in H1, H2.
  apply not_true_is_false. rewrite ltb_pos_finite. lia.
Qed.

Lemma ltb_eqb_apart (x y v : F64.float) :
  F64.pos_finite x = true -> F64.pos_finite y = true ->
  F64.ltb x y = true -> F64.eqb x v = true -> F64.eqb y v = false.
Proof.
  destruct x as [| | |[] m1 e1], y as [| | |[] m2 e2]; try discriminate.
  intros _ _ H Hx. apply ltb_pos_finite in H.
  destruct v as [[]|[]| |[] m3 e3]; try discriminate.
  apply eqb_pos_finite in Hx. apply not_true_is_false.
  rewrite eqb_pos_finite. destruct Hx; subst. intros [-> Hm]. lia.
Qed.

End FloatOrder.

(** ** The stable descending sort *)

Section SortDesc.

Import Intent.

Lemma insert_desc_perm (x : scored) (l : list scored) :
  Permutation (insert_desc x l) (x :: l).
Proof.
  induction l as [|y l IH]; simpl; [reflexivity|].
  destruct (F64.ltb (snd x) (snd y)); [|reflexivity].
  rewrite IH. apply perm_swap.
Qed.

Lemma sort_desc_perm (l : list scored) : Permutation (sort_desc l) l.
Proof.
  induction l as [|x l IH]; simpl; [reflexivity|].
  rewrite insert_desc_perm. now apply perm_skip.
Qed.

Lemma insert_desc_sorted (x : scored) (l : list scored) :
  positive_score x -> Forall positive_score l ->
  StronglySorted ranks_before l ->
  StronglySorted ranks_before (insert_desc x l).
Proof.
  intros Hx Hl Hs. induction Hs as [|y l Hs IH Hy]; simpl.
  - repeat constructor.
  - apply Forall_cons in Hl as [Hpy Hl].
    destruct (F64.ltb (snd x) (snd y)) eqn:Hlt.
    + constructor; [now apply IH|].
      rewrite (insert_desc_perm x l). constructor; [|exact Hy].
      now apply ltb_asym.
    + constructor; [now constructor|].
      constructor; [exact Hlt|].
      rewrite Forall_forall in Hy, Hl |- *. intros z Hz.
      apply (not_below_trans _ (snd y)); auto.
      * now apply Hl.
      * now apply Hy.
Qed.

Lemma sort_desc_positive (l : list scored) :
  Forall positive_score l -> Forall positive_score (sort_desc l).
Proof. intros H. now rewrite (sort_desc_perm l). Qed.

Lemma sort_desc_sorted (l : list scored) :
  Forall positive_score l -> StronglySorted ranks_before (sort_desc l).
Proof.
  induction l as [|x l IH]; simpl; intros H; [constructor|].
  apply Forall_cons in H as [Hx Hl].
  apply insert_desc_sorted; auto using sort_desc_positive.
Qed.

Lemma insert_desc_filter (v : F64.float) (x : scored) (l : list scored) :
  positive_score x -> Forall positive_score l ->
  List.filter (has_score v) (insert_desc x l)
  = List.filter (has_score v) (x :: l).
Proof.
  intros Hx Hl. induction Hl as [|y l Hy Hl IH]; [reflexivity|].
  cbn [insert_desc]. destruct (F64.ltb (snd x) (snd y)) eqn:Hlt; [|reflexivity].
  cbn [List.filter] in *. rewrite IH.
  destruct (has_score v x) eqn:Hvx; [|reflexivity].
  unfold has_score in *.
  now rewrite (ltb_eqb_apart (snd x) (snd y) v).
Qed.

(** Stability: the entries of one score come out in the order they went in. *)
Lemma sort_desc_stable (v : F64.float) (l : list scored) :
  Forall positive_score l ->
  List.filter (has_score v) (sort_desc l) = List.filter (has_score v) l.
Proof.
  induction l as [|x l IH]; intros H; [reflexivity|].
  apply Forall_cons in H as [Hx Hl]. simpl sort_desc.
  rewrite insert_desc_filter; auto using sort_desc_positive.
  cbn [List.filter]. now rewrite IH.
Qed.

End SortDesc.

(** ** Every candidate of the classifier has a positive score *)

Section CandidateScores.

Import Intent.

Lemma weighted_positive (w : F64.float) (bound n : nat) :
  scores_ok w bound = true -> (0 < n <= bound)%nat ->
  F64.pos_finite (F64.mul (F64.of_nat n) w) = true.
Proof.
  unfold scores_ok. rewrite forallb_forall. intros H Hn.
  apply H, in_seq. lia.
Qed.

Lemma count_hits_bound (kws : list string) (text : string) :
  (Py.count_hits kws text <= length kws)%nat.
Proof. unfold Py.count_hits. apply length_filter. Qed.

Lemma keyword_entry_positive (name : string) (w : F64.float) (bound score : nat) :
  scores_ok w bound = true -> (score <= bound)%nat ->
  Forall positive_score (keyword_entry name score w).
Proof.
  intros Hw Hs. unfold keyword_entry.
  destruct (0 <? score)%nat eqn:H0; constructor; [|constructor].
  apply Nat.ltb_lt in H0. apply (weighted_positive w bound); [done | lia].
Qed.

Lemma update_entry_positive (ml : string) :
  Forall positive_score (update_entry ml).
Proof.
  unfold update_entry, update_wanted.
  pose proof (count_hits_bound update_keywords ml) as Hu.
  pose proof (count_hits_bound contact_keywords ml) as Hc.
  destruct (_ || _) eqn:H0; constructor; [|constructor].
  apply orb_true_iff in H0. rewrite !Nat.ltb_lt in H0.
  apply (weighted_positive _ 10); [by vm_compute|]. simpl in Hu, Hc. lia.
Qed.

Lemma nano_file_entry_positive (ml : string) :
  Forall positive_score (NANOAgentIntent.file_entry ml).
Proof.
  unfold NANOAgentIntent.file_entry.
  pose proof (count_hits_bound NANOAgentIntent.file_keywords ml) as Hf.
  pose proof (count_hits_bound NANOAgentIntent.ocr_keywords ml) as Ho.
  simpl in Hf, Ho.
  destruct (_ || _) eqn:H0; [|constructor].
  apply orb_true_iff in H0. rewrite !Nat.ltb_lt in H0.
  destruct (0 <? Py.count_hits NANOAgentIntent.ocr_keywords ml)%nat eqn:H1;
    (constructor; [|constructor]).
  - apply Nat.ltb_lt in H1.
    apply (weighted_positive _ 17); [by vm_compute | lia].
  - apply Nat.ltb_ge in H1.
    apply (weighted_positive _ 10); [by vm_compute | lia].
Qed.

Lemma simple_file_entry_positive (ml : string) :
  Forall positive_score (SimpleNANOAgentIntent.file_entry ml).
Proof.
  apply (keyword_entry_positive _ _ 7); [by vm_compute|].
  apply (count_hits_bound SimpleNANOAgentIntent.file_keywords).
Qed.

Lemma candidates_positive (file_entry : string -> list scored) (m : string) :
  (forall ml, Forall positive_score (file_entry ml)) ->
  Forall positive_score (candidates file_entry m).
Proof.
  intros Hfe. unfold candidates. repeat apply Forall_app_2; try apply Hfe.
  - apply (keyword_entry_positive _ _ 6); [by vm_compute|].
    apply (count_hits_bound identity_keywords).
  - unfold account_entry. destruct (account_matches m); repeat constructor.
  - apply (keyword_entry_positive _ _ 8); [by vm_compute|].
    apply (count_hits_bound balance_keywords).
  - apply (keyword_entry_positive _ _ 9); [by vm_compute|].
    apply (count_hits_bound transaction_keywords).
  - apply update_entry_positive.
  - apply (keyword_entry_positive _ _ 7); [by vm_compute|].
    apply (count_hits_bound help_keywords).
  - apply (keyword_entry_positive _ _ 9); [by vm_compute|].
    apply (count_hits_bound escalation_keywords).
  - unfold greeting_entry. destruct (_ && _); repeat constructor.
Qed.

End CandidateScores.

(** ** The ranking the classifier returns *)

Section Ranking.

Import Intent.

Lemma count_hits_none (kws : list string) (text : string) :
  Py.any_hit kws text = false -> Py.count_hits kws text = 0%nat.
Proof.
  unfold Py.count_hits, Py.any_hit.
  induction kws as [|kw kws IH]; simpl; [done|].
  intros [H1 H2]%orb_false_iff. rewrite filter_cons.
  destruct (decide _) as [E|_]; [congruence | auto].
Qed.

Lemma any_hit_app (k1 k2 : list string) (text : string) :
  Py.any_hit (k1 ++ k2)%list text = Py.any_hit k1 text || Py.any_hit k2 text.
Proof. apply existsb_app. Qed.

Lemma keyword_entry_none (name : string) (kws : list string) (w : F64.float)
    (text : string) :
  Py.any_hit kws text = false ->
  keyword_entry name (Py.count_hits kws text) w = [].
Proof. intros H. now rewrite (count_hits_none _ _ H). Qed.

Lemma keyword_entry_names (name : string) (score : nat) (w : F64.float) :
  sublist (map fst (keyword_entry name score w)) [name].
Proof.
  unfold keyword_entry. destruct (0 <? score)%nat; simpl.
  - reflexivity.
  - apply sublist_nil_l.
Qed.

Lemma candidates_names (file_entry : string -> list scored)
    (file_names : list string) (m : string) :
  (forall ml, sublist (map fst (file_entry ml)) file_names) ->
  sublist (map fst (candidates file_entry m))
          (common_head ++ file_names ++ common_tail)%list.
Proof.
  intros Hfe. unfold candidates. rewrite !map_app.
  change common_head with
    (["identity_verification"] ++ ["identity_verification"]
     ++ ["balance_inquiry"] ++ ["transaction_history"] ++ ["update_information"])%list.
  change common_tail with (["general_support"] ++ ["escalation"] ++ ["greeting"])%list.
  rewrite <- !app_assoc.
  repeat apply sublist_app; try apply keyword_entry_names; try apply Hfe.
  - unfold account_entry. destruct (account_matches m); simpl;
      [reflexivity | apply sublist_nil_l].
  - unfold update_entry. destruct (update_wanted _); simpl;
      [reflexivity | apply sublist_nil_l].
  - unfold greeting_entry. destruct (_ && _); simpl;
      [reflexivity | apply sublist_nil_l].
Qed.

Lemma candidates_none (file_entry : string -> list scored) (m : string) :
  Py.any_hit common_keywords (Py.lower m) = false ->
  file_entry (Py.lower m) = [] ->
  account_matches m = None ->
  candidates file_entry m = [].
Proof.
  unfold common_keywords. rewrite !any_hit_app, !orb_false_iff.
  intros (Hi & Hb & Ht & Hu & Hc & Hh & He & Hg) Hf Ha.
  unfold candidates, identity_entry, balance_entry, transaction_entry,
    help_entry, escalation_entry, account_entry, update_entry, update_wanted,
    greeting_entry.
  rewrite !keyword_entry_none by assumption.
  rewrite Hf, Ha, Hg, (count_hits_none _ _ Hu), (count_hits_none _ _ Hc).
  reflexivity.
Qed.

Lemma analyze_ranking (file_entry : string -> list scored)
    (file_names file_kws : list string) (m : string) :
  (forall ml, Forall positive_score (file_entry ml)) ->
  (forall ml, sublist (map fst (file_entry ml)) file_names) ->
  (forall ml, Py.any_hit file_kws ml = false -> file_entry ml = []) ->
  ranking file_entry (common_head ++ file_names ++ common_tail)%list
          (common_keywords ++ file_kws)%list m.
Proof.
  intros Hpos Hnames Hnone. unfold ranking. cbn [all_intents analyze].
  pose proof (candidates_positive file_entry m Hpos) as Hc.
  split; [apply sort_desc_perm|].
  split; [now apply sort_desc_sorted|].
  split; [intros v; now apply sort_desc_stable|].
  split; [now apply candidates_names|].
  rewrite any_hit_app. intros [Hk Hf]%orb_false_iff Ha.
  unfold analyze. cbn [all_intents primary_intent confidence].
  rewrite (candidates_none file_entry m Hk (Hnone _ Hf) Ha). auto.
Qed.

Lemma nano_file_entry_names (ml : string) :
  sublist (map fst (NANOAgentIntent.file_entry ml))
          ["document_ocr"; "file_management"].
Proof.
  unfold NANOAgentIntent.file_entry.
  destruct (_ || _); [|apply sublist_nil_l].
  destruct (0 <? _)%nat; simpl.
  - apply sublist_skip, sublist_nil_l.
  - apply sublist_cons. reflexivity.
Qed.

Lemma nano_file_entry_none (ml : string) :
  Py.any_hit (NANOAgentIntent.file_keywords ++ NANOAgentIntent.ocr_keywords)%list ml
  = false ->
  NANOAgentIntent.file_entry ml = [].
Proof.
  rewrite any_hit_app. intros [Hf Ho]%orb_false_iff.
  unfold NANOAgentIntent.file_entry.
  now rewrite (count_hits_none _ _ Hf), (count_hits_none _ _ Ho).
Qed.

End Ranking.

(** C8 (as amended).  For every message, both agents return the candidate
    list sorted by descending score: it is a permutation of the candidates
    in evaluation order, no entry is followed by one of a higher score,
    the entries of one score keep the order in which the categories are
    evaluated in the source, and when no keyword occurs in the message and
    no account number is found in it the list is empty, the primary intent
    is [general_inquiry] and the confidence is [0.1]. *)
Theorem C8_ranking_sorted_stable_with_fallback (m : string) :
  ranking NANOAgentIntent.file_entry nano_order nano_keywords m
  /\ ranking SimpleNANOAgentIntent.file_entry simple_order simple_keywords m.
Proof.
  split.
  - apply (analyze_ranking NANOAgentIntent.file_entry
             ["document_ocr"; "file_management"]
             (NANOAgentIntent.file_keywords ++ NANOAgentIntent.ocr_keywords)%list).
    + apply nano_file_entry_positive.
    + apply nano_file_entry_names.
    + apply nano_file_entry_none.
  - apply (analyze_ranking SimpleNANOAgentIntent.file_entry
             ["file_management"] SimpleNANOAgentIntent.file_keywords).
    + apply simple_file_entry_positive.
    + intros ml. apply keyword_entry_names.
    + intros ml H. now apply keyword_entry_none.
Qed.

(** The fallback of C8 on the message ["fluffy"]. *)
Lemma C8_ranking_witness :
  Py.any_hit nano_keywords (Py.lower "fluffy") = false
  /\ Intent.account_matches "fluffy" = None
  /\ primary_intent (NANOAgentIntent._analyze_intent "fluffy") = "general_inquiry"
  /\ confidence (NANOAgentIntent._analyze_intent "fluffy") = F64.lit 1 10.
Proof.
  assert (Hk : Py.any_hit nano_keywords (Py.lower "fluffy") = false)
    by (vm_compute; reflexivity).
  assert (Ha : Intent.account_matches "fluffy" = None)
    by (vm_compute; reflexivity).
  split; [exact Hk|]. split; [exact Ha|].
  destruct (C8_ranking_sorted_stable_with_fallback "fluffy")
    as [(_ & _ & _ & _ & Hfall) _].
  destruct (Hfall Hk Ha) as (_ & Hp & Hc).
  split; [exact Hp | exact Hc].
Defined.

(** C8 as stated fails: no keyword of any category occurs in
    ["1234567890"], yet the primary intent is [identity_verification]
    with confidence [0.5], because the account-number rule adds a
    candidate of its own. *)
Lemma C8_counterexample_account_number_only :
  Py.any_hit nano_keywords (Py.lower "1234567890") = false
  /\ primary_intent (NANOAgentIntent._analyze_intent "1234567890")
     = "identity_verification"
  /\ confidence (NANOAgentIntent._analyze_intent "1234567890") = F64.lit 5 10
  /\ primary_intent (SimpleNANOAgentIntent._analyze_intent "1234567890")
     <> "general_inquiry".
Proof. vm_compute. repeat split; discriminate. Qed.

(** ** The account number the extractor finds *)

Section AccountPattern.

Import Py Re.

Lemma digit_is_word (c : ascii) : is_digit c = true -> is_word c = true.
Proof. unfold is_word. intros ->. now rewrite orb_true_r. Qed.

Lemma rep_digits (lo : nat) (prev : option ascii) (s : string) :
  (lo = 0%nat -> word_of prev = true) ->
  rep is_digit lo None (match_here [Boundary]) prev s
  = if (lo <=? String.length (take_while is_digit s))%nat
       && negb (word_of (head_char (drop_while is_digit s)))
    then Some (take_while is_digit s) else None.
Proof.
  revert lo prev. induction s as [|c s IH]; intros lo prev Hlo.
  - destruct lo; [|reflexivity].
    cbn. unfold at_boundary. rewrite Hlo by reflexivity. reflexivity.
  - cbn [rep take_while drop_while]. destruct (is_digit c) eqn:Hc.
    + cbn [andb may_take dec].
      rewrite IH by (intros _; cbn; now apply digit_is_word).
      cbn [String.length]. destruct lo as [|lo]; cbn [pred Nat.leb].
      * destruct (negb _); cbn [andb]; [reflexivity|].
        cbn. unfold at_boundary. rewrite Hlo by reflexivity.
        cbn. now rewrite (digit_is_word c Hc).
      * now destruct (_ && _).
    + cbn [andb]. destruct lo; [|reflexivity].
      cbn. unfold at_boundary. rewrite Hlo by reflexivity. cbn.
      now destruct (is_word c).
Qed.

Lemma match_account (prev : option ascii) (s : string) :
  match_here account_pattern prev s
  = if at_boundary prev s
       && (6 <=? String.length (take_while is_digit s))%nat
       && negb (word_of (head_char (drop_while is_digit s)))
    then Some (take_while is_digit s) else None.
Proof.
  unfold account_pattern, at_least. cbn [match_here].
  destruct (at_boundary prev s); [|reflexivity].
  change (rep is_digit 6 None (fun p t => if at_boundary p t then Some "" else None))
    with (rep is_digit 6 None (match_here [Boundary])).
  now rewrite rep_digits by discriminate.
Qed.

Lemma digits_end_word (s : string) :
  word_of (head_char (drop_while is_digit s)) = false ->
  take_while is_word s = take_while is_digit s.
Proof.
  induction s as [|c s IH]; [reflexivity|]. cbn [take_while drop_while].
  destruct (is_digit c) eqn:Hc.
  - intros H. rewrite (digit_is_word c Hc). now rewrite IH.
  - cbn. now intros ->.
Qed.

Lemma word_of_digits (s : string) :
  sall is_digit (take_while is_word s) = true ->
  take_while is_digit s = take_while is_word s
  /\ word_of (head_char (drop_while is_digit s)) = false.
Proof.
  induction s as [|c s IH]; [now split|]. cbn [take_while drop_while].
  destruct (is_word c) eqn:Hw.
  - cbn [sall]. intros [Hc Hs]%andb_true_iff. rewrite Hc.
    destruct (IH Hs) as [-> H]. now split.
  - intros _. destruct (is_digit c) eqn:Hc.
    + apply digit_is_word in Hc. congruence.
    + cbn. now split.
Qed.

Lemma string_of_snoc (l : list ascii) (c : ascii) (x : string) :
  string_of_list_ascii (l ++ [c]) +:+ x = string_of_list_ascii l +:+ String c x.
Proof.
  induction l as [|a l IH]; [reflexivity|].
  change (String a (string_of_list_ascii (l ++ [c]) +:+ x)
          = String a (string_of_list_ascii l +:+ String c x)).
  now rewrite IH.
Qed.

Lemma flush_cur (cur : list ascii) :
  match cur with [] => [] | _ => [string_of_list_ascii (rev cur)] end
  = flush (string_of_list_ascii (rev cur)).
Proof.
  destruct cur as [|a cur]; [reflexivity|]. cbn [rev]. unfold flush.
  destruct (rev cur); reflexivity.
Qed.

Lemma append_empty (x : string) : x +:+ "" = x.
Proof.
  induction x as [|a x IH]; [reflexivity|].
  change (String a (x +:+ "") = String a x). now rewrite IH.
Qed.

Lemma runs_acc_spec (p : ascii -> bool) (cur : list ascii) (s : string) :
  runs_acc (fun c => negb (p c)) cur s
  = (flush (string_of_list_ascii (rev cur) +:+ take_while p s)
     ++ runs_acc (fun c => negb (p c)) [] (drop_while p s))%list.
Proof.
  revert cur. induction s as [|c s IH]; intros cur.
  - cbn [runs_acc take_while drop_while]. rewrite append_empty, flush_cur.
    now rewrite app_nil_r.
  - cbn [runs_acc take_while drop_while]. destruct (p c) eqn:Hc; cbn [negb].
    + rewrite IH. cbn [rev]. now rewrite string_of_snoc.
    + rewrite append_empty, flush_cur. cbn [runs_acc]. now rewrite Hc.
Qed.

Lemma word_tokens_word (c : ascii) (s : string) :
  is_word c = true ->
  word_tokens (String c s)
  = take_while is_word (String c s)
    :: word_tokens (drop_while is_word (String c s)).
Proof.
  intros Hc. unfold word_tokens. rewrite runs_acc_spec.
  cbn [rev string_of_list_ascii take_while]. rewrite Hc. reflexivity.
Qed.

Lemma word_tokens_other (c : ascii) (s : string) :
  is_word c = false -> word_tokens (String c s) = word_tokens s.
Proof. intros Hc. unfold word_tokens. cbn [runs_acc]. now rewrite Hc. Qed.

Lemma drop_while_length (p : ascii -> bool) (s : string) :
  (String.length (drop_while p s) <= String.length s)%nat.
Proof.
  induction s as [|c s IH]; cbn; [lia|]. destruct (p c); cbn; lia.
Qed.

(** Inside a word no match starts, and none starts right behind it. *)
Lemma search_inside_word (prev : option ascii) (s : string) :
  word_of prev = true ->
  search_from account_pattern prev s
  = match drop_while is_word s with
    | EmptyString => None
    | String d rest => search_from account_pattern (Some d) rest
    end.
Proof.
  revert prev. induction s as [|c s IH]; intros prev Hp.
  - cbn [search_from drop_while]. rewrite match_account. cbn.
    now rewrite andb_false_r.
  - cbn [search_from drop_while]. rewrite match_account.
    unfold at_boundary. rewrite Hp. cbn [head_char word_of].
    destruct (is_word c) eqn:Hc; cbn [xorb andb].
    + now apply IH.
    + cbn [take_while]. destruct (is_digit c) eqn:Hd.
      * apply digit_is_word in Hd. congruence.
      * reflexivity.
Qed.

Lemma search_tokens (n : nat) (prev : option ascii) (s : string) :
  (String.length s <= n)%nat -> word_of prev = false ->
  search_from account_pattern prev s = List.find number_token (word_tokens s).
Proof.
  revert prev s. induction n as [|n IH]; intros prev s Hn Hp.
  - destruct s; [|cbn in Hn; lia]. cbn [search_from]. rewrite match_account.
    unfold at_boundary. now rewrite Hp.
  - destruct s as [|c s].
    + cbn [search_from]. rewrite match_account.
      unfold at_boundary. now rewrite Hp.
    + cbn [String.length] in Hn. cbn [search_from]. rewrite match_account.
      unfold at_boundary. rewrite Hp. cbn [head_char word_of].
      destruct (is_word c) eqn:Hc; cbn [xorb andb].
      * rewrite (word_tokens_word c s Hc). cbn [List.find].
        destruct ((6 <=? _)%nat && negb _) eqn:Hm.
        -- apply andb_true_iff in Hm as [Hlen Hend].
           apply negb_true_iff in Hend.
           rewrite (digits_end_word _ Hend). unfold number_token.
           rewrite Hlen, andb_true_r.
           assert (Hall : forall t, sall is_digit (take_while is_digit t) = true).
           { induction t as [|a t IHt]; [reflexivity|]. cbn.
             destruct (is_digit a) eqn:Ha; cbn; [now rewrite Ha|reflexivity]. }
           now rewrite Hall.
        -- assert (Hno : number_token (take_while is_word (String c s)) = false).
           { unfold number_token.
             destruct (sall is_digit (take_while is_word (String c s))) eqn:Hall;
               [|reflexivity].
             destruct (word_of_digits _ Hall) as [Heq Hend].
             rewrite <- Heq. rewrite Hend in Hm. cbn [negb] in Hm.
             now rewrite andb_true_r in Hm. }
           rewrite Hno. rewrite search_inside_word by (cbn; exact Hc).
           cbn [drop_while]. rewrite Hc.
           pose proof (drop_while_length is_word s) as Hlen.
           destruct (drop_while is_word s) as [|d rest] eqn:Hrest.
           ++ reflexivity.
           ++ assert (Hd : is_word d = false).
              { clear -Hrest. induction s as [|a s IHs]; [discriminate|].
                cbn in Hrest. destruct (is_word a) eqn:Ha; [auto|].
                congruence. }
              rewrite (word_tokens_other d rest Hd).
              apply IH; [cbn in Hlen; lia | exact Hd].
      * cbn [take_while]. destruct (is_digit c) eqn:Hd.
        { apply digit_is_word in Hd. congruence. }
        rewrite (word_tokens_other c s Hc). apply IH; [lia | exact Hc].
Qed.

Lemma account_matches_tokens (m : string) :
  Intent.account_matches m = first_number_token m.
Proof.
  unfold Intent.account_matches, search, first_number_token.
  now apply (search_tokens (String.length m)).
Qed.

End AccountPattern.

(** C7 (as amended).  For every message, the [account_number] entity of
    both agents is the first maximal run of word characters that consists
    of digits only and has at least six of them, and it is absent when the
    message has no such run. *)
Theorem C7_account_number_is_first_delimited_run (m : string) :
  account_number (entities (NANOAgentIntent._analyze_intent m))
  = first_number_token m
  /\ account_number (entities (SimpleNANOAgentIntent._analyze_intent m))
     = first_number_token m.
Proof. split; apply account_matches_tokens. Qed.

(** C7 as stated fails: ["acct123456"] contains a run of six digits, and
    the extractor returns no account number, because the run is glued to
    letters; in ["id123456 or 7654321"] the entity is the second run. *)
Lemma C7_counterexample_run_glued_to_letters :
  account_number (entities (NANOAgentIntent._analyze_intent "acct123456")) = None
  /\ account_number (entities (SimpleNANOAgentIntent._analyze_intent "acct123456")) = None
  /\ account_number (entities (NANOAgentIntent._analyze_intent "id123456 or 7654321"))
     = Some "7654321".
Proof. vm_compute. auto. Qed.

(** ** The customer lookup of the verification tool *)

Section Lookup.

Import Py Sql.

Lemma smap_app (f : ascii -> ascii) (a b : string) :
  smap f (a +:+ b) = smap f a +:+ smap f b.
Proof.
  induction a as [|x a IH]; [reflexivity|].
  change (String (f x) (smap f (a +:+ b)) = String (f x) (smap f a +:+ smap f b)).
  now rewrite IH.
Qed.

Lemma like_percent (p s : string) :
  like (String "%" p) s
  = like p s || match s with
                | EmptyString => false
                | String _ s' => like (String "%" p) s'
                end.
Proof. destruct s; reflexivity. Qed.

Lemma like_any (s : string) : like "%" s = true.
Proof.
  induction s as [|c s IH]; [reflexivity|].
  rewrite like_percent, IH. apply orb_true_r.
Qed.

(** A pattern read as plain text matches itself, whatever wildcards it
    holds, and the final [%] takes the rest. *)
Lemma like_startswith (q s : string) :
  startswith q s = true -> like (q +:+ "%") s = true.
Proof.
  revert s. induction q as [|a q IH]; intros s H.
  - apply like_any.
  - destruct s as [|b s]; [discriminate|]. cbn [startswith] in H.
    apply andb_true_iff in H as [Hab Hq]. apply Ascii.eqb_eq in Hab. subst b.
    specialize (IH s Hq).
    change (String a q +:+ "%") with (String a (q +:+ "%")).
    destruct (Ascii.eqb a "%") eqn:E1.
    + apply Ascii.eqb_eq in E1. subst a. rewrite like_percent.
      rewrite (like_percent (q +:+ "%") s), IH. cbn. apply orb_true_r.
    + cbn [like]. rewrite E1. destruct (Ascii.eqb a "_") eqn:E2; [exact IH|].
      now rewrite Ascii.eqb_refl.
Qed.

Lemma like_contains (q s : string) :
  contains q s = true -> like (String "%" (q +:+ "%")) s = true.
Proof.
  induction s as [|c s IH]; cbn [contains]; intros H; rewrite like_percent.
  - rewrite orb_false_r in H. now rewrite like_startswith.
  - apply orb_true_iff in H as [H|H].
    + now rewrite like_startswith.
    + rewrite (IH H). apply orb_true_r.
Qed.

Lemma name_matches_fragment (name : string) (c : Customer.t) :
  contains (lower name) (lower (Customer.full_name c)) = true ->
  IdentityVerificationTools.name_matches name c = true.
Proof.
  intros H. unfold IdentityVerificationTools.name_matches, ilike, lower.
  rewrite !smap_app. now apply like_contains.
Qed.

(** Lowering a name brings in no wildcard. *)
Lemma to_lower_wildcard (c : ascii) :
  negb (Ascii.eqb (to_lower c) "%") && negb (Ascii.eqb (to_lower c) "_")
  = negb (Ascii.eqb c "%") && negb (Ascii.eqb c "_").
Proof. destruct c as [[] [] [] [] [] [] [] []]; reflexivity. Qed.

Lemma lower_wildcard_free (s : string) :
  wildcard_free s -> wildcard_free (lower s).
Proof.
  unfold wildcard_free, lower. induction s as [|c s IH]; [reflexivity|].
  cbn [sall smap]. rewrite to_lower_wildcard.
  intros [Hc Hs]%andb_prop. now rewrite Hc, (IH Hs).
Qed.

(** Without wildcards of its own, a pattern that ends in [%] is the test
    for a prefix, and between two [%] the search for a fragment. *)
Lemma like_prefix (q s : string) :
  wildcard_free q -> like (q +:+ "%") s = startswith q s.
Proof.
  unfold wildcard_free. revert s. induction q as [|a q IH]; intros s H.
  - apply like_any.
  - cbn [sall] in H. apply andb_prop in H as [Ha Hq].
    apply andb_prop in Ha as [E1 E2].
    apply negb_true_iff in E1. apply negb_true_iff in E2.
    change (String a q +:+ "%") with (String a (q +:+ "%")).
    cbn [like]. rewrite E1, E2.
    destruct s as [|b s]; [reflexivity|].
    cbn [startswith]. now rewrite (IH s Hq).
Qed.

Lemma like_fragment (q s : string) :
  wildcard_free q -> like (String "%" (q +:+ "%")) s = contains q s.
Proof.
  intros H. induction s as [|c s IH]; rewrite like_percent; cbn [contains];
    rewrite (like_prefix q _ H); [reflexivity|].
  now rewrite IH.
Qed.

Lemma name_matches_wildcard_free (name : string) (c : Customer.t) :
  wildcard_free name ->
  IdentityVerificationTools.name_matches name c
  = contains (lower name) (lower (Customer.full_name c)).
Proof.
  intros H. unfold IdentityVerificationTools.name_matches, ilike.
  unfold lower at 1. rewrite !smap_app. fold (lower name).
  apply like_fragment. now apply lower_wildcard_free.
Qed.

Lemma first_ext {A} (p q : A -> bool) (rows : list A) :
  (forall x, p x = q x) -> DB.first p rows = DB.first q rows.
Proof.
  intros H. unfold DB.first.
  induction rows as [|x rows IH]; [reflexivity|].
  cbn [List.find]. now rewrite H, IH.
Qed.

End Lookup.

(** C9.  The lookup of [verify_customer_identity] compares the account
    number exactly and the name as a case-insensitive fragment.  A row
    is selected exactly when its account number equals the one provided
    and the name factor passes.  Whenever the provided name, lowered, is
    contained in the stored full name, lowered, the name factor passes.
    For a name without the wildcards [%] and [_] of [LIKE] the name
    factor is that containment and nothing else, so a name that is no
    fragment of the stored one is refused, and the lookup returns the
    first customer whose account number is the provided one and whose
    full name contains the provided name, both in lower case. *)
Theorem C9_lookup_exact_account_fragment_name
    (db : DB.t) (c : Customer.t) (name account : string) :
  (IdentityVerificationTools.customer_matches name account c = true
   <-> Customer.account_number c = account
       /\ IdentityVerificationTools.name_matches name c = true)
  /\ (Py.contains (Py.lower name) (Py.lower (Customer.full_name c)) = true ->
      IdentityVerificationTools.name_matches name c = true
      /\ (IdentityVerificationTools.customer_matches name account c = true
          <-> Customer.account_number c = account))
  /\ (wildcard_free name ->
      IdentityVerificationTools.name_matches name c
      = Py.contains (Py.lower name) (Py.lower (Customer.full_name c))
      /\ IdentityVerificationTools.find_customer db name account
         = DB.first (account_and_fragment name account) (DB.customers db)).
Proof.
  split; [|split].
  - unfold IdentityVerificationTools.customer_matches.
    rewrite andb_true_iff, String.eqb_eq. reflexivity.
  - intros H. pose proof (name_matches_fragment name c H) as Hn.
    split; [exact Hn|].
    unfold IdentityVerificationTools.customer_matches.
    rewrite Hn, andb_true_r. apply String.eqb_eq.
  - intros H. split; [now apply name_matches_wildcard_free|].
    unfold IdentityVerificationTools.find_customer. apply first_ext.
    intros x. unfold IdentityVerificationTools.customer_matches,
      account_and_fragment.
    now rewrite (name_matches_wildcard_free name x H).
Qed.

(** C9 on the surname alone and on the empty name, which pass, and on
    another first name, which is refused. *)
Lemma C9_lookup_witness :
  IdentityVerificationTools.name_matches "doe" john_doe = true
  /\ IdentityVerificationTools.name_matches "" john_doe = true
  /\ IdentityVerificationTools.name_matches "Jane" john_doe = false
  /\ IdentityVerificationTools.find_customer test_db "Jane"
       (Customer.account_number john_doe) = None
  /\ IdentityVerificationTools.find_customer test_db "doe"
       (Customer.account_number john_doe) = Some john_doe.
Proof.
  pose proof (C9_lookup_exact_account_fragment_name test_db john_doe "doe"
                (Customer.account_number john_doe)) as (_ & Hd & Hwd).
  pose proof (C9_lookup_exact_account_fragment_name test_db john_doe ""
                "") as (_ & He & _).
  pose proof (C9_lookup_exact_account_fragment_name test_db john_doe "Jane"
                (Customer.account_number john_doe)) as (_ & _ & Hj).
  destruct (Hj eq_refl) as [Hjn Hjf]. destruct (Hwd eq_refl) as [_ Hdf].
  split; [exact (proj1 (Hd eq_refl))|].
  split; [exact (proj1 (He eq_refl))|].
  split; [rewrite Hjn; reflexivity|].
  split; [rewrite Hjf; reflexivity | rewrite Hdf; reflexivity].
Defined.

(** ** The frame of [update_customer_record] *)

Section UpdateFrame.

Import DatabaseOperationTools.

Lemma same_protected_refl (c : Customer.t) : same_protected c c.
Proof. repeat split. Qed.

Lemma same_protected_trans (a b c : Customer.t) :
  same_protected a b -> same_protected b c -> same_protected a c.
Proof. unfold same_protected. intuition congruence. Qed.

Lemma setattr_protected (field value : string) (c : Customer.t) :
  same_protected c (setattr field value c).
Proof.
  unfold setattr.
  repeat match goal with |- context [String.eqb ?a ?b] => destruct (String.eqb a b) end;
    repeat split.
Qed.

Lemma apply_updates_protected (updates : list (string * string)) (c : Customer.t) :
  same_protected c (fst (apply_updates updates c)).
Proof.
  revert c. induction updates as [|[field value] rest IH]; intros c.
  - apply same_protected_refl.
  - cbn [apply_updates]. destruct (Py.mem field updatable_fields); cbn [fst].
    + eapply same_protected_trans; [apply setattr_protected | apply IH].
    + apply IH.
Qed.

Lemma apply_updates_untouched (updates : list (string * string)) (c : Customer.t) :
  nothing_updatable updates = true -> apply_updates updates c = (c, false).
Proof.
  induction updates as [|[field value] rest IH]; [reflexivity|].
  cbn [nothing_updatable forallb fst]. intros [H1 H2]%andb_true_iff.
  cbn [apply_updates]. apply negb_true_iff in H1. rewrite H1. now apply IH.
Qed.

Lemma update_first_frame {A} (R : A -> A -> Prop) (p : A -> bool) (r r' : A)
    (rows : list A) :
  (forall x, R x x) -> DB.first p rows = Some r -> R r r' ->
  Forall2 R rows (DB.update_first p (fun _ => r') rows).
Proof.
  intros Hrefl. induction rows as [|x rows IH]; [discriminate|].
  unfold DB.first. cbn [List.find DB.update_first].
  destruct (p x).
  - intros [= ->] H. constructor; [exact H|].
    clear -Hrefl. induction rows; constructor; auto.
  - intros Hf H. constructor; [apply Hrefl | now apply IH].
Qed.

Lemma with_updated_at_protected (now : Z) (c : Customer.t) :
  same_protected c (Customer.with_updated_at now c).
Proof. repeat split. Qed.

End UpdateFrame.

(** C10.  Whatever the dictionary of updates, [update_customer_record]
    leaves in every customer row the identifier, name, account number,
    security question and answer, balance, status, verified flag, login
    attempts and last login as they were, and leaves the transactions,
    sessions and conversations alone; when no key of the dictionary is
    [email], [phone] or [address] it returns [success = False] and the
    customers table is unchanged. *)
Theorem C10_update_changes_contact_fields_only
    (db : DB.t) (now : Z) (session_id customer_id : string)
    (updates : list (string * string)) :
  let '(db', r) :=
    DatabaseOperationTools.update_customer_record db now session_id
      customer_id updates in
  Forall2 same_protected (DB.customers db) (DB.customers db')
  /\ DB.transactions db' = DB.transactions db
  /\ DB.sessions db' = DB.sessions db
  /\ DB.conversations db' = DB.conversations db
  /\ (nothing_updatable updates = true ->
      DatabaseOperationTools.u_success r = false
      /\ DB.customers db' = DB.customers db).
Proof.
  assert (Hsame : forall l, Forall2 same_protected l l).
  { induction l; constructor; auto using same_protected_refl. }
  unfold DatabaseOperationTools.update_customer_record.
  destruct (DB.first _ (DB.customers db)) as [customer|] eqn:Hfirst;
    [|cbn; auto 10].
  destruct (DatabaseOperationTools.apply_updates updates customer)
    as [customer' touched] eqn:Happ.
  assert (Htouched : nothing_updatable updates = true -> touched = false).
  { intros Hn. rewrite (apply_updates_untouched _ customer Hn) in Happ.
    congruence. }
  destruct touched; cbn [negb]; [|cbn; auto 10].
  destruct (_ && _); cbn.
  - split; [apply Hsame|]. do 3 (split; [reflexivity|]).
    intros Hn. now apply Htouched in Hn.
  - split.
    + eapply update_first_frame; eauto using same_protected_refl.
      eapply same_protected_trans; [|apply with_updated_at_protected].
      pose proof (apply_updates_protected updates customer) as H.
      now rewrite Happ in H.
    + do 3 (split; [reflexivity|]).
      intros Hn. now apply Htouched in Hn.
Qed.

(** C10 on the row of John Doe: a dictionary that names the balance is
    refused and changes nothing. *)
Lemma C10_update_witness :
  nothing_updatable [("account_balance", "1000000")] = true
  /\ let '(db', r) :=
       DatabaseOperationTools.update_customer_record
         (DB.mk [john_doe] [] [] [] []) 5 "s1" "test123"
         [("account_balance", "1000000")] in
     DatabaseOperationTools.u_success r = false
     /\ DB.customers db' = [john_doe].
Proof.
  split; [reflexivity|].
  pose proof (C10_update_changes_contact_fields_only
                (DB.mk [john_doe] [] [] [] []) 5 "s1" "test123"
                [("account_balance", "1000000")]) as H.
  destruct (DatabaseOperationTools.update_customer_record _ _ _ _ _) as [db' r].
  destruct H as (_ & _ & _ & _ & H). exact (H eq_refl).
Defined.

(** ** The two steps of identity verification *)

Section Verification.

Import IdentityVerificationTools.

(** Without an answer the tool never verifies. *)
Lemma verify_without_answer (db : DB.t) (now : Z)
    (session_id full_name account : string) :
  verified (snd (verify_customer_identity db now session_id full_name account None))
  = false.
Proof.
  unfold verify_customer_identity.
  destruct (find_customer db full_name account) as [c|]; [|reflexivity].
  destruct (negb (String.eqb _ _)); [reflexivity|].
  destruct (3 <=? _)%Z; reflexivity.
Qed.

Lemma verify_asks_question (db : DB.t) (now : Z)
    (session_id full_name account : string) (c : Customer.t) :
  find_customer db full_name account = Some c ->
  Customer.account_status c = "active" ->
  (Customer.login_attempts c < 3)%Z ->
  verify_customer_identity db now session_id full_name account None
  = (db, mk_result false (security_question_text c) (Some true)
           (Some (Customer.customer_id c)) None None).
Proof.
  intros Hf Hs Hn. unfold verify_customer_identity. rewrite Hf, Hs.
  rewrite String.eqb_refl. cbn [negb].
  destruct (Z.leb_spec 3 (Customer.login_attempts c)); [lia|]. reflexivity.
Qed.

Lemma verify_locked (db : DB.t) (now : Z)
    (session_id full_name account : string) (answer : option string)
    (c : Customer.t) :
  find_customer db full_name account = Some c ->
  Customer.account_status c = "active" ->
  (3 <= Customer.login_attempts c)%Z ->
  verify_customer_identity db now session_id full_name account answer
  = (DB.log_audit now session_id (Some (Customer.customer_id c))
       "identity_verification" "failed" db,
     mk_result false too_many_attempts (Some false) None None None).
Proof.
  intros Hf Hs Hn. unfold verify_customer_identity. rewrite Hf, Hs.
  rewrite String.eqb_refl. cbn [negb].
  destruct (Z.leb_spec 3 (Customer.login_attempts c)); [reflexivity | lia].
Qed.

Lemma verify_inactive (db : DB.t) (now : Z)
    (session_id full_name account : string) (answer : option string)
    (c : Customer.t) :
  IdentityVerificationTools.find_customer db full_name account = Some c ->
  String.eqb (Customer.account_status c) "active" = false ->
  verify_customer_identity db now session_id full_name account answer
  = (DB.log_audit now session_id (Some (Customer.customer_id c))
       "identity_verification" "failed" db,
     mk_result false "Account is not active. Please contact customer service."
       (Some false) None None None).
Proof.
  intros Hf Hs. unfold verify_customer_identity.
  unfold IdentityVerificationTools.find_customer in Hf. unfold find_customer.
  now rewrite Hf, Hs.
Qed.

Lemma verify_wrong_answer (db : DB.t) (now : Z)
    (session_id full_name account answer : string) (c : Customer.t) :
  find_customer db full_name account = Some c ->
  Customer.account_status c = "active" ->
  (Customer.login_attempts c < 3)%Z ->
  Py.nonempty answer = true ->
  _verify_security_answer (Customer.security_answer c) answer = false ->
  verify_customer_identity db now session_id full_name account (Some answer)
  = (DB.log_audit now session_id (Some (Customer.customer_id c))
       "identity_verification" "failed"
       (DB.with_customers
          (DB.update_first (customer_matches full_name account)
             (Customer.failed_attempt now) (DB.customers db)) db),
     mk_result false incorrect_answer (Some true) None
       (Some (3 - (Customer.login_attempts c + 1))%Z) None).
Proof.
  intros Hf Hs Hn Ha Hw. unfold verify_customer_identity. rewrite Hf, Hs.
  rewrite String.eqb_refl. cbn [negb].
  destruct (Z.leb_spec 3 (Customer.login_attempts c)); [lia|].
  cbn [Py.truthy]. rewrite Ha. cbn [negb].
  change (default "" (Some answer)) with answer. rewrite Hw. reflexivity.
Qed.

Lemma first_update_first {A} (p : A -> bool) (f : A -> A) (r : A)
    (rows : list A) :
  DB.first p rows = Some r -> p (f r) = true ->
  DB.first p (DB.update_first p f rows) = Some (f r).
Proof.
  unfold DB.first. induction rows as [|x rows IH]; [discriminate|].
  cbn [List.find DB.update_first]. destruct (p x) eqn:Hx.
  - intros [= ->] Hp. cbn [List.find]. now rewrite Hp.
  - intros Hf Hp. cbn [List.find]. rewrite Hx. now apply IH.
Qed.

Lemma first_holds {A} (p : A -> bool) (r : A) (rows : list A) :
  DB.first p rows = Some r -> p r = true.
Proof. intros H. now apply find_some in H. Qed.

(** The failed attempt is recorded in the customer's row. *)
Lemma wrong_answer_recorded (db : DB.t) (now : Z)
    (session_id full_name account answer : string) (c : Customer.t) :
  find_customer db full_name account = Some c ->
  Customer.account_status c = "active" ->
  (Customer.login_attempts c < 3)%Z ->
  Py.nonempty answer = true ->
  _verify_security_answer (Customer.security_answer c) answer = false ->
  find_customer
    (fst (verify_customer_identity db now session_id full_name account
            (Some answer))) full_name account
  = Some (Customer.failed_attempt now c).
Proof.
  intros Hf Hs Hn Ha Hw. rewrite (verify_wrong_answer _ _ _ _ _ _ c) by assumption.
  unfold find_customer in *. cbn. apply first_update_first; [exact Hf|].
  apply first_holds in Hf. exact Hf.
Qed.

End Verification.

(** ** Conversations *)

(** ** C2: the name and account step *)

(** C2 (as amended).  When the handler extracts a name and an account
    number from the message, the tool is called without an answer and
    never verifies: the session's verified flag is what it was and the
    reply carries no [verified].  If the pair matches an active customer
    with fewer than three recorded failed attempts, the store is unchanged,
    the reply is the customer's security question with
    [requires_security_question = True], and the session is awaiting the
    answer with the candidate name and account kept.  If the matched
    customer is not active or has three or more recorded failed attempts,
    the reply is a failed verification without a question and the session
    is unchanged. *)
Theorem C2_name_account_step_asks_question
    (db : DB.t) (now : Z) (session_id message : string) (session : Session.t)
    (ents : Entities) (full_name account : string) :
  NANOAgent.credentials message ents = Ok (Some (full_name, account)) ->
  exists db' session' r,
    NANOAgent._handle_identity_verification db now session_id message session ents
    = Ok (db', session', r)
    /\ IdentityVerificationTools.verified
         (snd (IdentityVerificationTools.verify_customer_identity db now
                 session_id full_name account None)) = false
    /\ Session.is_verified session' = Session.is_verified session
    /\ Response.verified r = None
    /\ (forall c,
          IdentityVerificationTools.find_customer db full_name account = Some c ->
          Customer.account_status c = "active" ->
          (Customer.login_attempts c < 3)%Z ->
          db' = db
          /\ session' = Session.awaiting (Some (Customer.customer_id c))
                          full_name account session
          /\ r = NANOAgent.tool_reply session_id (security_question_text c)
                   None (Some (Customer.customer_id c)) (Some true) None)
    /\ (forall c,
          IdentityVerificationTools.find_customer db full_name account = Some c ->
          String.eqb (Customer.account_status c) "active" = false
          \/ (3 <= Customer.login_attempts c)%Z ->
          session' = session
          /\ Response.requires_security_question r = None
          /\ Response.verification_failed r = Some true).
Proof.
  intros Hc. unfold NANOAgent._handle_identity_verification. rewrite Hc.
  pose proof (verify_without_answer db now session_id full_name account) as Hv.
  assert (Hfail : forall c,
             IdentityVerificationTools.find_customer db full_name account = Some c ->
             String.eqb (Customer.account_status c) "active" = false
             \/ (3 <= Customer.login_attempts c)%Z ->
             IdentityVerificationTools.requires_security_question
               (snd (IdentityVerificationTools.verify_customer_identity db now
                       session_id full_name account None)) = Some false).
  { intros c Hf [Hs|Hn].
    - now rewrite (verify_inactive _ _ _ _ _ _ c Hf Hs).
    - destruct (String.eqb (Customer.account_status c) "active") eqn:Hs.
      + apply String.eqb_eq in Hs.
        now rewrite (verify_locked _ _ _ _ _ _ c Hf Hs Hn).
      + now rewrite (verify_inactive _ _ _ _ _ _ c Hf Hs). }
  destruct (IdentityVerificationTools.verify_customer_identity db now
              session_id full_name account None) as [db1 result] eqn:Hver.
  cbn [snd] in Hv, Hfail |- *. rewrite Hv.
  destruct (default false _) eqn:Hq; eexists _, _, _;
    (split; [reflexivity|]); (split; [reflexivity|]);
    (split; [reflexivity|]); (split; [reflexivity|]); split.
  - intros c Hf Hs Hn.
    rewrite (verify_asks_question _ _ _ _ _ c Hf Hs Hn) in Hver.
    injection Hver as <- <-. auto.
  - intros c Hf Hbad. rewrite (Hfail c Hf Hbad) in Hq. discriminate.
  - intros c Hf Hs Hn.
    rewrite (verify_asks_question _ _ _ _ _ c Hf Hs Hn) in Hver.
    injection Hver as <- <-. discriminate.
  - intros c Hf Hbad. auto.
Qed.

(** C2 on the message of the test suite. *)
Lemma C2_name_account_step_witness :
  NANOAgent.credentials credentials_message
    (entities (NANOAgentIntent._analyze_intent credentials_message))
  = Ok (Some ("John Doe", "1234567890"))
  /\ exists db' session' r,
       NANOAgent._handle_identity_verification test_db 10 "s1"
         credentials_message (Session.fresh 0 None)
         (entities (NANOAgentIntent._analyze_intent credentials_message))
       = Ok (db', session', r)
       /\ Session.is_verified session' = false
       /\ Response.verified r = None
       /\ Session.awaiting_security_answer session' = true
       /\ Response.requires_security_question r = Some true
       /\ Response.response r
          = "Please answer your security question: What is your pet's name?".
Proof.
  assert (Hc : NANOAgent.credentials credentials_message
                 (entities (NANOAgentIntent._analyze_intent credentials_message))
               = Ok (Some ("John Doe", "1234567890")))
    by (vm_compute; reflexivity).
  split; [exact Hc|].
  destruct (C2_name_account_step_asks_question test_db 10 "s1"
              credentials_message (Session.fresh 0 None) _ _ _ Hc)
    as (db' & session' & r & H1 & _ & H2 & H3 & H4 & _).
  exists db', session', r.
  destruct (H4 john_doe eq_refl eq_refl ltac:(reflexivity)) as (_ & -> & ->).
  repeat split; auto.
Defined.

(** C2 as stated fails: the name and account of John Doe match, no
    answer is given, and no security question is asked when his row
    records three failed attempts, or when his account is not active; the
    session does not move to awaiting the answer. *)
Lemma C2_counterexample_locked_or_inactive_customer :
  let ents := entities (NANOAgentIntent._analyze_intent credentials_message) in
  let session := Session.fresh 0 None in
  NANOAgent.credentials credentials_message ents
  = Ok (Some ("John Doe", "1234567890"))
  /\ IdentityVerificationTools.find_customer (DB.mk [john_locked] [] [] [] [])
       "John Doe" "1234567890" = Some john_locked
  /\ IdentityVerificationTools.requires_security_question
       (snd (IdentityVerificationTools.verify_customer_identity
               (DB.mk [john_locked] [] [] [] []) 10 "s1" "John Doe"
               "1234567890" None)) = Some false
  /\ NANOAgent._handle_identity_verification (DB.mk [john_locked] [] [] [] [])
       10 "s1" credentials_message session ents
     = Ok (DB.log_audit 10 "s1" (Some "test123") "identity_verification"
             "failed" (DB.mk [john_locked] [] [] [] []),
           session,
           NANOAgent.tool_reply "s1" too_many_attempts None None None (Some true))
  /\ NANOAgent._handle_identity_verification (DB.mk [john_closed] [] [] [] [])
       10 "s1" credentials_message session ents
     = Ok (DB.log_audit 10 "s1" (Some "test123") "identity_verification"
             "failed" (DB.mk [john_closed] [] [] [] []),
           session,
           NANOAgent.tool_reply "s1"
             "Account is not active. Please contact customer service."
             None None None (Some true)).
Proof. vm_compute. repeat split. Qed.

(** ** C4: incorrect security answers *)

(** C4 (as amended).  In a session that awaits the security answer of an
    active customer, a message that is an incorrect answer is handled by
    the customer's recorded number of failed attempts.  Below three, the
    attempt is added to the record, the reply is "Incorrect security
    answer. Please try again." and the session is unchanged: it still
    awaits the answer and keeps the candidate name and account, also when
    this was the third failure.  At three or more, the reply is "Too many
    failed verification attempts. Please visit a branch.", the record is
    unchanged and the pending data (customer, name, account, awaiting
    flag) is cleared; the session stays unverified. *)
Theorem C4_lockout_on_attempt_after_three_failures
    (db : DB.t) (now : Z) (session_id message : string) (session : Session.t)
    (ents : Entities) (c : Customer.t) :
  NANOAgent.credentials message ents = Ok None ->
  Session.awaiting_security_answer session = true ->
  Py.truthy (Session.temp_customer_id session) = true ->
  pending_customer db session = Some c ->
  Customer.account_status c = "active" ->
  Py.nonempty message = true ->
  IdentityVerificationTools._verify_security_answer
    (Customer.security_answer c) message = false ->
  exists db',
    NANOAgent._handle_identity_verification db now session_id message session ents
    = Ok (db',
          (if (3 <=? Customer.login_attempts c)%Z
           then Session.cleared session else session),
          NANOAgent.tool_reply session_id
            (if (3 <=? Customer.login_attempts c)%Z
             then too_many_attempts else incorrect_answer)
            None None None (Some true))
    /\ pending_customer db' session
       = Some (if (3 <=? Customer.login_attempts c)%Z then c
               else Customer.failed_attempt now c).
Proof.
  intros Hc Haw Htemp Hf Hs Hne Hwrong.
  unfold NANOAgent._handle_identity_verification, pending_customer in *.
  rewrite Hc, Haw, Htemp. cbn [andb].
  destruct (Z.leb_spec 3 (Customer.login_attempts c)) as [Hn|Hn].
  - rewrite (verify_locked _ _ _ _ _ _ c Hf Hs Hn).
    cbn [IdentityVerificationTools.verified IdentityVerificationTools.message
         IdentityVerificationTools.customer_id].
    replace (Py.contains "too many" (Py.lower too_many_attempts)) with true
      by (vm_compute; reflexivity).
    eexists. split; [reflexivity | exact Hf].
  - rewrite (verify_wrong_answer _ _ _ _ _ _ c Hf Hs Hn Hne Hwrong).
    cbn [IdentityVerificationTools.verified IdentityVerificationTools.message
         IdentityVerificationTools.customer_id].
    replace (Py.contains "too many" (Py.lower incorrect_answer)) with false
      by (vm_compute; reflexivity).
    eexists. split; [reflexivity|].
    unfold IdentityVerificationTools.find_customer in *. cbn.
    apply first_update_first; [exact Hf|]. now apply first_holds in Hf.
Qed.

(** C4 on the third failure of John Doe: the session still awaits. *)
Lemma C4_lockout_witness :
  exists db',
    NANOAgent._handle_identity_verification
      (DB.mk [john_two_failures] [] [] [] []) 10 "s1" "rex" awaiting_john
      (entities (NANOAgentIntent._analyze_intent "rex"))
    = Ok (db', awaiting_john,
          NANOAgent.tool_reply "s1" incorrect_answer None None None (Some true))
    /\ pending_customer db' awaiting_john
       = Some (Customer.failed_attempt 10 john_two_failures)
    /\ Customer.login_attempts (Customer.failed_attempt 10 john_two_failures)
       = 3%Z.
Proof.
  destruct (C4_lockout_on_attempt_after_three_failures
              (DB.mk [john_two_failures] [] [] [] []) 10 "s1" "rex" awaiting_john
              (entities (NANOAgentIntent._analyze_intent "rex")) john_two_failures
              eq_refl eq_refl eq_refl eq_refl eq_refl eq_refl eq_refl)
    as (db' & H1 & H2).
  exists db'. split; [exact H1|]. split; [exact H2 | reflexivity].
Defined.

(** C4 as stated fails: after three consecutive incorrect answers in one
    episode the session still awaits the answer with the candidate data in
    place, and the third reply asks to try again; the branch reply and the
    clearing come with the fourth attempt, here the correct answer. *)
Lemma C4_counterexample_third_failure_keeps_episode :
  answer_all test_db 10 "s1" awaiting_john ["rex"; "max"; "bob"]
  = Ok (DB.mk [john_after_three_failures] [] []
          [AuditLog.mk "s1" (Some "test123") "identity_verification" "failed" 10;
           AuditLog.mk "s1" (Some "test123") "identity_verification" "failed" 11;
           AuditLog.mk "s1" (Some "test123") "identity_verification" "failed" 12]
          [],
        awaiting_john,
        [NANOAgent.tool_reply "s1" incorrect_answer None None None (Some true);
         NANOAgent.tool_reply "s1" incorrect_answer None None None (Some true);
         NANOAgent.tool_reply "s1" incorrect_answer None None None (Some true)])
  /\ match answer_all test_db 10 "s1" awaiting_john
             ["rex"; "max"; "bob"; "fluffy"] with
     | Ok (_, session, replies) =>
         session = Session.fresh 0 None
         /\ last replies
            = Some (NANOAgent.tool_reply "s1" too_many_attempts None None None
                      (Some true))
     | Raised _ => False
     end.
Proof. vm_compute. repeat split. Qed.

(** ** C5: where the failure counter lives *)

(** C5 (as amended).  The failure counter is the [login_attempts] column
    of the customer's row in the store, shared by all sessions.  Creating
    a session puts a dictionary without any counter in [active_sessions]
    and leaves the customers table as it is, so a customer whose row
    records three or more failed attempts is refused with the lockout
    reply in the new session as well, at the name and account step and at
    the answer step, whatever the answer. *)
Theorem C5_attempts_are_kept_in_the_customer_row
    (a : NANOAgent.t) (now now' : Z) (session_id full_name account : string)
    (customer_id : option string) (answer : option string) (c : Customer.t) :
  IdentityVerificationTools.find_customer (NANOAgent.db a) full_name account
  = Some c ->
  Customer.account_status c = "active" ->
  (3 <= Customer.login_attempts c)%Z ->
  let a' := NANOAgent.create_session a now session_id customer_id in
  NANOAgent.active_sessions a' !! session_id
  = Some (Session.fresh now customer_id)
  /\ DB.customers (NANOAgent.db a') = DB.customers (NANOAgent.db a)
  /\ snd (IdentityVerificationTools.verify_customer_identity
            (NANOAgent.db a') now' session_id full_name account answer)
     = IdentityVerificationTools.mk_result false too_many_attempts
         (Some false) None None None.
Proof.
  intros Hf Hs Hn a'. split; [apply lookup_insert_eq|].
  split; [reflexivity|].
  erewrite verify_locked; [reflexivity | | exact Hs | exact Hn].
  exact Hf.
Qed.

(** C5 for John Doe after three failures, in a session created now. *)
Lemma C5_attempts_witness :
  let a' := NANOAgent.create_session
              (NANOAgent.mk (DB.mk [john_locked] [] [] [] []) ∅) 100 "s2" None in
  NANOAgent.active_sessions a' !! "s2" = Some (Session.fresh 100 None)
  /\ DB.customers (NANOAgent.db a') = [john_locked]
  /\ snd (IdentityVerificationTools.verify_customer_identity
            (NANOAgent.db a') 101 "s2" "John Doe" "1234567890" (Some "fluffy"))
     = IdentityVerificationTools.mk_result false too_many_attempts
         (Some false) None None None.
Proof.
  exact (C5_attempts_are_kept_in_the_customer_row
           (NANOAgent.mk (DB.mk [john_locked] [] [] [] []) ∅) 100 101 "s2"
           "John Doe" "1234567890" None (Some "fluffy") john_locked
           eq_refl eq_refl ltac:(discriminate)).
Defined.

(** C5 as stated fails: three incorrect answers in the session ["s1"]
    exhaust the budget of John Doe, and the session ["s2"], created
    afterwards, is locked out at its first message without a single
    failed answer of its own. *)
Lemma C5_counterexample_count_carries_over :
  let a0 := NANOAgent.create_session (NANOAgent.mk test_db ∅) 10 "s1" None in
  let '(a1, replies1) :=
    converse a0 11 "s1"
      [credentials_message; "verify rex"; "verify max"; "verify bob"] in
  let a2 := NANOAgent.create_session a1 100 "s2" None in
  let '(a3, replies2) := converse a2 101 "s2" [credentials_message] in
  map Response.response replies1
  = ["Please answer your security question: What is your pet's name?";
     incorrect_answer; incorrect_answer; incorrect_answer]
  /\ NANOAgent.active_sessions a2 !! "s2" = Some (Session.fresh 100 None)
  /\ map Response.response replies2 = [too_many_attempts]
  /\ map Customer.login_attempts (DB.customers (NANOAgent.db a3)) = [3%Z].
Proof. vm_compute. repeat split. Qed.

(** ** The conversation history a turn sees *)

Section History.

Import NANOAgent.

Lemma insert_oldest_nonempty (d : Conversation.t) (l : list Conversation.t) :
  insert_oldest d l <> [].
Proof. destruct l as [|e l]; cbn; [|destruct (_ <? _)%Z]; discriminate. Qed.

Lemma last_cons_nonempty {A} (x : A) (l : list A) :
  l <> [] -> last (x :: l) = last l.
Proof. destruct l; [congruence | reflexivity]. Qed.

Lemma insert_oldest_last (d c : Conversation.t) (l : list Conversation.t) :
  last l = Some c ->
  (Conversation.created_at d <= Conversation.created_at c)%Z ->
  last (insert_oldest d l) = Some c.
Proof.
  intros Hl Hd. induction l as [|e l IH]; [discriminate|].
  cbn [insert_oldest]. destruct (Z.ltb_spec (Conversation.created_at e)
                                   (Conversation.created_at d)) as [Hlt|Hge].
  - destruct l as [|e' l].
    + cbn in Hl. injection Hl as ->. lia.
    + rewrite last_cons_nonempty by apply insert_oldest_nonempty.
      apply IH. exact Hl.
  - exact Hl.
Qed.

Lemma oldest_first_last (l : list Conversation.t) (c : Conversation.t) :
  Forall (fun d => (Conversation.created_at d <= Conversation.created_at c)%Z) l ->
  last (oldest_first (l ++ [c])) = Some c.
Proof.
  unfold oldest_first. rewrite foldr_app. cbn [foldr insert_oldest].
  induction 1 as [|d l Hd Hl IH]; [reflexivity|].
  cbn [foldr]. now apply insert_oldest_last.
Qed.

Lemma last_map {A B} (f : A -> B) (l : list A) :
  last (map f l) = option_map f (last l).
Proof.
  induction l as [|x l IH]; [reflexivity|].
  destruct l as [|y l]; [reflexivity|]. exact IH.
Qed.

(** The history fetched after the user's message was saved ends with
    that message. *)
Lemma history_ends_with_user_message (db : DB.t) (now : Z)
    (session_id message : string) (customer_id : option string) :
  store_not_ahead db now ->
  last (_get_conversation_history
          (_save_conversation_message now session_id "user" message customer_id
             (_update_session_activity now session_id db))
          now session_id 8)
  = Some (Session.mk_entry "user" message now).
Proof.
  intros Hdb. unfold _get_conversation_history, _save_conversation_message.
  cbn [DB.conversations DB.with_conversations _update_session_activity
       DB.with_sessions].
  rewrite List.filter_app. cbn [List.filter Conversation.session_id
                                Conversation.created_at].
  rewrite String.eqb_refl.
  destruct (Z.leb_spec (now - 8 * 3600) now) as [_|]; [|lia]. cbn [andb].
  rewrite last_map, oldest_first_last; [reflexivity|].
  cbn [Conversation.created_at]. unfold store_not_ahead in Hdb.
  rewrite Forall_forall in Hdb |- *. intros d Hd.
  apply Hdb. apply list_elem_of_In. apply list_elem_of_In in Hd.
  apply filter_In in Hd. tauto.
Qed.

(** With the history of a turn, the context override leaves the intent
    as the classifier ranked it. *)
Lemma override_is_idle (message intent : string) (session : Session.t)
    (ents : Entities) (user_text : string) (now : Z) :
  last (Session.conversation_history session)
  = Some (Session.mk_entry "user" user_text now) ->
  override_intent message intent session ents = intent.
Proof. intros H. unfold override_intent. now rewrite H. Qed.

Lemma sensitive_not_shortcut (intent : string) :
  Py.mem intent sensitive_intents = true ->
  String.eqb intent "greeting" = false /\ String.eqb intent "escalation" = false.
Proof.
  unfold Py.mem, sensitive_intents. cbn [existsb].
  rewrite !orb_true_iff, !String.eqb_eq.
  intros [->|[->|[->|[->|[->|H]]]]]; try discriminate; split; reflexivity.
Qed.

End History.

(** ** C3: sensitive requests of an unverified session *)

(** C3.  In a session that exists, has not timed out and is not verified,
    on a store whose conversation log is not ahead of the clock (which
    every turn maintains), a message whose classified intent is one of [balance_inquiry],
    [transaction_history], [update_information], [file_management],
    [document_ocr] is answered by the fixed request for the name and the
    account number, with [requires_verification = True], the classified
    intent as [next_intent] and no tool used: the reply does not depend on
    the store, whose customers and transactions are left as they are, and
    the session stays unverified. *)
Theorem C3_unverified_sensitive_request_is_gated
    (a : NANOAgent.t) (now : Z) (session_id message : string)
    (customer_id : option string) (session : Session.t) :
  NANOAgent.restore a session_id = Some session ->
  NANOAgent._is_session_expired now session = false ->
  Session.is_verified session = false ->
  store_not_ahead (NANOAgent.db a) now ->
  Py.mem (primary_intent (NANOAgentIntent._analyze_intent message))
         NANOAgent.sensitive_intents = true ->
  let '(a', r) := NANOAgent.process_message a now session_id message customer_id in
  r = Response.mk NANOAgent.verification_prompt session_id (Some true)
        (Some (primary_intent (NANOAgentIntent._analyze_intent message)))
        None None None None None None None None
  /\ DB.customers (NANOAgent.db a') = DB.customers (NANOAgent.db a)
  /\ DB.transactions (NANOAgent.db a') = DB.transactions (NANOAgent.db a)
  /\ exists session',
       NANOAgent.active_sessions a' !! session_id = Some session'
       /\ Session.is_verified session' = false.
Proof.
  intros Hr He Hv Hdb Hs.
  unfold NANOAgent.process_message. rewrite Hr, He.
  set (intent := primary_intent (NANOAgentIntent._analyze_intent message)) in *.
  set (ents := entities (NANOAgentIntent._analyze_intent message)).
  set (db2 := NANOAgent._save_conversation_message now session_id "user" message _ _).
  set (session1 := Session.with_history _ _).
  assert (Hov : NANOAgent.override_intent message intent session1 ents = intent).
  { apply (override_is_idle _ _ _ _ message now).
    subst session1 db2. cbn [Session.conversation_history Session.with_history].
    now apply history_ends_with_user_message. }
  destruct (sensitive_not_shortcut intent Hs) as [Hg Hesc].
  unfold NANOAgent._generate_response. rewrite Hov, Hg, Hesc, Hs.
  replace (Session.is_verified session1) with false by (symmetry; exact Hv).
  cbn [negb andb].
  split; [reflexivity|]. split; [reflexivity|]. split; [reflexivity|].
  exists session1. split; [apply lookup_insert_eq | exact Hv].
Qed.

(** C3 on the first turn of the test suite's conversation. *)
Lemma C3_gate_witness :
  let a := NANOAgent.create_session (NANOAgent.mk test_db ∅) 10 "s1" None in
  let '(a', r) := NANOAgent.process_message a 11 "s1" "What's my balance?" None in
  r = Response.mk NANOAgent.verification_prompt "s1" (Some true)
        (Some "balance_inquiry") None None None None None None None None
  /\ DB.customers (NANOAgent.db a') = [john_doe]
  /\ DB.transactions (NANOAgent.db a') = []
  /\ exists session',
       NANOAgent.active_sessions a' !! "s1" = Some session'
       /\ Session.is_verified session' = false.
Proof.
  exact (C3_unverified_sensitive_request_is_gated
           (NANOAgent.create_session (NANOAgent.mk test_db ∅) 10 "s1" None)
           11 "s1" "What's my balance?" None (Session.fresh 10 None)
           eq_refl eq_refl eq_refl ltac:(constructor) eq_refl).
Defined.

(** ** C6: the context override *)

(** [_generate_response] does apply the override when the history it is
    given ends with the assistant's request for the credentials. *)
Lemma override_applies_after_request (message intent : string)
    (session : Session.t) (ents : Entities) (request : Session.history_entry) :
  last (Session.conversation_history session) = Some request ->
  Session.role request = "assistant" ->
  Py.contains NANOAgent.credentials_requested (Session.message request) = true ->
  Py.truthy (account_number ents) || Py.contains "name" (Py.lower message) = true ->
  NANOAgent.override_intent message intent session ents = "identity_verification".
Proof.
  intros Hl Hr Hc Hm. unfold NANOAgent.override_intent.
  now rewrite Hl, Hr, Hc, Hm.
Qed.

Lemma simple_override_is_idle (history : list Session.history_entry)
    (message intent : string) (now : Z) (session : Session.t) (ents : Entities) :
  SimpleNANOAgent.override_intent message intent
    (Session.with_history
       (SimpleNANOAgent.history_for_response history message now) session)
    ents
  = intent.
Proof.
  apply (override_is_idle _ _ _ _ message now).
  cbn [Session.conversation_history Session.with_history].
  apply last_snoc.
Qed.

(** In a turn of [NANOAgent.process_message] the override never changes
    the intent: the history is fetched after the user's message was
    saved. *)
Lemma override_is_idle_in_a_turn (db : DB.t) (now : Z)
    (session_id message intent : string) (session : Session.t)
    (ents : Entities) :
  store_not_ahead db now ->
  NANOAgent.override_intent message intent
    (Session.with_history
       (NANOAgent._get_conversation_history
          (NANOAgent._save_conversation_message now session_id "user" message
             (Session.customer_id session)
             (NANOAgent._update_session_activity now session_id db))
          now session_id 8)
       session) ents
  = intent.
Proof.
  intros Hdb. apply (override_is_idle _ _ _ _ message now).
  cbn [Session.conversation_history Session.with_history].
  now apply history_ends_with_user_message.
Qed.

(** C6, the code at the failing input.  The first reply asks for the
    full name and the account number; the next message carries both and
    the word "name", and the classifier ranks [balance_inquiry] first.
    The turn answers with the request for verification again, the intent
    still [balance_inquiry]; on the history that ends with the assistant's
    request, [_generate_response] overrides the intent and asks the
    security question. *)
Theorem C6_override_not_applied_in_a_turn :
  let a0 := NANOAgent.create_session (NANOAgent.mk test_db ∅) 10 "s1" None in
  let '(a2, replies) :=
    converse a0 11 "s1" ["What's my balance?"; balance_message] in
  let ents := entities (NANOAgentIntent._analyze_intent balance_message) in
  let request := Session.mk_entry "assistant" NANOAgent.verification_prompt 11 in
  let asked :=
    Session.with_history [Session.mk_entry "user" "What's my balance?" 11; request]
      (Session.fresh 10 None) in
  Py.contains NANOAgent.credentials_requested NANOAgent.verification_prompt = true
  /\ account_number ents = Some "1234567890"
  /\ Py.contains "name" (Py.lower balance_message) = true
  /\ primary_intent (NANOAgentIntent._analyze_intent balance_message)
     = "balance_inquiry"
  /\ replies
     = [Response.needs_verification NANOAgent.verification_prompt "s1"
          (Some "balance_inquiry");
        Response.needs_verification NANOAgent.verification_prompt "s1"
          (Some "balance_inquiry")]
  /\ NANOAgent._generate_response test_db 12 "s1" balance_message
       "balance_inquiry" asked ents
     = Ok (test_db,
           Session.awaiting (Some "test123") "John Doe" "1234567890" asked,
           NANOAgent.tool_reply "s1" (security_question_text john_doe) None
             (Some "test123") (Some true) None).
Proof. vm_compute. repeat split. Qed.

(** ** C1: the scenario of the test suite *)

(** C1, the code on the scenario.  The first reply asks for
    verification, the second asks the security question, and the third
    message, the answer "fluffy", matches no keyword and no account
    number, is classified [general_inquiry] and gets the default reply:
    the verification handler is not called and the answer is not checked.
    The fourth reply is the request for verification again, with no tool
    used; the session ends unverified, still awaiting the answer. *)
Theorem C1_scenario_ends_with_verification_request :
  let a0 := NANOAgent.create_session (NANOAgent.mk test_db ∅) 10 "s1" None in
  let '(a4, replies) :=
    converse a0 11 "s1"
      ["What's my balance?"; credentials_message; "fluffy"; "What's my balance?"] in
  primary_intent (NANOAgentIntent._analyze_intent "fluffy") = "general_inquiry"
  /\ replies
     = [Response.needs_verification NANOAgent.verification_prompt "s1"
          (Some "balance_inquiry");
        NANOAgent.tool_reply "s1" (security_question_text john_doe) None
          (Some "test123") (Some true) None;
        Response.plain default_reply "s1";
        Response.needs_verification NANOAgent.verification_prompt "s1"
          (Some "balance_inquiry")]
  /\ option_map Response.tools_used (last replies) = Some None
  /\ option_map Session.is_verified (NANOAgent.active_sessions a4 !! "s1")
     = Some false
  /\ option_map Session.awaiting_security_answer
       (NANOAgent.active_sessions a4 !! "s1") = Some true
  /\ DB.customers (NANOAgent.db a4) = [john_doe].
Proof. vm_compute. repeat split. Qed.

(** What the scenario expects is what the handlers do once they are
    called: the answer "fluffy" verifies the awaiting session, and the
    balance request of the verified customer is answered with the balance
    through [query_account_balance]. *)
Lemma handlers_serve_the_scenario :
  match NANOAgent._handle_identity_verification test_db 13 "s1" "fluffy"
          awaiting_john (entities (NANOAgentIntent._analyze_intent "fluffy")) with
  | Ok (db, session, r) =>
      Session.is_verified session = true
      /\ Session.customer_id session = Some "test123"
      /\ Response.verified r = Some true
      /\ (let r' := snd (NANOAgent._handle_verified_request db 14 "s1"
                           "What's my balance?" "balance_inquiry" "test123"
                           (entities (NANOAgentIntent._analyze_intent
                                        "What's my balance?"))) in
          Response.response r'
          = "Your current account balance is $1000.00. Is there anything else I can help you with?"
          /\ Response.tools_used r' = Some ["query_account_balance"])
  | Raised _ => False
  end.
Proof. vm_compute. repeat split. Qed.

(** ** Turns keep the conversation log behind the clock *)

Section StoreClock.

Ltac same_conversations :=
  intros; cbn;
  repeat (match goal with
          | |- context [match ?x with _ => _ end] => destruct x eqn:?
          | |- context [if ?b then _ else _] => destruct b eqn:?
          end; cbn);
  try reflexivity.

Lemma verify_conversations (db : DB.t) (now : Z)
    (session_id full_name account : string) (answer : option string) :
  DB.conversations
    (fst (IdentityVerificationTools.verify_customer_identity db now session_id
            full_name account answer))
  = DB.conversations db.
Proof.
  unfold IdentityVerificationTools.verify_customer_identity. same_conversations.
Qed.

Lemma update_conversations (db : DB.t) (now : Z)
    (session_id customer_id : string) (updates : list (string * string)) :
  DB.conversations
    (fst (DatabaseOperationTools.update_customer_record db now session_id
            customer_id updates))
  = DB.conversations db.
Proof.
  unfold DatabaseOperationTools.update_customer_record. same_conversations.
Qed.

Lemma balance_conversations (db : DB.t) (now : Z)
    (session_id customer_id : string) :
  DB.conversations
    (fst (DatabaseOperationTools.query_account_balance db now session_id
            customer_id))
  = DB.conversations db.
Proof.
  unfold DatabaseOperationTools.query_account_balance.
  destruct (DB.first _ _); reflexivity.
Qed.

Lemma handler_conversations (db db' : DB.t) (now : Z)
    (session_id message : string) (session session' : Session.t)
    (ents : Entities) (r : Response.t) :
  NANOAgent._handle_identity_verification db now session_id message session ents
  = Ok (db', session', r) ->
  DB.conversations db' = DB.conversations db.
Proof.
  unfold NANOAgent._handle_identity_verification.
  destruct (NANOAgent.credentials message ents) as [[[name account]|]|];
    [| |discriminate].
  - pose proof (verify_conversations db now session_id name account None) as H.
    destruct (IdentityVerificationTools.verify_customer_identity _ _ _ _ _ _)
      as [db1 result].
    cbn [fst] in H.
    destruct (IdentityVerificationTools.verified result);
      [|destruct (default false _)]; intros [= <- _ _]; exact H.
  - destruct (_ && _); [|intros [= <- _ _]; reflexivity].
    pose proof (verify_conversations db now session_id
                  (default "" (Session.temp_name session))
                  (default "" (Session.temp_account session)) (Some message)) as H.
    destruct (IdentityVerificationTools.verify_customer_identity _ _ _ _ _ _)
      as [db1 result].
    cbn [fst] in H.
    destruct (IdentityVerificationTools.verified result);
      intros [= <- _ _]; exact H.
Qed.

Lemma verified_request_conversations (db : DB.t) (now : Z)
    (session_id message intent customer_id : string) (ents : Entities) :
  DB.conversations
    (fst (NANOAgent._handle_verified_request db now session_id message intent
            customer_id ents))
  = DB.conversations db.
Proof.
  unfold NANOAgent._handle_verified_request.
  destruct (String.eqb intent "balance_inquiry").
  { pose proof (balance_conversations db now session_id customer_id) as H.
    destruct (DatabaseOperationTools.query_account_balance _ _ _ _). exact H. }
  destruct (String.eqb intent "transaction_history"); [reflexivity|].
  destruct (String.eqb intent "update_information").
  { destruct (_ && _); [|reflexivity].
    match goal with
    | |- context [DatabaseOperationTools.update_customer_record _ _ _ _ ?u] =>
        generalize u
    end.
    intros [|[field value] rest]; [reflexivity|].
    match goal with
    | |- context [DatabaseOperationTools.update_customer_record ?d ?n ?s ?c ?u] =>
        pose proof (update_conversations d n s c u) as H;
        destruct (DatabaseOperationTools.update_customer_record d n s c u)
    end.
    exact H. }
  destruct (String.eqb intent "file_management"); [reflexivity|].
  destruct (String.eqb intent "document_ocr"); reflexivity.
Qed.

Lemma escalate_conversations (db : DB.t) (now : Z) (session_id : string)
    (customer_id : option string) (reason priority : string) :
  DB.conversations
    (fst (GeneralSupportTools.escalate_to_human db now session_id customer_id
            reason priority))
  = DB.conversations db.
Proof. reflexivity. Qed.

Lemma knowledge_base_conversations (db : DB.t) (now : Z) (session_id : string)
    (customer_id : option string) (query : string) :
  DB.conversations
    (fst (GeneralSupportTools.banking_knowledge_base db now session_id
            customer_id query))
  = DB.conversations db.
Proof. reflexivity. Qed.

Lemma generate_response_conversations (db db' : DB.t) (now : Z)
    (session_id message intent : string) (session session' : Session.t)
    (ents : Entities) (r : Response.t) :
  NANOAgent._generate_response db now session_id message intent session ents
  = Ok (db', session', r) ->
  DB.conversations db' = DB.conversations db.
Proof.
  unfold NANOAgent._generate_response.
  destruct (String.eqb _ "greeting"); [intros [= <- _ _]; reflexivity|].
  destruct (String.eqb _ "escalation").
  { pose proof (escalate_conversations db now session_id
                  (Session.customer_id session)
                  "Customer requested human representative" "normal") as H.
    destruct (GeneralSupportTools.escalate_to_human _ _ _ _ _ _) as [db1 result].
    destruct (GeneralSupportTools.e_success result);
      intros [= <- _ _]; exact H. }
  destruct (_ && _); [intros [= <- _ _]; reflexivity|].
  destruct (_ || _); [apply handler_conversations|].
  destruct (_ && _).
  { pose proof (verified_request_conversations db now session_id message
                  (NANOAgent.override_intent message intent session ents)
                  (default "" (Session.customer_id session)) ents) as H.
    destruct (NANOAgent._handle_verified_request _ _ _ _ _ _ _).
    intros [= <- _ _]. exact H. }
  destruct (String.eqb _ "general_support"); [|intros [= <- _ _]; reflexivity].
  pose proof (knowledge_base_conversations db now session_id
                (Session.customer_id session) message) as H.
  destruct (GeneralSupportTools.banking_knowledge_base _ _ _ _ _) as [db1 result].
  intros [= <- _ _]. exact H.
Qed.

Lemma store_not_ahead_later (db : DB.t) (now now' : Z) :
  store_not_ahead db now -> (now <= now')%Z -> store_not_ahead db now'.
Proof.
  unfold store_not_ahead. intros H Hle. eapply Forall_impl; [exact H|].
  cbn. intros c Hc. lia.
Qed.

Lemma create_session_keeps_store_behind (a : NANOAgent.t) (now : Z)
    (session_id : string) (customer_id : option string) :
  store_not_ahead (NANOAgent.db a) now ->
  store_not_ahead (NANOAgent.db (NANOAgent.create_session a now session_id customer_id))
                  now.
Proof. intros H. exact H. Qed.

(** A turn adds rows dated [now] only. *)
Lemma process_message_keeps_store_behind (a : NANOAgent.t) (now : Z)
    (session_id message : string) (customer_id : option string) :
  store_not_ahead (NANOAgent.db a) now ->
  store_not_ahead
    (NANOAgent.db (fst (NANOAgent.process_message a now session_id message
                          customer_id))) now.
Proof.
  intros Hdb. unfold NANOAgent.process_message.
  destruct (NANOAgent.restore a session_id) as [session|]; [|exact Hdb].
  destruct (NANOAgent._is_session_expired now session); [exact Hdb|].
  destruct (NANOAgent._generate_response _ _ _ _ _ _ _)
    as [[[db3 session'] r]|e] eqn:Hg; unfold store_not_ahead in *; cbn.
  - apply generate_response_conversations in Hg. rewrite Hg. cbn.
    rewrite !Forall_app. repeat split; auto; repeat constructor; cbn; lia.
  - rewrite !Forall_app. repeat split; auto; repeat constructor; cbn; lia.
Qed.

End StoreClock.

(** * Further properties of the tools and of the dialogue controller *)

(** ** Rows rewritten in place *)

Section RowUpdates.

Lemma update_first_Forall2 {A} (R : A -> A -> Prop) (p : A -> bool)
    (f : A -> A) (rows : list A) :
  (forall x, R x x) -> (forall x, p x = true -> R x (f x)) ->
  Forall2 R rows (DB.update_first p f rows).
Proof.
  intros Hrefl Hf. induction rows as [|r rows IH]; cbn; [constructor|].
  destruct (p r) eqn:Hp.
  - constructor; [auto|]. clear -Hrefl. induction rows; constructor; auto.
  - constructor; auto.
Qed.

Lemma Forall2_same {A} (R : A -> A -> Prop) (rows : list A) :
  (forall x, R x x) -> Forall2 R rows rows.
Proof. intros H. induction rows; constructor; auto. Qed.

Lemma same_account_refl (c : Customer.t) : same_account c c.
Proof. unfold same_account. tauto. Qed.

End RowUpdates.

(** ** Identity verification: the rows it writes *)

Section VerificationFrame.

Import IdentityVerificationTools.

(** X1. Whatever its arguments, [verify_customer_identity] leaves the
    transactions and the conversation log alone; of the customers it
    can change only rows that match the name and the account number, and
    of those only the login state (the balance, the contact data and the
    security question and answer stay); of the session rows it can
    change only rows of the session it was called for. *)
Theorem verification_writes_login_state_only
    (db : DB.t) (now : Z) (session_id full_name account : string)
    (answer : option string) :
  let db' := fst (verify_customer_identity db now session_id full_name account
                    answer) in
  DB.transactions db' = DB.transactions db
  /\ DB.conversations db' = DB.conversations db
  /\ Forall2 (fun c c' => same_account c c'
                /\ (c' = c \/ customer_matches full_name account c = true))
       (DB.customers db) (DB.customers db')
  /\ Forall2 (fun r r' => r' = r \/ session_row session_id r = true)
       (DB.sessions db) (DB.sessions db').
Proof.
  assert (Hc : forall x : Customer.t,
             same_account x x
             /\ (x = x \/ customer_matches full_name account x = true)).
  { intros x. split; [apply same_account_refl|now left]. }
  assert (Hs : forall r : DBSession.t, r = r \/ session_row session_id r = true)
    by (intros r; now left).
  unfold verify_customer_identity.
  destruct (find_customer db full_name account) as [c|]; cbn.
  { destruct (negb _); cbn.
    { repeat split; auto using Forall2_same. }
    destruct (3 <=? _)%Z; cbn.
    { repeat split; auto using Forall2_same. }
    destruct (negb (Py.truthy answer)); cbn.
    { repeat split; auto using Forall2_same. }
    destruct (negb (_verify_security_answer _ _)); cbn.
    - repeat split; auto using Forall2_same.
      apply update_first_Forall2; [exact Hc|].
      intros x Hx. split; [|now right]. unfold same_account. cbn. tauto.
    - repeat split.
      + apply update_first_Forall2; [exact Hc|].
        intros x Hx. split; [|now right]. unfold same_account. cbn. tauto.
      + apply update_first_Forall2; [exact Hs|]. intros x Hx. now right. }
  repeat split; auto using Forall2_same.
Qed.

End VerificationFrame.

(** ** The correct security answer *)

Section CorrectAnswer.

Import IdentityVerificationTools.

Lemma verify_right_answer (db : DB.t) (now : Z)
    (session_id full_name account answer : string) (c : Customer.t) :
  find_customer db full_name account = Some c ->
  Customer.account_status c = "active" ->
  (Customer.login_attempts c < 3)%Z ->
  Py.nonempty answer = true ->
  _verify_security_answer (Customer.security_answer c) answer = true ->
  verify_customer_identity db now session_id full_name account (Some answer)
  = (DB.log_audit now session_id (Some (Customer.customer_id c))
       "identity_verification" "success"
       (DB.with_sessions
          (DB.update_first (session_row session_id)
             (bind_session now (Customer.customer_id c)) (DB.sessions db))
          (DB.with_customers
             (DB.update_first (customer_matches full_name account)
                (Customer.logged_in now) (DB.customers db)) db)),
     mk_result true
       ("Identity verified successfully. Welcome, "
        +:+ Customer.full_name c +:+ "!")
       None (Some (Customer.customer_id c)) None
       (Some (Customer.full_name c))).
Proof.
  intros Hf Hs Hl Ha Hv. unfold verify_customer_identity.
  rewrite Hf, Hs. cbn [String.eqb negb].
  change ("active" =? "active")%string with true. cbn [negb].
  destruct (3 <=? Customer.login_attempts c)%Z eqn:H3;
    [apply Z.leb_le in H3; lia|].
  cbn [Py.truthy]. rewrite Ha. cbn [negb].
  change (default "" (Some answer)) with answer. rewrite Hv. reflexivity.
Qed.

(** X2. The step from the pending security question to a verified
    session.  When the session awaits the answer of a customer whose
    account is active and who has fewer than three failures on record, a
    message that carries no credentials and equals the stored answer
    verifies the session: the session is bound to the customer and the
    pending name and account are dropped, the customer row has its
    failure count back at 0 with the login stamped, the session row of
    the store is bound as well, and the audit trail ends with the
    successful verification. *)
Theorem correct_answer_verifies_the_session
    (db : DB.t) (now : Z) (session_id message : string) (session : Session.t)
    (ents : Entities) (c : Customer.t) :
  NANOAgent.credentials message ents = Ok None ->
  Session.awaiting_security_answer session = true ->
  Py.truthy (Session.temp_customer_id session) = true ->
  pending_customer db session = Some c ->
  Customer.account_status c = "active" ->
  (Customer.login_attempts c < 3)%Z ->
  Py.nonempty message = true ->
  _verify_security_answer (Customer.security_answer c) message = true ->
  exists db',
    NANOAgent._handle_identity_verification db now session_id message session ents
    = Ok (db',
          Session.verified_as (Some (Customer.customer_id c))
            (Session.cleared session),
          NANOAgent.tool_reply session_id
            (("Identity verified successfully. Welcome, "
              +:+ Customer.full_name c +:+ "!")
             +:+ " What can I help you with today?")
            (Some true) (Some (Customer.customer_id c)) None None)
    /\ pending_customer db' session = Some (Customer.logged_in now c)
    /\ (forall r,
          DB.first (session_row session_id) (DB.sessions db) = Some r ->
          DB.first (session_row session_id) (DB.sessions db')
          = Some (bind_session now (Customer.customer_id c) r))
    /\ last (DB.audit_logs db')
       = Some (AuditLog.mk session_id (Some (Customer.customer_id c))
                 "identity_verification" "success" now).
Proof.
  intros Hcred Haw Htmp Hp Hs Hl Hm Hv.
  unfold NANOAgent._handle_identity_verification.
  rewrite Hcred, Haw, Htmp. cbn [andb].
  unfold pending_customer in Hp.
  rewrite (verify_right_answer db now session_id _ _ message c Hp Hs Hl Hm Hv).
  cbn [verified customer_id IdentityVerificationTools.message].
  eexists. split; [reflexivity|]. split; [|split].
  - unfold pending_customer, find_customer. cbn.
    apply first_update_first; [exact Hp|].
    apply first_holds in Hp. exact Hp.
  - intros r Hr. cbn. apply first_update_first; [exact Hr|].
    apply first_holds in Hr. exact Hr.
  - cbn. apply last_snoc.
Qed.

Lemma correct_answer_witness :
  exists db',
    NANOAgent._handle_identity_verification
      (DB.mk [john_two_failures] [] [DBSession.mk "s1" None false 0 0 "active"]
         [] [])
      10 "s1" " Fluffy" awaiting_john
      (entities (NANOAgentIntent._analyze_intent " Fluffy"))
    = Ok (db',
          Session.verified_as (Some "test123") (Session.fresh 0 None),
          NANOAgent.tool_reply "s1"
            "Identity verified successfully. Welcome, John Doe! What can I help you with today?"
            (Some true) (Some "test123") None None)
    /\ map Customer.login_attempts (DB.customers db') = [0%Z]
    /\ DB.sessions db' = [DBSession.mk "s1" (Some "test123") true 0 10 "active"].
Proof.
  destruct (correct_answer_verifies_the_session
              (DB.mk [john_two_failures] []
                 [DBSession.mk "s1" None false 0 0 "active"] [] [])
              10 "s1" " Fluffy" awaiting_john
              (entities (NANOAgentIntent._analyze_intent " Fluffy"))
              john_two_failures)
    as (db' & Hh & Hp & Hr & _);
    [reflexivity | reflexivity | reflexivity | reflexivity | reflexivity
    | reflexivity | reflexivity | reflexivity |].
  exists db'. split; [exact Hh|].
  injection Hh as <-. split; reflexivity.
Defined.

End CorrectAnswer.

(** ** The comparison of security answers *)

Section AnswerComparison.

Import Py IdentityVerificationTools.

Lemma to_lower_idem (c : ascii) : to_lower (to_lower c) = to_lower c.
Proof. destruct c as [[] [] [] [] [] [] [] []]; reflexivity. Qed.

Lemma to_lower_space (c : ascii) : is_space c = true -> to_lower c = c.
Proof. destruct c as [[] [] [] [] [] [] [] []]; intros H; try reflexivity; discriminate H. Qed.

Lemma lower_idem (s : string) : lower (lower s) = lower s.
Proof.
  unfold lower. induction s as [|c s IH]; cbn; [reflexivity|].
  now rewrite to_lower_idem, IH.
Qed.

Lemma lower_blank (s : string) : blank s -> lower s = s.
Proof.
  unfold blank, lower. induction s as [|c s IH]; cbn [sall smap]; [reflexivity|].
  intros [Hc Hs]%andb_prop. now rewrite to_lower_space, IH.
Qed.

Lemma lstrip_ws_blank (p s : string) : blank p -> lstrip_ws (p +:+ s) = lstrip_ws s.
Proof.
  unfold blank. induction p as [|c p IH]; cbn [sall]; [reflexivity|].
  intros [Hc Hp]%andb_prop.
  change (String c p +:+ s) with (String c (p +:+ s)).
  cbn [lstrip_ws]. rewrite Hc. auto.
Qed.

Lemma list_ascii_app (a b : string) :
  list_ascii_of_string (a +:+ b)
  = (list_ascii_of_string a ++ list_ascii_of_string b)%list.
Proof.
  induction a as [|c a IH]; [reflexivity|].
  change (String c a +:+ b) with (String c (a +:+ b)).
  cbn [list_ascii_of_string]. now rewrite IH.
Qed.

Lemma string_of_list_app (l1 l2 : list ascii) :
  string_of_list_ascii (l1 ++ l2)
  = string_of_list_ascii l1 +:+ string_of_list_ascii l2.
Proof.
  induction l1 as [|c l1 IH]; [reflexivity|].
  cbn [app string_of_list_ascii]. now rewrite IH.
Qed.

Lemma srev_app (a b : string) : srev (a +:+ b) = srev b +:+ srev a.
Proof.
  unfold srev. now rewrite list_ascii_app, rev_app_distr, string_of_list_app.
Qed.

Lemma sall_app (p : ascii -> bool) (a b : string) :
  sall p (a +:+ b) = sall p a && sall p b.
Proof.
  induction a as [|c a IH]; [reflexivity|].
  change (String c a +:+ b) with (String c (a +:+ b)).
  cbn [sall]. now rewrite IH, andb_assoc.
Qed.

Lemma srev_blank (p : string) : blank p -> blank (srev p).
Proof.
  unfold blank. induction p as [|c p IH]; [reflexivity|].
  cbn [sall]. intros [Hc Hp]%andb_prop.
  change (String c p) with (String c "" +:+ p). rewrite srev_app, sall_app.
  rewrite (IH Hp). change (srev (String c "")) with (String c "").
  cbn [sall]. now rewrite Hc.
Qed.

Lemma lstrip_ws_all_blank (p : string) : blank p -> lstrip_ws p = "".
Proof.
  unfold blank. induction p as [|c p IH]; cbn [sall lstrip_ws]; [reflexivity|].
  intros [Hc Hp]%andb_prop. rewrite Hc. auto.
Qed.

(** The blanks at the end go with the blanks the strip removes there. *)
Lemma rstrip_ws_blank (s p : string) :
  blank p -> srev (lstrip_ws (srev (s +:+ p))) = srev (lstrip_ws (srev s)).
Proof.
  intros Hp. rewrite srev_app, lstrip_ws_blank; [reflexivity|].
  now apply srev_blank.
Qed.

Lemma strip_ws_padded (p1 s p2 : string) :
  blank p1 -> blank p2 -> strip_ws (p1 +:+ s +:+ p2) = strip_ws s.
Proof.
  intros H1 H2. unfold strip_ws. rewrite lstrip_ws_blank by exact H1.
  induction s as [|c s IH].
  - change ("" +:+ p2) with p2. now rewrite (lstrip_ws_all_blank p2 H2).
  - change (String c s +:+ p2) with (String c (s +:+ p2)). cbn [lstrip_ws].
    destruct (is_space c); [exact IH|].
    change (String c (s +:+ p2)) with (String c s +:+ p2).
    now apply rstrip_ws_blank.
Qed.

(** X3. The comparison of a security answer with the stored one ignores
    the case of the letters and the blanks around the answer: the answer
    in lower case, any other text with the same lower-case form (in the
    place of the answer or of the stored text), and the answer padded
    with blanks on either side are accepted exactly when the answer
    itself is, and the stored text always passes for itself. *)
Theorem security_answer_ignores_case_and_blanks
    (stored provided other pad1 pad2 : string) :
  blank pad1 -> blank pad2 -> lower other = lower provided ->
  _verify_security_answer stored (lower provided)
  = _verify_security_answer stored provided
  /\ _verify_security_answer stored other
     = _verify_security_answer stored provided
  /\ _verify_security_answer other stored
     = _verify_security_answer provided stored
  /\ _verify_security_answer stored (pad1 +:+ provided +:+ pad2)
     = _verify_security_answer stored provided
  /\ _verify_security_answer provided provided = true.
Proof.
  intros H1 H2 Ho. unfold _verify_security_answer.
  rewrite lower_idem, Ho. split; [reflexivity|].
  split; [reflexivity|]. split; [reflexivity|].
  split; [|apply String.eqb_refl].
  unfold lower at 2. rewrite !smap_app.
  fold (lower pad1) (lower provided) (lower pad2).
  rewrite (lower_blank pad1 H1), (lower_blank pad2 H2).
  now rewrite strip_ws_padded.
Qed.

Lemma security_answer_witness :
  _verify_security_answer "fluffy" "FLUFFY" = true
  /\ _verify_security_answer "FLUFFY" "fluffy" = true
  /\ _verify_security_answer "fluffy" ("  " +:+ "Fluffy" +:+ " ") = true.
Proof.
  destruct (security_answer_ignores_case_and_blanks "fluffy" "Fluffy" "FLUFFY"
              "  " " ")
    as (_ & Ho & Hs & Hp & _); [reflexivity | reflexivity | reflexivity |].
  split; [rewrite Ho; reflexivity|].
  split; [rewrite Hs | rewrite Hp]; reflexivity.
Defined.

End AnswerComparison.

(** ** Contact updates *)

Section ContactUpdate.

Import DatabaseOperationTools.

Lemma update_record_outcome (db : DB.t) (now : Z)
    (session_id customer_id : string) (updates : list (string * string))
    (c : Customer.t) :
  DB.first (has_id customer_id) (DB.customers db) = Some c ->
  snd (apply_updates updates c) = true ->
  let '(db', r) := update_customer_record db now session_id customer_id updates in
  (u_success r = true ->
   DB.first (has_id customer_id) (DB.customers db')
   = Some (Customer.with_updated_at now (fst (apply_updates updates c))))
  /\ (u_success r = false -> DB.customers db' = DB.customers db)
  /\ (Customer.email (fst (apply_updates updates c)) = Customer.email c ->
      u_success r = true).
Proof.
  intros Hf Ht. unfold update_customer_record. rewrite Hf.
  destruct (apply_updates updates c) as [c' touched] eqn:Ha.
  cbn [fst snd] in *. subst touched. cbn [negb].
  destruct (negb (Customer.email c' =? Customer.email c)%string
            && email_taken customer_id (Customer.email c') (DB.customers db))
    eqn:Hclash.
  - split; [discriminate|]. split; [reflexivity|].
    intros He. rewrite He, String.eqb_refl in Hclash. discriminate.
  - split; [|split; [discriminate|reflexivity]].
    intros _. cbn. apply (first_update_first _ (fun _ => Customer.with_updated_at now c') c);
      [exact Hf|].
    pose proof (apply_updates_protected updates c) as Hp.
    rewrite Ha in Hp. destruct Hp as [Hid _]. cbn in Hid.
    apply first_holds in Hf. unfold has_id in *. cbn. now rewrite Hid.
Qed.

(** X4. [update_contact_info] on a customer that exists: when it reports
    success, the row found under the customer id afterwards carries every
    value that was given, keeps every contact field that was not given,
    and is stamped with the time of the update; when it reports failure
    no customer row has changed; and without a new email address it
    succeeds exactly when a phone number or an address is given. *)
Theorem update_contact_info_round_trip
    (db : DB.t) (now : Z) (session_id customer_id : string)
    (email phone address : option string) (c : Customer.t) :
  DB.first (has_id customer_id) (DB.customers db) = Some c ->
  let '(db', r) :=
    update_contact_info db now session_id customer_id email phone address in
  (u_success r = true ->
   DB.first (has_id customer_id) (DB.customers db')
   = Some (contact_updated email phone address now c))
  /\ (u_success r = false -> DB.customers db' = DB.customers db)
  /\ (email = None ->
      u_success r = match phone, address with
                    | None, None => false
                    | _, _ => true
                    end).
Proof.
  intros Hf. unfold update_contact_info. rewrite Hf.
  destruct email as [e|], phone as [p|], address as [d|];
    cbn [contact_updates app];
    try (split; [discriminate|split; [reflexivity|reflexivity]]);
    match goal with
    | |- context [update_customer_record _ _ _ _ ?u] =>
        pose proof (update_record_outcome db now session_id customer_id u c Hf
                      eq_refl) as H;
        destruct (update_customer_record db now session_id customer_id u)
          as [db' r];
        destruct H as (H1 & H2 & H3)
    end;
    (split; [intros Hs; rewrite (H1 Hs); reflexivity|]);
    (split; [exact H2|]);
    intros He; try discriminate He; apply H3; reflexivity.
Qed.

Lemma update_contact_info_witness :
  let '(db', r) :=
    update_contact_info test_db 20 "s1" "test123" None (Some "555-0100") None in
  u_success r = true
  /\ DB.customers db'
     = [Customer.mk "test123" "John Doe" "1234567890" "john@test.com"
          (Some "555-0100") None "What is your pet's name?" "fluffy"
          (F64.of_Z 1000) "active" (Some 20%Z) false 0 None].
Proof.
  pose proof (update_contact_info_round_trip test_db 20 "s1" "test123" None
                (Some "555-0100") None john_doe eq_refl) as H.
  destruct (update_contact_info test_db 20 "s1" "test123" None
              (Some "555-0100") None) as [db' r] eqn:Hu.
  destruct H as (_ & _ & H3). split; [exact (H3 eq_refl)|].
  injection Hu as <- _. reflexivity.
Defined.

End ContactUpdate.

(** ** The unique email address *)

Section UniqueEmail.

Import DatabaseOperationTools.

Lemma email_taken_by_other (customer_id new_email : string)
    (other : Customer.t) (rows : list Customer.t) :
  In other rows -> has_id customer_id other = false ->
  Customer.email other = new_email ->
  email_taken customer_id new_email rows = true.
Proof.
  intros Hin Hid He. induction rows as [|r rows IH]; [destruct Hin|].
  cbn [email_taken]. destruct (has_id customer_id r) eqn:Hr.
  - destruct Hin as [->|Hin]; [congruence|].
    apply existsb_exists. exists other. split; [exact Hin|].
    rewrite He. apply String.eqb_refl.
  - destruct Hin as [->|Hin].
    + rewrite He, String.eqb_refl. reflexivity.
    + rewrite (IH Hin). apply orb_true_r.
Qed.

(** X5. The email address of a customer cannot be set to the address of
    another customer: the commit fails on the UNIQUE column, the update
    reports failure, an audit entry "failed" is written and the store is
    otherwise as before. *)
Theorem update_refuses_email_of_another_customer
    (db : DB.t) (now : Z) (session_id customer_id new_email : string)
    (c other : Customer.t) :
  DB.first (has_id customer_id) (DB.customers db) = Some c ->
  In other (DB.customers db) ->
  has_id customer_id other = false ->
  Customer.email other = new_email ->
  Customer.email c <> new_email ->
  update_customer_record db now session_id customer_id [("email", new_email)]
  = (DB.log_audit now session_id (Some customer_id) "update_customer_record"
       "failed" db,
     mk_update_result false
       "Update failed: UNIQUE constraint failed: customers.email" None None).
Proof.
  intros Hf Hin Hid He Hne. unfold update_customer_record. rewrite Hf.
  cbn [apply_updates Py.mem updatable_fields existsb String.eqb Ascii.eqb
       Bool.eqb orb andb fst snd setattr].
  change (setattr "email" new_email c) with (Customer.with_email new_email c).
  cbn [negb Customer.email Customer.with_email].
  rewrite (email_taken_by_other customer_id new_email other _ Hin Hid He).
  destruct (String.eqb_spec new_email (Customer.email c)) as [Heq|_];
    [congruence|reflexivity].
Qed.

Lemma update_refuses_email_witness :
  let jane :=
    Customer.mk "test456" "Jane Roe" "7654321" "jane@test.com" None None
      "First school?" "hill" (F64.of_Z 50) "active" None false 0 None in
  let db := DB.mk [john_doe; jane] [] [] [] [] in
  DB.customers
    (fst (update_customer_record db 20 "s1" "test456"
            [("email", "john@test.com")]))
  = [john_doe; jane]
  /\ u_success
       (snd (update_customer_record db 20 "s1" "test456"
               [("email", "john@test.com")])) = false.
Proof.
  cbv zeta.
  rewrite (update_refuses_email_of_another_customer
             (DB.mk [john_doe;
                     Customer.mk "test456" "Jane Roe" "7654321" "jane@test.com"
                       None None "First school?" "hill" (F64.of_Z 50) "active"
                       None false 0 None] [] [] [] [])
             20 "s1" "test456" "john@test.com"
             (Customer.mk "test456" "Jane Roe" "7654321" "jane@test.com"
                None None "First school?" "hill" (F64.of_Z 50) "active"
                None false 0 None)
             john_doe);
    [split; reflexivity | reflexivity | now left | reflexivity | reflexivity
    | discriminate].
Defined.

End UniqueEmail.

(** ** Transactions *)

Section Transactions.

Import DatabaseOperationTools.

Lemma eqb_not_nan (x : F64.float) : F64.is_nan x = false -> F64.eqb x x = true.
Proof.
  unfold F64.eqb, SFeqb, SFcompare.
  destruct x as [[]|[]| |[] m e]; intros H; try reflexivity; try discriminate H;
    rewrite Z.compare_refl, Pos.compare_cont_refl; reflexivity.
Qed.

Lemma active_is_kept (customer_id : string) (b : F64.float) (now : Z)
    (c : Customer.t) :
  active_with_id customer_id (Customer.with_account_balance b now c)
  = active_with_id customer_id c.
Proof. reflexivity. Qed.

(** What [create_transaction] returns and writes. *)
Lemma create_transaction_outcome
    (db : DB.t) (now : Z) (transaction_id session_id customer_id : string)
    (amount : F64.float) (transaction_type description : string) :
  let '(db', r) :=
    create_transaction db now transaction_id session_id customer_id amount
      transaction_type description in
  if t_success r then
    exists c b,
      DB.first (active_with_id customer_id) (DB.customers db) = Some c
      /\ new_balance r = Some b
      /\ F64.is_nan b = false
      /\ ((transaction_type = "credit"
           /\ b = F64.add (Customer.account_balance c) amount)
          \/ (transaction_type = "debit"
              /\ b = F64.sub (Customer.account_balance c) amount
              /\ F64.ltb b F64.zero = false))
      /\ DB.first (active_with_id customer_id) (DB.customers db')
         = Some (Customer.with_account_balance b now c)
      /\ DB.transactions db'
         = (DB.transactions db
            ++ [Transaction.mk transaction_id customer_id amount
                  transaction_type (Some description) b now "completed"])%list
  else
    DB.customers db' = DB.customers db
    /\ DB.transactions db' = DB.transactions db.
Proof.
  unfold create_transaction.
  destruct (DB.first (active_with_id customer_id) (DB.customers db))
    as [c|] eqn:Hf; [|cbn; auto].
  assert (Hcommit : forall b,
    (transaction_type = "credit"
     /\ b = F64.add (Customer.account_balance c) amount)
    \/ (transaction_type = "debit"
        /\ b = F64.sub (Customer.account_balance c) amount
        /\ F64.ltb b F64.zero = false) ->
    let '(db', r) :=
      match insert_violation transaction_id amount b (DB.transactions db) with
      | Some e =>
          (DB.log_audit now session_id (Some customer_id) "create_transaction"
             "failed" db,
           mk_transaction_result false ("Transaction failed: " +:+ e) None None)
      | None =>
          (DB.log_audit now session_id (Some customer_id) "create_transaction"
             "success"
             (DB.with_transactions
                (DB.transactions
                   (DB.with_customers
                      (DB.update_first (active_with_id customer_id)
                         (Customer.with_account_balance b now)
                         (DB.customers db)) db)
                 ++ [Transaction.mk transaction_id customer_id amount
                       transaction_type (Some description) b now "completed"])
                (DB.with_customers
                   (DB.update_first (active_with_id customer_id)
                      (Customer.with_account_balance b now)
                      (DB.customers db)) db)),
           mk_transaction_result true "Transaction completed successfully"
             (Some transaction_id) (Some b))
      end in
    if t_success r then
      exists c0 b0,
        Some c = Some c0
        /\ new_balance r = Some b0
        /\ F64.is_nan b0 = false
        /\ ((transaction_type = "credit"
             /\ b0 = F64.add (Customer.account_balance c0) amount)
            \/ (transaction_type = "debit"
                /\ b0 = F64.sub (Customer.account_balance c0) amount
                /\ F64.ltb b0 F64.zero = false))
        /\ DB.first (active_with_id customer_id) (DB.customers db')
           = Some (Customer.with_account_balance b0 now c0)
        /\ DB.transactions db'
           = (DB.transactions db
              ++ [Transaction.mk transaction_id customer_id amount
                    transaction_type (Some description) b0 now "completed"])%list
    else
      DB.customers db' = DB.customers db
      /\ DB.transactions db' = DB.transactions db).
  { intros b Hb.
    destruct (insert_violation transaction_id amount b (DB.transactions db))
      eqn:Hv; cbn; [auto|].
    exists c, b. split; [reflexivity|]. split; [reflexivity|].
    split.
    { unfold insert_violation in Hv.
      destruct (F64.is_nan amount); [discriminate|].
      destruct (F64.is_nan b); [discriminate|reflexivity]. }
    split; [exact Hb|]. split; [|reflexivity].
    apply first_update_first; [exact Hf|].
    rewrite active_is_kept. now apply first_holds in Hf. }
  destruct (String.eqb_spec transaction_type "credit") as [Hc|Hc].
  { apply Hcommit. left. split; [exact Hc|reflexivity]. }
  destruct (String.eqb_spec transaction_type "debit") as [Hd|Hd]; [|cbn; auto].
  destruct (F64.ltb (F64.sub (Customer.account_balance c) amount) F64.zero)
    eqn:Hlt; [cbn; auto|].
  apply Hcommit. right. split; [exact Hd|]. split; [reflexivity|exact Hlt].
Qed.

(** X6. [create_transaction] writes all or nothing.  When it reports
    failure, no customer row and no transaction row has changed.  When it
    reports success, the type was "credit" or "debit", the new balance is
    the old one plus or minus the amount (computed in binary64), a debit
    did not take the balance below zero, the customer row carries the new
    balance, and the transactions table has exactly one more row, which
    records the amount and that same balance. *)
Theorem create_transaction_all_or_nothing
    (db : DB.t) (now : Z) (transaction_id session_id customer_id : string)
    (amount : F64.float) (transaction_type description : string) :
  let '(db', r) :=
    create_transaction db now transaction_id session_id customer_id amount
      transaction_type description in
  if t_success r then
    exists c b,
      DB.first (active_with_id customer_id) (DB.customers db) = Some c
      /\ new_balance r = Some b
      /\ F64.is_nan b = false
      /\ ((transaction_type = "credit"
           /\ b = F64.add (Customer.account_balance c) amount)
          \/ (transaction_type = "debit"
              /\ b = F64.sub (Customer.account_balance c) amount
              /\ F64.ltb b F64.zero = false))
      /\ DB.first (active_with_id customer_id) (DB.customers db')
         = Some (Customer.with_account_balance b now c)
      /\ DB.transactions db'
         = (DB.transactions db
            ++ [Transaction.mk transaction_id customer_id amount
                  transaction_type (Some description) b now "completed"])%list
  else
    DB.customers db' = DB.customers db
    /\ DB.transactions db' = DB.transactions db.
Proof.
  exact (create_transaction_outcome db now transaction_id session_id
           customer_id amount transaction_type description).
Qed.

Lemma insert_newest_head (x : Transaction.t) (l : list Transaction.t)
    (t : Transaction.t) :
  (Transaction.created_at t < Transaction.created_at x)%Z ->
  insert_newest t (x :: l) = x :: insert_newest t l.
Proof.
  intros H. cbn [insert_newest].
  destruct (Transaction.created_at t <? Transaction.created_at x)%Z eqn:Hlt;
    [reflexivity|]. apply Z.ltb_ge in Hlt. lia.
Qed.

Lemma newest_first_snoc (l : list Transaction.t) (x : Transaction.t) :
  Forall (fun t => (Transaction.created_at t < Transaction.created_at x)%Z) l ->
  newest_first (l ++ [x]) = x :: newest_first l.
Proof.
  unfold newest_first. induction 1 as [|t l Ht Hl IH]; [reflexivity|].
  cbn [app foldr]. rewrite IH. now apply insert_newest_head.
Qed.

(** X7. A balance query that follows a successful [create_transaction]
    agrees with it: provided the customer's earlier transactions are
    older than the new one, the query succeeds, reports the balance the
    transaction returned, and finds that balance confirmed by the latest
    transaction ("verified"). *)
Theorem balance_query_confirms_new_transaction
    (db : DB.t) (now now' : Z) (transaction_id session_id customer_id : string)
    (amount : F64.float) (transaction_type description : string) :
  Forall (fun t => of_customer customer_id t = true ->
                   (Transaction.created_at t < now)%Z) (DB.transactions db) ->
  t_success (snd (create_transaction db now transaction_id session_id
                    customer_id amount transaction_type description)) = true ->
  let created :=
    create_transaction db now transaction_id session_id customer_id amount
      transaction_type description in
  let q := snd (query_account_balance (fst created) now' session_id customer_id) in
  b_success q = true
  /\ Some (current_balance q) = new_balance (snd created)
  /\ balance_status q = Some "verified".
Proof.
  intros Hold Hs. cbv zeta.
  pose proof (create_transaction_outcome db now transaction_id session_id
                customer_id amount transaction_type description) as H.
  destruct (create_transaction db now transaction_id session_id customer_id
              amount transaction_type description) as [db' r].
  cbn [fst snd] in *. rewrite Hs in H.
  destruct H as (c & b & _ & Hb & Hnan & _ & Hc & Ht).
  unfold query_account_balance. rewrite Hc, Ht, Hb.
  rewrite List.filter_app. cbn [List.filter].
  match goal with
  | |- context [of_customer customer_id ?t] =>
      replace (of_customer customer_id t) with true
        by (symmetry; apply String.eqb_refl)
  end.
  rewrite newest_first_snoc.
  - cbn. rewrite (eqb_not_nan b Hnan). auto.
  - clear -Hold. induction Hold as [|t l Ht Hl IH]; cbn [List.filter];
      [constructor|].
    destruct (of_customer customer_id t) eqn:Ho; [|exact IH].
    constructor; [exact (Ht eq_refl)|exact IH].
Qed.

Lemma balance_query_witness :
  let created :=
    create_transaction test_db 20 "t1" "s1" "test123" (F64.of_Z 250) "debit"
      "rent" in
  let q := snd (query_account_balance (fst created) 21 "s1" "test123") in
  b_success q = true
  /\ current_balance q = F64.of_Z 750
  /\ balance_status q = Some "verified".
Proof.
  destruct (balance_query_confirms_new_transaction test_db 20 21 "t1" "s1"
              "test123" (F64.of_Z 250) "debit" "rent")
    as (H1 & H2 & H3); [constructor | reflexivity |].
  cbv zeta. split; [exact H1|]. split; [|exact H3].
  vm_compute. reflexivity.
Defined.

End Transactions.

(** ** The transaction listing *)

Section History30.

Import DatabaseOperationTools.

Lemma insert_newest_perm (t : Transaction.t) (l : list Transaction.t) :
  Permutation (insert_newest t l) (t :: l).
Proof.
  induction l as [|u l IH]; cbn [insert_newest]; [reflexivity|].
  destruct (_ <? _)%Z; [|reflexivity].
  rewrite IH. apply perm_swap.
Qed.

Lemma newest_first_perm (l : list Transaction.t) :
  Permutation (newest_first l) l.
Proof.
  unfold newest_first. induction l as [|t l IH]; cbn [foldr]; [reflexivity|].
  rewrite insert_newest_perm. now constructor.
Qed.

Lemma insert_newest_sorted (t : Transaction.t) (l : list Transaction.t) :
  StronglySorted not_older l -> StronglySorted not_older (insert_newest t l).
Proof.
  induction 1 as [|u l Hl IH Hu]; cbn [insert_newest].
  - repeat constructor.
  - destruct (Transaction.created_at t <? Transaction.created_at u)%Z eqn:Hlt.
    + apply Z.ltb_lt in Hlt. constructor; [exact IH|].
      rewrite insert_newest_perm. constructor; [unfold not_older; lia|exact Hu].
    + apply Z.ltb_ge in Hlt. constructor; [now constructor|].
      constructor; [exact Hlt|].
      eapply Forall_impl; [exact Hu|]. unfold not_older. cbn. intros x Hx. lia.
Qed.

Lemma newest_first_sorted (l : list Transaction.t) :
  StronglySorted not_older (newest_first l).
Proof.
  unfold newest_first. induction l as [|t l IH]; cbn [foldr]; [constructor|].
  now apply insert_newest_sorted.
Qed.

Lemma sorted_take {A} (R : A -> A -> Prop) (n : nat) (l : list A) :
  StronglySorted R l -> StronglySorted R (take n l).
Proof.
  intros H. revert n. induction H as [|x l Hl IH Hx]; intros [|n]; cbn [take];
    try constructor; [apply IH|]. now apply Forall_take.
Qed.

(** X8. [transaction_history] lists transaction rows of the store that
    belong to the customer and are not older than [days] days, newest
    first, and no more than [limit] of them: the number it reports as
    the total is the smaller of [limit] and the number of such rows.  It
    changes neither the customers nor the transactions. *)
Theorem transaction_history_is_recent_sorted_and_bounded
    (db : DB.t) (now : Z) (session_id customer_id : string) (limit : nat)
    (days : Z) :
  let '(db', r) :=
    transaction_history db now session_id customer_id limit days in
  exists selected,
    h_transactions r = map view selected
    /\ total_transactions r = length selected
    /\ length selected
       = Nat.min limit
           (length (List.filter (in_window customer_id (now - days * 86400))
                      (DB.transactions db)))
    /\ Forall (fun t => In t (DB.transactions db)
                        /\ Transaction.customer_id t = customer_id
                        /\ (now - days * 86400 <= Transaction.created_at t)%Z)
         selected
    /\ StronglySorted not_older selected
    /\ DB.customers db' = DB.customers db
    /\ DB.transactions db' = DB.transactions db.
Proof.
  unfold transaction_history.
  set (rows := List.filter _ (DB.transactions db)).
  exists (take limit (newest_first rows)). cbn.
  split; [reflexivity|]. split; [apply length_map|].
  split.
  { rewrite length_take. now rewrite (Permutation_length (newest_first_perm rows)). }
  split.
  { apply Forall_take. rewrite (newest_first_perm rows).
    apply List.Forall_forall. intros t Ht. subst rows.
    apply List.filter_In in Ht. destruct Ht as [Hin [Ho Hw]%andb_prop].
    split; [exact Hin|]. split; [now apply String.eqb_eq in Ho|].
    now apply Z.leb_le in Hw. }
  split; [|split; reflexivity].
  apply sorted_take, newest_first_sorted.
Qed.

End History30.

(** ** The balance query *)

Section BalanceQuery.

Import DatabaseOperationTools.

(** X9. [query_account_balance] reads and does not write: customers,
    transactions and sessions are as before.  It answers from the first
    row that has the customer id and the status "active", with the
    balance stored there; when the store has no such row (the customer
    is unknown, or the account is not active) it fails and leaves the
    store untouched, without an audit entry. *)
Theorem balance_query_reads_the_active_row
    (db : DB.t) (now : Z) (session_id customer_id : string) :
  let '(db', r) := query_account_balance db now session_id customer_id in
  DB.customers db' = DB.customers db
  /\ DB.transactions db' = DB.transactions db
  /\ DB.sessions db' = DB.sessions db
  /\ match DB.first (active_with_id customer_id) (DB.customers db) with
     | Some c =>
         b_success r = true
         /\ current_balance r = Customer.account_balance c
         /\ In c (DB.customers db)
         /\ Customer.customer_id c = customer_id
         /\ Customer.account_status c = "active"
     | None =>
         b_success r = false
         /\ db' = db
         /\ Forall (fun c => Customer.customer_id c = customer_id ->
                             Customer.account_status c <> "active")
              (DB.customers db)
     end.
Proof.
  unfold query_account_balance, DB.first.
  destruct (List.find (active_with_id customer_id) (DB.customers db))
    as [c|] eqn:Hf; cbn.
  - apply List.find_some in Hf. destruct Hf as [Hin [Hid Hst]%andb_prop].
    apply String.eqb_eq in Hid, Hst. auto 10.
  - do 5 (split; [reflexivity|]).
    apply List.Forall_forall. intros c Hin Hid Hst.
    pose proof (List.find_none _ _ Hf c Hin) as Hc.
    unfold active_with_id, has_id in Hc. rewrite Hid, Hst in Hc.
    rewrite String.eqb_refl in Hc. discriminate Hc.
Qed.

End BalanceQuery.

(** ** The knowledge-base search *)

Section KnowledgeBase.

Import GeneralSupportTools.

Lemma filter_nil_head {A} (f : A -> bool) (x : A) (l : list A) :
  List.filter f (x :: l) = [] -> f x = false.
Proof. cbn [List.filter]. destruct (f x); [discriminate|reflexivity]. Qed.

(** X10. [banking_knowledge_base] returns the entries of the knowledge
    base that have a word of their topic in the lower-cased query, in
    the order of the knowledge base, and nothing else: the substitute
    entry for the terms "balance" and "account" is never returned,
    because both are words of the first topic. *)
Theorem knowledge_base_results_are_topic_matches
    (db : DB.t) (now : Z) (session_id : string) (customer_id : option string)
    (query : string) :
  let r := snd (banking_knowledge_base db now session_id customer_id query) in
  kb_success r = true
  /\ results r = List.filter (topic_word_in (Py.lower query)) knowledge_base.
Proof.
  cbv zeta. unfold banking_knowledge_base. cbn [snd kb_success results].
  split; [reflexivity|].
  change (fun e : kb_entry =>
            Py.any_hit (Py.split (Py.lower (topic e))) (Py.lower query))
    with (topic_word_in (Py.lower query)).
  destruct (List.filter (topic_word_in (Py.lower query)) knowledge_base)
    as [|e l] eqn:Hf; [|reflexivity].
  assert (Hfirst : topic_word_in (Py.lower query)
                     (mk_kb "account_services" "Account Balance Inquiry"
                        "Check your current account balance and recent transactions."
                        ["Verify identity"; "Access account information"; "Display balance"]
                        ["Valid ID"; "Security verification"]) = false).
  { apply (filter_nil_head _ _ _ Hf). }
  unfold topic_word_in in Hfirst. cbn [topic] in Hfirst.
  change (Py.split (Py.lower "Account Balance Inquiry"))
    with ["account"; "balance"; "inquiry"] in Hfirst.
  cbn [Py.any_hit existsb] in *.
  destruct (Py.contains "account" (Py.lower query));
    [discriminate Hfirst|].
  destruct (Py.contains "balance" (Py.lower query));
    [discriminate Hfirst|]. reflexivity.
Qed.

End KnowledgeBase.

(** ** Sessions that are gone *)

Section GoneSessions.

(** X11. A message for a session that is neither in the memory of the
    agent nor an active row of the store is answered with the request to
    start a new session, and nothing changes: no row is written and no
    session is created. *)
Theorem unknown_session_changes_nothing
    (a : NANOAgent.t) (now : Z) (session_id message : string)
    (customer_id : option string) :
  NANOAgent.active_sessions a !! session_id = None ->
  Forall (fun r => DBSession.session_id r = session_id ->
                   DBSession.status r <> "active")
    (DB.sessions (NANOAgent.db a)) ->
  NANOAgent.process_message a now session_id message customer_id
  = (a, session_expired_reply session_id).
Proof.
  intros Hm Hrows. unfold NANOAgent.process_message, NANOAgent.restore.
  rewrite Hm.
  destruct (DB.first (NANOAgent.active_row session_id)
              (DB.sessions (NANOAgent.db a))) as [r|] eqn:Hf; [|reflexivity].
  exfalso. apply List.find_some in Hf. destruct Hf as [Hin [Hid Hst]%andb_prop].
  apply String.eqb_eq in Hid, Hst.
  rewrite List.Forall_forall in Hrows. exact (Hrows r Hin Hid Hst).
Qed.

Lemma unknown_session_witness :
  NANOAgent.process_message
    (NANOAgent.mk
       (DB.mk [john_doe] [] [DBSession.mk "s1" None false 0 0 "terminated"] [] [])
       ∅) 5 "s1" "hello" None
  = (NANOAgent.mk
       (DB.mk [john_doe] [] [DBSession.mk "s1" None false 0 0 "terminated"] [] [])
       ∅,
     session_expired_reply "s1").
Proof.
  apply unknown_session_changes_nothing; [reflexivity|].
  repeat constructor. cbn. discriminate.
Defined.

Lemma restore_after_insert (a : NANOAgent.t) (session_id : string)
    (session : Session.t) :
  NANOAgent.restore
    (NANOAgent.mk (NANOAgent.db a)
       (<[session_id := session]> (NANOAgent.active_sessions a))) session_id
  = Some session.
Proof. unfold NANOAgent.restore. cbn. now rewrite lookup_insert_eq. Qed.

Lemma timed_out_turn (a : NANOAgent.t) (now : Z) (session_id message : string)
    (customer_id : option string) (session : Session.t) :
  NANOAgent.restore a session_id = Some session ->
  (Session.created_at session + 30 * 60 < now)%Z ->
  NANOAgent.process_message a now session_id message customer_id
  = (NANOAgent.mk (NANOAgent.db a)
       (<[session_id := session]> (NANOAgent.active_sessions a)),
     session_timed_out_reply session_id).
Proof.
  intros Hr Hage. unfold NANOAgent.process_message. rewrite Hr.
  unfold NANOAgent._is_session_expired, Settings.session_timeout_minutes.
  destruct (30 * 60 <? now - Session.created_at session)%Z eqn:Hlt;
    [reflexivity|]. apply Z.ltb_ge in Hlt. lia.
Qed.

(** X12. The time limit of a session runs from its creation, whatever
    its last activity: once a session is more than thirty minutes old,
    this message and every later message of the conversation is answered
    with the time-out reply, the store is not touched (no conversation
    row, no audit entry), and the session stays as it was. *)
Theorem timed_out_session_stays_rejected
    (a : NANOAgent.t) (now : Z) (session_id : string) (messages : list string)
    (session : Session.t) :
  NANOAgent.restore a session_id = Some session ->
  (Session.created_at session + 30 * 60 < now)%Z ->
  let '(a', replies) := converse a now session_id messages in
  NANOAgent.db a' = NANOAgent.db a
  /\ Forall (fun r => r = session_timed_out_reply session_id) replies
  /\ length replies = length messages
  /\ NANOAgent.restore a' session_id = Some session.
Proof.
  revert a now. induction messages as [|m messages IH]; intros a now Hr Hage.
  - cbn. auto.
  - cbn [converse].
    rewrite (timed_out_turn a now session_id m None session Hr Hage).
    specialize (IH (NANOAgent.mk (NANOAgent.db a)
                      (<[session_id := session]> (NANOAgent.active_sessions a)))
                   (now + 1)%Z (restore_after_insert a session_id session)
                   ltac:(lia)).
    destruct (converse _ (now + 1)%Z session_id messages) as [a2 rs].
    destruct IH as (Hdb & Hrs & Hlen & Hrest).
    split; [exact Hdb|]. split; [constructor; [reflexivity|exact Hrs]|].
    split; [cbn; now rewrite Hlen|exact Hrest].
Qed.

Lemma timed_out_session_witness :
  let a := NANOAgent.create_session (NANOAgent.mk test_db ∅) 10 "s1" None in
  let '(a', replies) := converse a 1811 "s1" ["hello"; "What's my balance?"] in
  NANOAgent.db a' = NANOAgent.db a
  /\ replies = [session_timed_out_reply "s1"; session_timed_out_reply "s1"].
Proof.
  cbv zeta.
  pose proof (timed_out_session_stays_rejected
                (NANOAgent.create_session (NANOAgent.mk test_db ∅) 10 "s1" None)
                1811 "s1" ["hello"; "What's my balance?"]
                (Session.fresh 10 None) eq_refl eq_refl) as H.
  destruct (converse _ 1811 "s1" ["hello"; "What's my balance?"])
    as [a' replies] eqn:Hc.
  destruct H as (Hdb & _ & _ & _). split; [exact Hdb|].
  injection Hc as _ <-. reflexivity.
Defined.

End GoneSessions.

(** ** Clearing expired sessions *)

Section Cleanup.

(** X13. [cleanup_expired_sessions] forgets exactly the sessions that
    [process_message] would reject as timed out at that moment: a
    session stays in the memory of the agent, unchanged, if it is at most
    thirty minutes old, and is dropped otherwise.  In the store it marks
    as expired the active rows whose last activity is more than thirty
    minutes back, keeps every other row as it is, keeps the identity,
    the owner and the verification flag of every row, and leaves the
    customers, the transactions and the logs alone. *)
Theorem cleanup_forgets_exactly_the_timed_out_sessions
    (a : NANOAgent.t) (now : Z) (session_id : string) :
  let a' := NANOAgent.cleanup_expired_sessions a now in
  NANOAgent.active_sessions a' !! session_id
  = match NANOAgent.active_sessions a !! session_id with
    | Some s => if NANOAgent._is_session_expired now s then None else Some s
    | None => None
    end
  /\ Forall2
       (fun r r' =>
          DBSession.session_id r' = DBSession.session_id r
          /\ DBSession.customer_id r' = DBSession.customer_id r
          /\ DBSession.is_verified r' = DBSession.is_verified r
          /\ DBSession.created_at r' = DBSession.created_at r
          /\ if (DBSession.last_activity r <? now - 30 * 60)%Z
                && String.eqb (DBSession.status r) "active"
             then DBSession.status r' = "expired"
             else r' = r)
       (DB.sessions (NANOAgent.db a)) (DB.sessions (NANOAgent.db a'))
  /\ DB.customers (NANOAgent.db a') = DB.customers (NANOAgent.db a)
  /\ DB.transactions (NANOAgent.db a') = DB.transactions (NANOAgent.db a)
  /\ DB.audit_logs (NANOAgent.db a') = DB.audit_logs (NANOAgent.db a)
  /\ DB.conversations (NANOAgent.db a') = DB.conversations (NANOAgent.db a).
Proof.
  cbv zeta. unfold NANOAgent.cleanup_expired_sessions. cbn.
  split; [|split; [|auto]].
  - rewrite map_lookup_filter.
    destruct (NANOAgent.active_sessions a !! session_id) as [s|]; cbn;
      [|reflexivity].
    unfold NANOAgent._is_session_expired, Settings.session_timeout_minutes.
    case_guard as Hg; cbn in Hg |- *;
      destruct (30 * 60 <? now - Session.created_at s)%Z eqn:Hlt;
      try reflexivity; [apply Z.ltb_lt in Hlt|apply Z.ltb_ge in Hlt]; lia.
  - induction (DB.sessions (NANOAgent.db a)) as [|r rows IH]; cbn [map];
      constructor; [|exact IH].
    unfold NANOAgent.expire_row, Settings.session_timeout_minutes.
    destruct ((DBSession.last_activity r <? now - 30 * 60)%Z
              && String.eqb (DBSession.status r) "active"); cbn; auto.
Qed.

End Cleanup.

(** ** Requests of a verified session *)

Section Routing.

Lemma override_is_idle_in_turn (a : NANOAgent.t) (now : Z)
    (session_id message intent : string) (session : Session.t)
    (ents : Entities) :
  store_not_ahead (NANOAgent.db a) now ->
  NANOAgent.override_intent message intent
    (turn_session a now session_id message session) ents = intent.
Proof.
  intros Hdb. apply (override_is_idle _ _ _ _ message now).
  unfold turn_session, turn_store.
  cbn [Session.conversation_history Session.with_history].
  now apply history_ends_with_user_message.
Qed.

(** One turn of a session that is there and has not timed out. *)
Lemma process_message_turn (a : NANOAgent.t) (now : Z)
    (session_id message : string) (customer_id : option string)
    (session : Session.t) :
  NANOAgent.restore a session_id = Some session ->
  NANOAgent._is_session_expired now session = false ->
  NANOAgent.process_message a now session_id message customer_id
  = match NANOAgent._generate_response
            (turn_store a now session_id message session) now session_id message
            (primary_intent (NANOAgentIntent._analyze_intent message))
            (turn_session a now session_id message session)
            (entities (NANOAgentIntent._analyze_intent message)) with
    | Ok (db3, session', response) =>
        (NANOAgent.mk
           (DB.log_audit now session_id (Session.customer_id session')
              "process_message" "success"
              (NANOAgent._save_conversation_message now session_id "assistant"
                 (Response.response response) (Session.customer_id session') db3))
           (<[session_id := session']> (NANOAgent.active_sessions a)),
         response)
    | Raised _ =>
        (NANOAgent.mk
           (DB.log_audit now session_id customer_id "process_message" "failed"
              (turn_store a now session_id message session))
           (<[session_id := turn_session a now session_id message session]>
              (NANOAgent.active_sessions a)),
         error_reply session_id)
    end.
Proof.
  intros Hr He. unfold NANOAgent.process_message. rewrite Hr, He. reflexivity.
Qed.

(** X14. A verified session is not asked to verify again.  When the
    session is verified and bound to a customer, a message that
    classifies as a balance inquiry is answered by [query_account_balance]
    for that customer: with the stored balance, to two decimals, when the
    customer has an active account, and with the refusal of the tool
    otherwise.  The session stays verified and no customer row
    changes. *)
Theorem verified_balance_inquiry_is_served
    (a : NANOAgent.t) (now : Z) (session_id message : string)
    (customer_id : option string) (session : Session.t) (customer : string) :
  NANOAgent.restore a session_id = Some session ->
  NANOAgent._is_session_expired now session = false ->
  store_not_ahead (NANOAgent.db a) now ->
  Session.is_verified session = true ->
  Session.customer_id session = Some customer ->
  Py.nonempty customer = true ->
  primary_intent (NANOAgentIntent._analyze_intent message) = "balance_inquiry" ->
  let '(a', r) := NANOAgent.process_message a now session_id message customer_id in
  Response.requires_verification r = None
  /\ Response.tools_used r = Some ["query_account_balance"]
  /\ Response.customer_id r = Some customer
  /\ Response.response r
     = match DB.first (DatabaseOperationTools.active_with_id customer)
               (DB.customers (NANOAgent.db a)) with
       | Some c =>
           "Your current account balance is $"
           +:+ Fmt.format_2f (Customer.account_balance c)
           +:+ ". Is there anything else I can help you with?"
       | None =>
           "I'm sorry, I couldn't retrieve your balance at this time. "
           +:+ "Customer account not found or inactive"
       end
  /\ DB.customers (NANOAgent.db a') = DB.customers (NANOAgent.db a)
  /\ NANOAgent.active_sessions a' !! session_id
     = Some (turn_session a now session_id message session).
Proof.
  intros Hr He Hdb Hv Hc Hne Hi.
  rewrite (process_message_turn a now session_id message customer_id session Hr He).
  unfold NANOAgent._generate_response.
  rewrite (override_is_idle_in_turn a now session_id message _ session _ Hdb).
  rewrite Hi.
  change (Session.is_verified (turn_session a now session_id message session))
    with (Session.is_verified session).
  change (Session.customer_id (turn_session a now session_id message session))
    with (Session.customer_id session).
  rewrite Hv, Hc. cbn [Py.truthy]. rewrite Hne.
  change ("balance_inquiry" =? "greeting")%string with false.
  change ("balance_inquiry" =? "escalation")%string with false.
  change ("balance_inquiry" =? "identity_verification")%string with false.
  cbn [negb andb orb]. rewrite andb_false_r.
  unfold NANOAgent._handle_verified_request.
  change ("balance_inquiry" =? "balance_inquiry")%string with true.
  cbv iota. change (default "" (Some customer)) with customer.
  unfold DatabaseOperationTools.query_account_balance.
  change (DB.customers (turn_store a now session_id message session))
    with (DB.customers (NANOAgent.db a)).
  destruct (DB.first (DatabaseOperationTools.active_with_id customer)
              (DB.customers (NANOAgent.db a))) as [c|]; cbn;
    (repeat (split; [reflexivity|])); apply lookup_insert_eq.
Qed.

Lemma verified_balance_witness :
  let session := Session.verified_as (Some "test123") (Session.fresh 10 None) in
  let a := NANOAgent.mk test_db {[ "s1" := session ]} in
  let '(a', r) := NANOAgent.process_message a 11 "s1" "What's my balance?" None in
  Response.requires_verification r = None
  /\ Response.response r
     = "Your current account balance is $1000.00. Is there anything else I can help you with?".
Proof.
  cbv zeta.
  pose proof (verified_balance_inquiry_is_served
                (NANOAgent.mk test_db
                   {[ "s1" := Session.verified_as (Some "test123")
                                (Session.fresh 10 None) ]})
                11 "s1" "What's my balance?" None
                (Session.verified_as (Some "test123") (Session.fresh 10 None))
                "test123" eq_refl eq_refl ltac:(constructor) eq_refl eq_refl
                eq_refl eq_refl) as H.
  destruct (NANOAgent.process_message _ 11 "s1" "What's my balance?" None)
    as [a' r].
  destruct H as (H1 & _ & _ & H4 & _). split; [exact H1|]. rewrite H4.
  reflexivity.
Defined.

End Routing.

(** ** The conversation log of a turn *)

Section TurnLog.

(** X15. Every message that reaches a live session is logged.  A turn
    of a session that is there and has not timed out appends to the
    conversation log the user's message and then the reply, both dated
    with the time of the turn, and closes the audit trail with a
    successful [process_message] entry; the one exception is a turn that
    raised, which logs the user's message alone, answers with the
    apology, and closes the audit trail with a failed entry.  In both
    cases the session is kept in the memory of the agent. *)
Theorem turn_is_logged
    (a : NANOAgent.t) (now : Z) (session_id message : string)
    (customer_id : option string) (session : Session.t) :
  NANOAgent.restore a session_id = Some session ->
  NANOAgent._is_session_expired now session = false ->
  let '(a', r) := NANOAgent.process_message a now session_id message customer_id in
  exists session',
    NANOAgent.active_sessions a' !! session_id = Some session'
    /\ ((DB.conversations (NANOAgent.db a')
         = (DB.conversations (NANOAgent.db a)
            ++ [Conversation.mk session_id (Session.customer_id session) "user"
                  message now;
                Conversation.mk session_id (Session.customer_id session')
                  "assistant" (Response.response r) now])%list
         /\ last (DB.audit_logs (NANOAgent.db a'))
            = Some (AuditLog.mk session_id (Session.customer_id session')
                      "process_message" "success" now))
        \/ (r = error_reply session_id
            /\ DB.conversations (NANOAgent.db a')
               = (DB.conversations (NANOAgent.db a)
                  ++ [Conversation.mk session_id (Session.customer_id session)
                        "user" message now])%list
            /\ last (DB.audit_logs (NANOAgent.db a'))
               = Some (AuditLog.mk session_id customer_id "process_message"
                         "failed" now))).
Proof.
  intros Hr He.
  rewrite (process_message_turn a now session_id message customer_id session Hr He).
  destruct (NANOAgent._generate_response _ _ _ _ _ _ _)
    as [[[db3 session'] r]|e] eqn:Hg.
  - exists session'. split; [apply lookup_insert_eq|]. left.
    apply generate_response_conversations in Hg. cbn. rewrite Hg. cbn.
    split; [now rewrite <- app_assoc|apply last_snoc].
  - exists (turn_session a now session_id message session).
    split; [apply lookup_insert_eq|]. right.
    split; [reflexivity|]. split; [reflexivity|apply last_snoc].
Qed.

Lemma turn_is_logged_witness :
  let a := NANOAgent.create_session (NANOAgent.mk test_db ∅) 10 "s1" None in
  let '(a', r) := NANOAgent.process_message a 11 "s1" "hello" None in
  DB.conversations (NANOAgent.db a')
  = [Conversation.mk "s1" None "user" "hello" 11;
     Conversation.mk "s1" None "assistant"
       "Hello! I'm NANO, your Bank Of AI customer service assistant. How can I help you today?"
       11].
Proof.
  cbv zeta.
  pose proof (turn_is_logged
                (NANOAgent.create_session (NANOAgent.mk test_db ∅) 10 "s1" None)
                11 "s1" "hello" None (Session.fresh 10 None) eq_refl eq_refl)
    as H.
  destruct (NANOAgent.process_message _ 11 "s1" "hello" None) as [a' r] eqn:Hp.
  destruct H as (session' & _ & _). injection Hp as <- _. reflexivity.
Defined.

End TurnLog.

(** ** When the security answer is looked at *)

Section AnswerRoute.

Lemma escalate_customers (db : DB.t) (now : Z) (session_id : string)
    (customer_id : option string) (reason priority : string) :
  DB.customers
    (fst (GeneralSupportTools.escalate_to_human db now session_id customer_id
            reason priority))
  = DB.customers db.
Proof. reflexivity. Qed.

Lemma knowledge_base_customers (db : DB.t) (now : Z) (session_id : string)
    (customer_id : option string) (query : string) :
  DB.customers
    (fst (GeneralSupportTools.banking_knowledge_base db now session_id
            customer_id query))
  = DB.customers db.
Proof. reflexivity. Qed.

(** The replies outside the two handlers leave the session and the
    customers alone, and verify nothing. *)
Lemma generate_response_off_route (db : DB.t) (now : Z)
    (session_id message intent : string) (session : Session.t)
    (ents : Entities) :
  NANOAgent.override_intent message intent session ents = intent ->
  Session.is_verified session = false ->
  String.eqb intent "identity_verification" = false ->
  Py.truthy (account_number ents) = false ->
  exists db' r,
    NANOAgent._generate_response db now session_id message intent session ents
    = Ok (db', session, r)
    /\ DB.customers db' = DB.customers db
    /\ Response.verified r = None
    /\ Response.requires_security_question r = None
    /\ Response.verification_failed r = None.
Proof.
  intros Hov Hv Hi He. unfold NANOAgent._generate_response.
  rewrite Hov, Hv, Hi, He. cbn [negb andb orb].
  destruct (String.eqb intent "greeting").
  { eexists _, _. split; [reflexivity|]. cbn. auto. }
  destruct (String.eqb intent "escalation").
  { pose proof (escalate_customers db now session_id
                  (Session.customer_id session)
                  "Customer requested human representative" "normal") as Hc.
    destruct (GeneralSupportTools.escalate_to_human _ _ _ _ _ _)
      as [db1 result]. cbn [fst] in Hc.
    destruct (GeneralSupportTools.e_success result);
      (eexists _, _; split; [reflexivity|]; cbn; auto). }
  rewrite andb_true_r.
  destruct (Py.mem intent NANOAgent.sensitive_intents).
  { eexists _, _. split; [reflexivity|]. cbn. auto. }
  destruct (String.eqb intent "general_support").
  { pose proof (knowledge_base_customers db now session_id
                  (Session.customer_id session) message) as Hc.
    destruct (GeneralSupportTools.banking_knowledge_base _ _ _ _ _)
      as [db1 result]. cbn [fst] in Hc.
    eexists _, _. split; [reflexivity|]. cbn. auto. }
  eexists _, _. split; [reflexivity|]. cbn. auto.
Qed.

(** X16. In an unverified session the security answer is looked at only
    on the identity route.  If the message does not classify as
    identity verification and carries no account number, the turn calls
    no verification: no customer row changes (so no attempt is counted
    and nobody is logged in), the reply verifies nothing and asks no
    security question, and the session keeps its state, whether or not
    it awaits an answer; only its activity stamp and its history are
    renewed. *)
Theorem answer_is_examined_only_on_identity_route
    (a : NANOAgent.t) (now : Z) (session_id message : string)
    (customer_id : option string) (session : Session.t) :
  NANOAgent.restore a session_id = Some session ->
  NANOAgent._is_session_expired now session = false ->
  store_not_ahead (NANOAgent.db a) now ->
  Session.is_verified session = false ->
  primary_intent (NANOAgentIntent._analyze_intent message)
  <> "identity_verification" ->
  Py.truthy (account_number (entities (NANOAgentIntent._analyze_intent message)))
  = false ->
  let '(a', r) := NANOAgent.process_message a now session_id message customer_id in
  DB.customers (NANOAgent.db a') = DB.customers (NANOAgent.db a)
  /\ Response.verified r = None
  /\ Response.requires_security_question r = None
  /\ Response.verification_failed r = None
  /\ NANOAgent.active_sessions a' !! session_id
     = Some (turn_session a now session_id message session)
  /\ Session.awaiting_security_answer
       (turn_session a now session_id message session)
     = Session.awaiting_security_answer session.
Proof.
  intros Hr He Hdb Hv Hi Hacc.
  rewrite (process_message_turn a now session_id message customer_id session Hr He).
  destruct (generate_response_off_route
              (turn_store a now session_id message session) now session_id
              message (primary_intent (NANOAgentIntent._analyze_intent message))
              (turn_session a now session_id message session)
              (entities (NANOAgentIntent._analyze_intent message)))
    as (db' & r & Hg & Hc & H1 & H2 & H3).
  - now apply override_is_idle_in_turn.
  - exact Hv.
  - now apply String.eqb_neq.
  - exact Hacc.
  - rewrite Hg. cbn. rewrite Hc. repeat (split; [reflexivity || assumption|]).
    split; [apply lookup_insert_eq|reflexivity].
Qed.

Lemma answer_route_witness :
  let a := NANOAgent.mk test_db {[ "s1" := awaiting_john ]} in
  let '(a', r) := NANOAgent.process_message a 11 "s1" "fluffy" None in
  DB.customers (NANOAgent.db a') = [john_doe]
  /\ Response.verified r = None
  /\ option_map Session.is_verified (NANOAgent.active_sessions a' !! "s1")
     = Some false.
Proof.
  cbv zeta.
  pose proof (answer_is_examined_only_on_identity_route
                (NANOAgent.mk test_db {[ "s1" := awaiting_john ]})
                11 "s1" "fluffy" None awaiting_john eq_refl eq_refl
                ltac:(constructor) eq_refl ltac:(discriminate) eq_refl) as H.
  destruct (NANOAgent.process_message _ 11 "s1" "fluffy" None) as [a' r].
  destruct H as (H1 & H2 & _ & _ & H5 & _).
  split; [exact H1|]. split; [exact H2|]. rewrite H5. reflexivity.
Defined.

End AnswerRoute.

(** ** Credentials without the phrase "name is" *)

Section Credentials.

Import Py.

Lemma space_not_word (c : ascii) : is_space c = true -> is_word c = false.
Proof.
  destruct c as [[] [] [] [] [] [] [] []]; intros H; try reflexivity;
    discriminate H.
Qed.

Lemma runs_acc_ext (sep sep' : ascii -> bool) (cur : list ascii) (s : string) :
  (forall c, sep c = sep' c) -> runs_acc sep cur s = runs_acc sep' cur s.
Proof.
  intros H. revert cur. induction s as [|c s IH]; intros cur; cbn [runs_acc];
    [reflexivity|]. rewrite <- (H c). destruct (sep c); now rewrite IH.
Qed.

(** A text splits into its runs before and from a separator on. *)
Lemma runs_acc_boundary (sep : ascii -> bool) (cur : list ascii)
    (pre suf : string) :
  match suf with String d _ => sep d = true | EmptyString => True end ->
  runs_acc sep cur (pre +:+ suf)
  = (runs_acc sep cur pre ++ runs_acc sep [] suf)%list.
Proof.
  intros Hsuf. revert cur. induction pre as [|c pre IH]; intros cur.
  - change ("" +:+ suf) with suf. destruct suf as [|d suf]; cbn [runs_acc].
    + now rewrite app_nil_r.
    + now rewrite Hsuf.
  - change (String c pre +:+ suf) with (String c (pre +:+ suf)).
    cbn [runs_acc]. destruct (sep c); rewrite IH; [|reflexivity].
    now rewrite app_assoc.
Qed.

Lemma take_drop_while (p : ascii -> bool) (s : string) :
  take_while p s +:+ drop_while p s = s.
Proof.
  induction s as [|c s IH]; [reflexivity|]. cbn [take_while drop_while].
  destruct (p c); [|reflexivity].
  change (String c (take_while p s) +:+ drop_while p s)
    with (String c (take_while p s +:+ drop_while p s)).
  now rewrite IH.
Qed.

Lemma drop_while_head (p : ascii -> bool) (s : string) :
  match drop_while p s with
  | String d _ => p d = false
  | EmptyString => True
  end.
Proof.
  induction s as [|c s IH]; [exact I|]. cbn [drop_while].
  destruct (p c) eqn:Hc; [exact IH|exact Hc].
Qed.

Lemma take_while_all (p : ascii -> bool) (s : string) :
  sall p s = true -> take_while p s = s /\ drop_while p s = "".
Proof.
  induction s as [|c s IH]; [now split|]. cbn [sall take_while drop_while].
  intros [Hc Hs]%andb_prop. rewrite Hc. destruct (IH Hs) as [-> ->]. now split.
Qed.

(** A run of word characters is its own only token. *)
Lemma word_tokens_of_word (t : string) :
  nonempty t = true -> sall is_word t = true -> word_tokens t = [t].
Proof.
  intros Hne Hw. unfold word_tokens. rewrite runs_acc_spec.
  destruct (take_while_all is_word t Hw) as [-> ->].
  cbn [rev string_of_list_ascii runs_acc]. change ("" +:+ t) with t.
  unfold flush. now rewrite Hne.
Qed.

Lemma sall_impl (p q : ascii -> bool) (s : string) :
  (forall c, p c = true -> q c = true) -> sall p s = true -> sall q s = true.
Proof.
  intros H. induction s as [|c s IH]; [reflexivity|]. cbn [sall].
  intros [Hc Hs]%andb_prop. now rewrite (H c Hc), IH.
Qed.

(** The word tokens of a text: those of its first blank-free run, then
    those of the rest. *)
Lemma word_tokens_by_run (s : string) :
  word_tokens s
  = (word_tokens (take_while (fun c => negb (is_space c)) s)
     ++ word_tokens (drop_while (fun c => negb (is_space c)) s))%list.
Proof.
  unfold word_tokens.
  rewrite <- (take_drop_while (fun c => negb (is_space c)) s) at 1.
  apply runs_acc_boundary.
  pose proof (drop_while_head (fun c => negb (is_space c)) s) as H.
  destruct (drop_while _ s) as [|d r]; [exact I|].
  apply negb_false_iff in H. now rewrite (space_not_word d H).
Qed.

Lemma split_by_run (c : ascii) (s : string) :
  is_space c = false ->
  split (String c s)
  = take_while (fun c => negb (is_space c)) (String c s)
    :: split (drop_while (fun c => negb (is_space c)) (String c s)).
Proof.
  intros Hc. unfold split.
  rewrite (runs_acc_ext is_space (fun c => negb (negb (is_space c))))
    by (intros x; now rewrite negb_involutive).
  rewrite (runs_acc_spec (fun c => negb (is_space c)) [] (String c s)).
  rewrite <- (runs_acc_ext is_space (fun c => negb (negb (is_space c))))
    by (intros x; now rewrite negb_involutive).
  cbn [rev string_of_list_ascii take_while]. rewrite Hc. cbn [negb].
  reflexivity.
Qed.

(** A blank-delimited run of digits is a word token. *)
Lemma split_digits_are_tokens (n : nat) (s w : string) :
  (String.length s <= n)%nat ->
  In w (split s) -> nonempty w = true -> sall is_digit w = true ->
  In w (word_tokens s).
Proof.
  revert s. induction n as [|n IH]; intros s Hn Hin Hne Hd.
  { destruct s; [destruct Hin|cbn in Hn; lia]. }
  destruct s as [|c s]; [destruct Hin|]. cbn [String.length] in Hn.
  destruct (is_space c) eqn:Hc.
  - rewrite (word_tokens_other c s (space_not_word c Hc)).
    apply IH; [lia| |exact Hne|exact Hd].
    unfold split in *. cbn [runs_acc] in Hin. now rewrite Hc in Hin.
  - rewrite word_tokens_by_run. rewrite (split_by_run c s Hc) in Hin.
    apply in_or_app. destruct Hin as [<-|Hin].
    + left. rewrite word_tokens_of_word; [now left|exact Hne|].
      apply (sall_impl is_digit); [exact digit_is_word|exact Hd].
    + right. apply IH; [|exact Hin|exact Hne|exact Hd].
      cbn [drop_while]. rewrite Hc. cbn [negb].
      pose proof (drop_while_length (fun c => negb (is_space c)) s). lia.
Qed.

(** The search for an account number among the blank-delimited words
    finds nothing the pattern has not found.  This is a fact of ASCII
    text, where [str.isdigit] and the pattern's [\d] accept the same
    characters. *)
Lemma word_search_adds_nothing (m : string) :
  ascii_text m ->
  Py.truthy (Intent.account_matches m) = false ->
  List.find NANOAgent.long_number (split m) = None.
Proof.
  intros _ Ht.
  destruct (List.find NANOAgent.long_number (split m)) as [w|] eqn:Hf;
    [exfalso|reflexivity].
  apply List.find_some in Hf. destruct Hf as [Hin Hl].
  unfold NANOAgent.long_number, isdigit in Hl.
  apply andb_prop in Hl. destruct Hl as [[Hne Hd]%andb_prop Hlen].
  pose proof (split_digits_are_tokens _ m w (le_n _) Hin Hne Hd) as Hw.
  rewrite account_matches_tokens in Ht. unfold first_number_token in Ht.
  destruct (List.find number_token (word_tokens m)) as [v|] eqn:Hv.
  - apply List.find_some in Hv. destruct Hv as [_ Hv].
    unfold number_token in Hv. apply andb_prop in Hv. destruct Hv as [_ Hv].
    apply Nat.leb_le in Hv. destruct v; [cbn in Hv; lia|discriminate Ht].
  - pose proof (List.find_none _ _ Hv w Hw) as Hnone.
    unfold number_token in Hnone. rewrite Hd, Hlen in Hnone. discriminate.
Qed.

(** What the handler does with a message that carries an account number
    but not the phrase "name is": it reads the list of words that was
    never bound. *)
Lemma credentials_raise (m : string) :
  contains "name is" (lower m) = false ->
  truthy (Intent.account_matches m) = true ->
  NANOAgent.credentials m (entities (NANOAgentIntent._analyze_intent m))
  = Raised "UnboundLocalError: words"
  /\ SimpleNANOAgent.credentials m
       (entities (SimpleNANOAgentIntent._analyze_intent m))
     = Raised "UnboundLocalError: words".
Proof.
  intros Hn Ht.
  unfold NANOAgent.credentials, SimpleNANOAgent.credentials,
    NANOAgent.account_of, NANOAgent.name_of, SimpleNANOAgent.name_of.
  cbn [entities NANOAgentIntent._analyze_intent
       SimpleNANOAgentIntent._analyze_intent Intent.analyze
       Intent.extract_entities account_number].
  rewrite Hn. rewrite !Ht. split; reflexivity.
Qed.

(** X17. Without the phrase "name is" the verification handler never
    gets at credentials in a message of ASCII text.  For every message
    whose characters are all 7-bit and the entities its own analysis
    yields: if the lower-cased message does not contain "name is", then
    the handler raises (the list of words it means to read was never
    bound) when the message carries an account number, and finds no
    credentials otherwise.  The search for a name among the words in
    front of the account number is never carried out, because on ASCII
    text the word search for an account number finds nothing the
    pattern missed.  The same holds for [SimpleNANOAgent]. *)
Theorem credentials_need_the_phrase_name_is (m : string) :
  ascii_text m ->
  contains "name is" (lower m) = false ->
  NANOAgent.credentials m (entities (NANOAgentIntent._analyze_intent m))
  = (if truthy (Intent.account_matches m)
     then Raised "UnboundLocalError: words" else Ok None)
  /\ SimpleNANOAgent.credentials m
       (entities (SimpleNANOAgentIntent._analyze_intent m))
     = (if truthy (Intent.account_matches m)
        then Raised "UnboundLocalError: words" else Ok None).
Proof.
  intros Ha Hn.
  destruct (truthy (Intent.account_matches m)) eqn:Ht.
  - exact (credentials_raise m Hn Ht).
  - unfold NANOAgent.credentials, SimpleNANOAgent.credentials,
      NANOAgent.account_of, NANOAgent.name_of, SimpleNANOAgent.name_of.
    cbn [entities NANOAgentIntent._analyze_intent
         SimpleNANOAgentIntent._analyze_intent Intent.analyze
         Intent.extract_entities account_number].
    rewrite Hn, (word_search_adds_nothing m Ha Ht). rewrite !Ht.
    split; reflexivity.
Qed.

Lemma credentials_witness :
  NANOAgent.credentials "John Doe 1234567890"
    (entities (NANOAgentIntent._analyze_intent "John Doe 1234567890"))
  = Raised "UnboundLocalError: words"
  /\ NANOAgent.credentials "I am John Doe"
       (entities (NANOAgentIntent._analyze_intent "I am John Doe"))
     = Ok None.
Proof.
  split.
  - exact (proj1 (credentials_need_the_phrase_name_is "John Doe 1234567890"
                    eq_refl eq_refl)).
  - exact (proj1 (credentials_need_the_phrase_name_is "I am John Doe"
                    eq_refl eq_refl)).
Defined.

End Credentials.

(** ** A turn that raises *)

Section RaisingTurn.

(** The handler hands on what the search for credentials raised. *)
Lemma handler_raises (db : DB.t) (now : Z) (session_id message : string)
    (session : Session.t) (ents : Entities) (e : string) :
  NANOAgent.credentials message ents = Raised e ->
  NANOAgent._handle_identity_verification db now session_id message session ents
  = Raised e.
Proof.
  intros H. unfold NANOAgent._handle_identity_verification. now rewrite H.
Qed.

(** X18. An account number without the phrase "name is" ends the turn
    of an unverified session with the apology for technical
    difficulties.  If the message carries an account number, its
    lower-cased text does not contain "name is", and its primary intent
    is neither a greeting, nor an escalation, nor one of the sensitive
    intents, then the verification handler is called and raises: the
    reply is the error reply, the user's message is logged but no reply
    is, the audit trail records a failed [process_message], and the
    customers are untouched. *)
Theorem account_number_without_name_is_fails_the_turn
    (a : NANOAgent.t) (now : Z) (session_id message : string)
    (customer_id : option string) (session : Session.t) :
  NANOAgent.restore a session_id = Some session ->
  NANOAgent._is_session_expired now session = false ->
  store_not_ahead (NANOAgent.db a) now ->
  Session.is_verified session = false ->
  Py.truthy (Intent.account_matches message) = true ->
  Py.contains "name is" (Py.lower message) = false ->
  Py.mem (primary_intent (NANOAgentIntent._analyze_intent message))
    ("greeting" :: "escalation" :: NANOAgent.sensitive_intents) = false ->
  NANOAgent.process_message a now session_id message customer_id
  = (NANOAgent.mk
       (DB.log_audit now session_id customer_id "process_message" "failed"
          (turn_store a now session_id message session))
       (<[session_id := turn_session a now session_id message session]>
          (NANOAgent.active_sessions a)),
     error_reply session_id).
Proof.
  intros Hr He Hdb Hv Hacc Hn Hi.
  rewrite (process_message_turn a now session_id message customer_id session Hr He).
  unfold NANOAgent._generate_response.
  rewrite (override_is_idle_in_turn a now session_id message _ session _ Hdb).
  change (Session.is_verified (turn_session a now session_id message session))
    with (Session.is_verified session).
  rewrite Hv.
  cbn [Py.mem existsb] in Hi.
  apply orb_false_elim in Hi. destruct Hi as [Hg Hi].
  apply orb_false_elim in Hi. destruct Hi as [Hesc Hs].
  rewrite Hg, Hesc.
  change (Py.mem (primary_intent (NANOAgentIntent._analyze_intent message))
            NANOAgent.sensitive_intents)
    with (existsb
            (String.eqb (primary_intent (NANOAgentIntent._analyze_intent message)))
            NANOAgent.sensitive_intents).
  rewrite Hs. cbn [negb andb].
  change (account_number (entities (NANOAgentIntent._analyze_intent message)))
    with (Intent.account_matches message).
  rewrite Hacc, orb_true_r.
  rewrite (handler_raises _ _ _ _ _ _ "UnboundLocalError: words");
    [reflexivity|].
  exact (proj1 (credentials_raise message Hn Hacc)).
Qed.

Lemma raising_turn_witness :
  let a := NANOAgent.create_session (NANOAgent.mk test_db ∅) 10 "s1" None in
  let '(a', r) := NANOAgent.process_message a 11 "s1" "John Doe 1234567890" None in
  r = error_reply "s1"
  /\ map Conversation.role (DB.conversations (NANOAgent.db a')) = ["user"]
  /\ DB.customers (NANOAgent.db a') = [john_doe].
Proof.
  cbv zeta.
  pose proof (account_number_without_name_is_fails_the_turn
                (NANOAgent.create_session (NANOAgent.mk test_db ∅) 10 "s1" None)
                11 "s1" "John Doe 1234567890" None (Session.fresh 10 None)
                eq_refl eq_refl ltac:(constructor) eq_refl eq_refl eq_refl
                eq_refl) as H.
  rewrite H. repeat split.
Defined.

End RaisingTurn.

(** ** Greetings and escalations *)

Section Shortcuts.

(** X19. Greetings and requests for a human are served whatever the
    verification state of the session.  In a live session a message
    whose primary intent is "greeting" gets the greeting, which asks for
    no verification; a message whose primary intent is "escalation" gets
    an escalation ticket made of the date and the last six characters of
    the session id, with [escalate_to_human] as the tool used, and an
    audit entry for the escalation.  In both cases the session keeps its
    state and no customer row changes. *)
Theorem greeting_and_escalation_skip_verification
    (a : NANOAgent.t) (now : Z) (session_id message : string)
    (customer_id : option string) (session : Session.t) :
  NANOAgent.restore a session_id = Some session ->
  NANOAgent._is_session_expired now session = false ->
  store_not_ahead (NANOAgent.db a) now ->
  let intent := primary_intent (NANOAgentIntent._analyze_intent message) in
  let '(a', r) := NANOAgent.process_message a now session_id message customer_id in
  (intent = "greeting" ->
   r = greeting_reply session_id
   /\ DB.audit_logs (NANOAgent.db a')
      = (DB.audit_logs (NANOAgent.db a)
         ++ [AuditLog.mk session_id (Session.customer_id session)
               "process_message" "success" now])%list)
  /\ (intent = "escalation" ->
      Response.escalation_id r = Some (ticket now session_id)
      /\ Response.tools_used r = Some ["escalate_to_human"]
      /\ Response.requires_verification r = None
      /\ DB.audit_logs (NANOAgent.db a')
         = (DB.audit_logs (NANOAgent.db a)
            ++ [AuditLog.mk session_id (Session.customer_id session)
                  "escalate_to_human" "success" now;
                AuditLog.mk session_id (Session.customer_id session)
                  "process_message" "success" now])%list)
  /\ (intent = "greeting" \/ intent = "escalation" ->
      DB.customers (NANOAgent.db a') = DB.customers (NANOAgent.db a)
      /\ NANOAgent.active_sessions a' !! session_id
         = Some (turn_session a now session_id message session)).
Proof.
  intros Hr He Hdb. cbv zeta.
  rewrite (process_message_turn a now session_id message customer_id session Hr He).
  destruct (String.eqb_spec
              (primary_intent (NANOAgentIntent._analyze_intent message))
              "greeting") as [Hg|Hg].
  { unfold NANOAgent._generate_response.
    rewrite (override_is_idle_in_turn a now session_id message _ session _ Hdb).
    rewrite Hg. change ("greeting" =? "greeting")%string with true. cbv iota.
    split; [|split].
    - intros _. split; reflexivity.
    - intros Hx. discriminate Hx.
    - intros _. split; [reflexivity|apply lookup_insert_eq]. }
  destruct (String.eqb_spec
              (primary_intent (NANOAgentIntent._analyze_intent message))
              "escalation") as [Hesc|Hesc].
  { unfold NANOAgent._generate_response.
    rewrite (override_is_idle_in_turn a now session_id message _ session _ Hdb).
    rewrite Hesc. change ("escalation" =? "greeting")%string with false.
    change ("escalation" =? "escalation")%string with true. cbv iota.
    unfold GeneralSupportTools.escalate_to_human.
    cbv beta iota zeta. cbn [GeneralSupportTools.e_success].
    cbv beta iota zeta.
    split; [intros Hx; discriminate Hx|]. split.
    - intros _. cbn [Response.escalation_id Response.tools_used
                     Response.requires_verification
                     GeneralSupportTools.e_escalation_id].
      split; [reflexivity|]. split; [reflexivity|]. split; [reflexivity|].
      cbn [NANOAgent.db DB.audit_logs DB.log_audit DB.with_audit_logs
           NANOAgent._save_conversation_message DB.with_conversations
           turn_store NANOAgent._update_session_activity DB.with_sessions
           turn_session Session.customer_id Session.with_history
           Session.with_last_activity].
      now rewrite <- app_assoc.
    - intros _. split; [reflexivity|apply lookup_insert_eq]. }
  destruct (NANOAgent._generate_response _ _ _ _ _ _ _) as [[[db3 s'] r]|e];
    (split; [intros Hx; contradiction|]; split; [intros Hx; contradiction|];
     intros [Hx|Hx]; contradiction).
Qed.

Lemma shortcut_witness :
  let session :=
    Session.verified_as (Some "test123") (Session.fresh 951782000 None) in
  let a :=
    NANOAgent.mk test_db
      {[ "00000000-0000-4000-8000-000000abcdef" := session ]} in
  let '(a', r) :=
    NANOAgent.process_message a 951782400
      "00000000-0000-4000-8000-000000abcdef" "I want to speak to a manager"
      None in
  Response.escalation_id r = Some "ESC-20000229-abcdef".
Proof.
  cbv zeta.
  pose proof (greeting_and_escalation_skip_verification
                (NANOAgent.mk test_db
                   {[ "00000000-0000-4000-8000-000000abcdef"
                      := Session.verified_as (Some "test123")
                           (Session.fresh 951782000 None) ]})
                951782400 "00000000-0000-4000-8000-000000abcdef"
                "I want to speak to a manager" None
                (Session.verified_as (Some "test123")
                   (Session.fresh 951782000 None))
                eq_refl eq_refl ltac:(constructor)) as H.
  cbv zeta in H.
  destruct (NANOAgent.process_message _ 951782400 _ _ None) as [a' r].
  destruct H as (_ & H & _). destruct (H eq_refl) as (H1 & _).
  rewrite H1. reflexivity.
Defined.

End Shortcuts.

(** ** The history read back from the store *)

Section StoredHistory.

Import NANOAgent.

Lemma insert_oldest_perm (c : Conversation.t) (l : list Conversation.t) :
  Permutation (insert_oldest c l) (c :: l).
Proof.
  induction l as [|d l IH]; cbn [insert_oldest]; [reflexivity|].
  destruct (_ <? _)%Z; [|reflexivity].
  rewrite IH. apply perm_swap.
Qed.

Lemma oldest_first_perm (l : list Conversation.t) :
  Permutation (oldest_first l) l.
Proof.
  unfold oldest_first. induction l as [|c l IH]; cbn [foldr]; [reflexivity|].
  rewrite insert_oldest_perm. now constructor.
Qed.

Lemma insert_oldest_sorted (c : Conversation.t) (l : list Conversation.t) :
  StronglySorted not_later l -> StronglySorted not_later (insert_oldest c l).
Proof.
  induction 1 as [|d l Hl IH Hd]; cbn [insert_oldest].
  - repeat constructor.
  - destruct (Conversation.created_at d <? Conversation.created_at c)%Z eqn:Hlt.
    + apply Z.ltb_lt in Hlt. constructor; [exact IH|].
      rewrite insert_oldest_perm. constructor; [unfold not_later; lia|exact Hd].
    + apply Z.ltb_ge in Hlt. constructor; [now constructor|].
      constructor; [exact Hlt|].
      eapply Forall_impl; [exact Hd|]. unfold not_later. cbn. intros x Hx. lia.
Qed.

Lemma oldest_first_sorted (l : list Conversation.t) :
  StronglySorted not_later (oldest_first l).
Proof.
  unfold oldest_first. induction l as [|c l IH]; cbn [foldr]; [constructor|].
  now apply insert_oldest_sorted.
Qed.

(** X20. The history a turn reads back from the store is the log of that
    session over the last [hours] hours and nothing else, oldest first:
    its entries are the conversation rows that carry the session id and
    are not older than the cutoff, each of them once, in the order of
    their time stamps, with role, text and time stamp as stored. *)
Theorem stored_history_is_the_recent_log_in_order
    (db : DB.t) (now : Z) (session_id : string) (hours : Z) :
  exists rows,
    _get_conversation_history db now session_id hours = map entry_of rows
    /\ Permutation rows
         (List.filter (in_history session_id (now - hours * 3600))
            (DB.conversations db))
    /\ StronglySorted not_later rows
    /\ Forall (fun c => In c (DB.conversations db)
                        /\ Conversation.session_id c = session_id
                        /\ (now - hours * 3600 <= Conversation.created_at c)%Z)
         rows.
Proof.
  unfold _get_conversation_history.
  change (fun c : Conversation.t =>
            (Conversation.session_id c =? session_id)%string
            && (now - hours * 3600 <=? Conversation.created_at c)%Z)
    with (in_history session_id (now - hours * 3600)).
  set (rows := List.filter _ (DB.conversations db)).
  exists (oldest_first rows). split; [reflexivity|].
  split; [apply oldest_first_perm|]. split; [apply oldest_first_sorted|].
  rewrite (oldest_first_perm rows). apply List.Forall_forall. intros c Hc.
  subst rows. apply List.filter_In in Hc.
  destruct Hc as [Hin [Hs Hw]%andb_prop].
  split; [exact Hin|]. split; [now apply String.eqb_eq in Hs|].
  now apply Z.leb_le in Hw.
Qed.

End StoredHistory.

(** ** [SimpleNANOAgent] and verification *)

Section SimpleAgent.

Lemma verify_question_step_sessions (db : DB.t) (now : Z)
    (session_id full_name account : string) :
  DB.sessions
    (fst (IdentityVerificationTools.verify_customer_identity db now session_id
            full_name account None))
  = DB.sessions db.
Proof.
  unfold IdentityVerificationTools.verify_customer_identity.
  destruct (IdentityVerificationTools.find_customer _ _ _); [|reflexivity].
  destruct (negb _); [reflexivity|]. destruct (3 <=? _)%Z; reflexivity.
Qed.

Lemma update_sessions (db : DB.t) (now : Z)
    (session_id customer_id : string) (updates : list (string * string)) :
  DB.sessions
    (fst (DatabaseOperationTools.update_customer_record db now session_id
            customer_id updates))
  = DB.sessions db.
Proof.
  unfold DatabaseOperationTools.update_customer_record.
  destruct (DB.first _ _); [|reflexivity].
  destruct (DatabaseOperationTools.apply_updates _ _) as [c' touched].
  destruct (negb touched); [reflexivity|]. destruct (_ && _); reflexivity.
Qed.

Lemma balance_sessions (db : DB.t) (now : Z) (session_id customer_id : string) :
  DB.sessions
    (fst (DatabaseOperationTools.query_account_balance db now session_id
            customer_id))
  = DB.sessions db.
Proof.
  unfold DatabaseOperationTools.query_account_balance.
  destruct (DB.first _ _); reflexivity.
Qed.

(** Without a pending security question the handler verifies nothing: it
    returns the session it was given and leaves the session rows. *)
Lemma simple_handler_keeps_session (db : DB.t) (now : Z)
    (session_id message : string) (session : Session.t) (ents : Entities) :
  Session.awaiting_security_answer session = false ->
  match SimpleNANOAgent._handle_identity_verification db now session_id
          message session ents with
  | Ok (db', session', r) =>
      session' = session /\ DB.sessions db' = DB.sessions db
      /\ Response.verified r = None
  | Raised _ => True
  end.
Proof.
  intros Haw. unfold SimpleNANOAgent._handle_identity_verification.
  destruct (SimpleNANOAgent.credentials message ents) as [[[name account]|]|];
    [| |exact I].
  - pose proof (verify_question_step_sessions db now session_id name account) as Hs.
    pose proof (verify_without_answer db now session_id name account) as Hv.
    destruct (IdentityVerificationTools.verify_customer_identity _ _ _ _ _ _)
      as [db1 result].
    cbn [fst snd] in Hs, Hv. rewrite Hv.
    destruct (default false _); auto.
  - rewrite Haw. cbn [andb]. auto.
Qed.

Lemma simple_verified_request_sessions (db : DB.t) (now : Z)
    (session_id message intent customer_id : string) (ents : Entities) :
  DB.sessions
    (fst (SimpleNANOAgent._handle_verified_request db now session_id message
            intent customer_id ents))
  = DB.sessions db
  /\ Response.verified
       (snd (SimpleNANOAgent._handle_verified_request db now session_id message
               intent customer_id ents)) = None.
Proof.
  unfold SimpleNANOAgent._handle_verified_request.
  destruct (String.eqb intent "balance_inquiry").
  { pose proof (balance_sessions db now session_id customer_id) as H.
    destruct (DatabaseOperationTools.query_account_balance _ _ _ _).
    split; [exact H|reflexivity]. }
  destruct (String.eqb intent "transaction_history"); [split; reflexivity|].
  destruct (String.eqb intent "update_information").
  { destruct (_ && _); [|split; reflexivity].
    match goal with
    | |- context [DatabaseOperationTools.update_customer_record _ _ _ _ ?u] =>
        generalize u
    end.
    intros [|[field value] rest]; [split; reflexivity|].
    match goal with
    | |- context [DatabaseOperationTools.update_customer_record ?d ?n ?s ?c ?u] =>
        pose proof (update_sessions d n s c u) as H;
        destruct (DatabaseOperationTools.update_customer_record d n s c u)
    end.
    split; [exact H|reflexivity]. }
  destruct (String.eqb intent "file_management"); split; reflexivity.
Qed.

Lemma simple_generate_keeps_session (db : DB.t) (now : Z)
    (session_id message intent : string) (session : Session.t)
    (ents : Entities) :
  Session.awaiting_security_answer session = false ->
  match SimpleNANOAgent._generate_response db now session_id message intent
          session ents with
  | Ok (db', session', r) =>
      session' = session /\ DB.sessions db' = DB.sessions db
      /\ Response.verified r = None
  | Raised _ => True
  end.
Proof.
  intros Haw. unfold SimpleNANOAgent._generate_response.
  destruct (String.eqb _ "greeting"); [auto|].
  destruct (String.eqb _ "escalation").
  { assert (H : DB.sessions
                  (fst (GeneralSupportTools.escalate_to_human db now session_id
                          (Session.customer_id session)
                          "Customer requested human representative" "normal"))
                = DB.sessions db) by reflexivity.
    destruct (GeneralSupportTools.escalate_to_human _ _ _ _ _ _) as [db1 result].
    destruct (GeneralSupportTools.e_success result); auto. }
  destruct (_ && _); [auto|].
  destruct (_ || _); [now apply simple_handler_keeps_session|].
  destruct (_ && _).
  { pose proof (simple_verified_request_sessions db now session_id message
                  (SimpleNANOAgent.override_intent message intent session ents)
                  (default "" (Session.customer_id session)) ents) as [H1 H2].
    destruct (SimpleNANOAgent._handle_verified_request _ _ _ _ _ _ _).
    auto. }
  destruct (String.eqb _ "general_support"); [|auto].
  assert (H : DB.sessions
                (fst (GeneralSupportTools.banking_knowledge_base db now
                        session_id (Session.customer_id session) message))
              = DB.sessions db) by reflexivity.
  destruct (GeneralSupportTools.banking_knowledge_base _ _ _ _ _) as [db1 result].
  auto.
Qed.

Lemma update_first_map {A B} (g : A -> B) (p : A -> bool) (f : A -> A)
    (rows : list A) :
  (forall x, g (f x) = g x) ->
  map g (DB.update_first p f rows) = map g rows.
Proof.
  intros H. induction rows as [|r rows IH]; [reflexivity|]. cbn.
  destruct (p r); cbn; [now rewrite H|now rewrite IH].
Qed.

(** One turn of a session that awaits no security answer. *)
Lemma simple_turn_keeps_verification (a : SimpleNANOAgent.t) (now : Z)
    (session_id message : string) (customer_id : option string)
    (session : Session.t) :
  SimpleNANOAgent.restore a now session_id = Some session ->
  Session.awaiting_security_answer session = false ->
  let '(a', r) :=
    SimpleNANOAgent.process_message a now session_id message customer_id in
  Response.verified r = None
  /\ map DBSession.is_verified (DB.sessions (SimpleNANOAgent.db a'))
     = map DBSession.is_verified (DB.sessions (SimpleNANOAgent.db a))
  /\ exists session',
       SimpleNANOAgent.active_sessions a' !! session_id = Some session'
       /\ Session.is_verified session' = Session.is_verified session
       /\ Session.awaiting_security_answer session' = false.
Proof.
  intros Hr Haw. unfold SimpleNANOAgent.process_message. rewrite Hr.
  destruct (NANOAgent._is_session_expired now session).
  { split; [reflexivity|]. split; [reflexivity|].
    exists session. split; [apply lookup_insert_eq|auto]. }
  match goal with
  | |- context [SimpleNANOAgent._generate_response ?d ?n ?s ?m ?i ?ses ?e] =>
      pose proof (simple_generate_keeps_session d n s m i ses e Haw) as H;
      destruct (SimpleNANOAgent._generate_response d n s m i ses e)
        as [[[db3 session'] r]|exn]
  end.
  - destruct H as (-> & Hs & Hv). split; [exact Hv|]. split.
    + cbn. rewrite Hs. cbn. now apply update_first_map.
    + eexists. split; [apply lookup_insert_eq|]. cbn. auto.
  - split; [reflexivity|]. split.
    + cbn. now apply update_first_map.
    + eexists. split; [apply lookup_insert_eq|]. cbn. auto.
Qed.

Lemma simple_restore_in_memory (a : SimpleNANOAgent.t) (now : Z)
    (session_id : string) (session : Session.t) :
  SimpleNANOAgent.active_sessions a !! session_id = Some session ->
  SimpleNANOAgent.restore a now session_id = Some session.
Proof. intros H. unfold SimpleNANOAgent.restore. now rewrite H. Qed.

Lemma simple_conversation_keeps_verification (messages : list string) :
  forall (a : SimpleNANOAgent.t) (now : Z) (session_id : string)
         (session : Session.t),
  SimpleNANOAgent.active_sessions a !! session_id = Some session ->
  plain_session session ->
  let '(a', replies) := simple_converse a now session_id messages in
  Forall (fun r => Response.verified r = None) replies
  /\ map DBSession.is_verified (DB.sessions (SimpleNANOAgent.db a'))
     = map DBSession.is_verified (DB.sessions (SimpleNANOAgent.db a))
  /\ exists session',
       SimpleNANOAgent.active_sessions a' !! session_id = Some session'
       /\ plain_session session'.
Proof.
  induction messages as [|m messages IH]; intros a now session_id session Hm Hp.
  - cbn. split; [constructor|]. split; [reflexivity|]. now exists session.
  - cbn [simple_converse].
    pose proof (simple_turn_keeps_verification a now session_id m None session
                  (simple_restore_in_memory a now session_id session Hm)
                  (proj2 Hp)) as H.
    destruct (SimpleNANOAgent.process_message a now session_id m None)
      as [a1 r].
    destruct H as (Hv & Hs & session1 & Hm1 & Hv1 & Haw1).
    assert (Hp1 : plain_session session1).
    { split; [rewrite Hv1; exact (proj1 Hp)|exact Haw1]. }
    specialize (IH a1 (now + 1)%Z session_id session1 Hm1 Hp1).
    destruct (simple_converse a1 (now + 1)%Z session_id messages) as [a2 rs].
    destruct IH as (Hrs & Hs2 & session2 & Hm2 & Hp2).
    split; [constructor; assumption|]. split; [congruence|].
    now exists session2.
Qed.

(** X21. [SimpleNANOAgent] never verifies a session it has created.
    Its handler reads the pending security question but no part of the
    agent ever sets it, so the check of the answer is never reached:
    whatever messages follow the creation of a session, no reply reports
    a verification, the session stays unverified, and no session row of
    the store becomes verified. *)
Theorem simple_agent_never_verifies
    (a : SimpleNANOAgent.t) (created now : Z) (session_id : string)
    (customer_id : option string) (messages : list string) :
  let a0 := SimpleNANOAgent.create_session a created session_id customer_id in
  let '(a', replies) := simple_converse a0 now session_id messages in
  Forall (fun r => Response.verified r = None) replies
  /\ option_map Session.is_verified
       (SimpleNANOAgent.active_sessions a' !! session_id) = Some false
  /\ map DBSession.is_verified (DB.sessions (SimpleNANOAgent.db a'))
     = (map DBSession.is_verified (DB.sessions (SimpleNANOAgent.db a))
        ++ [false])%list.
Proof.
  cbv zeta.
  pose proof (simple_conversation_keeps_verification messages
                (SimpleNANOAgent.create_session a created session_id customer_id)
                now session_id (Session.fresh created customer_id)) as H.
  destruct (simple_converse _ now session_id messages) as [a' replies].
  destruct H as (Hv & Hs & session' & Hm & Hp).
  - cbn. apply lookup_insert_eq.
  - split; reflexivity.
  - split; [exact Hv|]. split; [rewrite Hm; cbn; now rewrite (proj1 Hp)|].
    rewrite Hs. cbn. now rewrite map_app.
Qed.

End SimpleAgent.

(** ** The chat endpoint and verification *)

Section ChatEndpoint.

Lemma verify_question_step_customers (db : DB.t) (now : Z)
    (session_id full_name account : string) :
  DB.customers
    (fst (IdentityVerificationTools.verify_customer_identity db now session_id
            full_name account None))
  = DB.customers db
  /\ DB.transactions
       (fst (IdentityVerificationTools.verify_customer_identity db now
               session_id full_name account None))
     = DB.transactions db.
Proof.
  unfold IdentityVerificationTools.verify_customer_identity.
  destruct (IdentityVerificationTools.find_customer _ _ _); [|split; reflexivity].
  destruct (negb _); [split; reflexivity|].
  destruct (3 <=? _)%Z; split; reflexivity.
Qed.

Lemma open_tool_reply (session_id text : string) (verified : option bool)
    (cid : option string) (question failed : option bool) :
  uses_open_tools_only
    (NANOAgent.tool_reply session_id text verified cid question failed).
Proof. intros tool [<-|[]]. now left. Qed.

(** The store part of what a reply without verification may do. *)
Definition idle (db db' : DB.t) (r : Response.t) : Prop :=
  DB.sessions db' = DB.sessions db
  /\ DB.customers db' = DB.customers db
  /\ DB.transactions db' = DB.transactions db
  /\ Response.verified r = None
  /\ uses_open_tools_only r.

Lemma nano_handler_idle (db : DB.t) (now : Z)
    (session_id message : string) (session : Session.t) (ents : Entities) :
  Session.awaiting_security_answer session = false ->
  match NANOAgent._handle_identity_verification db now session_id message
          session ents with
  | Ok (db', session', r) =>
      idle db db' r /\ Session.is_verified session' = Session.is_verified session
  | Raised _ => True
  end.
Proof.
  intros Haw. unfold NANOAgent._handle_identity_verification, idle.
  destruct (NANOAgent.credentials message ents) as [[[name account]|]|];
    [| |exact I].
  - pose proof (verify_question_step_sessions db now session_id name account) as Hs.
    pose proof (verify_question_step_customers db now session_id name account)
      as [Hc Ht].
    pose proof (verify_without_answer db now session_id name account) as Hv.
    destruct (IdentityVerificationTools.verify_customer_identity _ _ _ _ _ _)
      as [db1 result].
    cbn [fst snd] in Hs, Hc, Ht, Hv. rewrite Hv.
    destruct (default false _); (split; [|reflexivity]);
      (repeat (split; [assumption || reflexivity|])); apply open_tool_reply.
  - rewrite Haw. cbn [andb]. split; [|reflexivity].
    repeat (split; [reflexivity|]). intros tool [].
Qed.

Lemma nano_generate_idle (db : DB.t) (now : Z)
    (session_id message intent : string) (session : Session.t)
    (ents : Entities) :
  Session.is_verified session = false ->
  Session.awaiting_security_answer session = false ->
  match NANOAgent._generate_response db now session_id message intent
          session ents with
  | Ok (db', session', r) => idle db db' r /\ Session.is_verified session' = false
  | Raised _ => True
  end.
Proof.
  intros Hv Haw. unfold NANOAgent._generate_response. rewrite Hv.
  cbn [negb andb].
  destruct (String.eqb _ "greeting").
  { split; [|exact Hv]. unfold idle. repeat (split; [reflexivity|]).
    intros tool []. }
  destruct (String.eqb _ "escalation").
  { assert (H : idle db
                  (fst (GeneralSupportTools.escalate_to_human db now session_id
                          (Session.customer_id session)
                          "Customer requested human representative" "normal"))
                  (Response.with_tools "" session_id ["escalate_to_human"])).
    { unfold idle. repeat (split; [reflexivity|]).
      intros tool [<-|[]]. right. now left. }
    destruct (GeneralSupportTools.escalate_to_human _ _ _ _ _ _) as [db1 result].
    destruct H as (H1 & H2 & H3 & _ & H5). cbn [fst] in H1, H2, H3.
    destruct (GeneralSupportTools.e_success result);
      (split; [|exact Hv]); unfold idle;
      (repeat (split; [assumption || reflexivity|])); exact H5. }
  rewrite andb_true_r.
  destruct (Py.mem _ NANOAgent.sensitive_intents).
  { split; [|exact Hv]. unfold idle. repeat (split; [reflexivity|]).
    intros tool []. }
  destruct (_ || _).
  { pose proof (nano_handler_idle db now session_id message session ents Haw)
      as H.
    destruct (NANOAgent._handle_identity_verification _ _ _ _ _ _)
      as [[[db1 s1] r1]|e]; [|exact I].
    destruct H as [H1 H2]. split; [exact H1|]. now rewrite H2. }
  destruct (String.eqb _ "general_support").
  { assert (H : idle db
                  (fst (GeneralSupportTools.banking_knowledge_base db now
                          session_id (Session.customer_id session) message))
                  (Response.with_tools "" session_id ["banking_knowledge_base"])).
    { unfold idle. repeat (split; [reflexivity|]).
      intros tool [<-|[]]. right. right. now left. }
    destruct (GeneralSupportTools.banking_knowledge_base _ _ _ _ _)
      as [db1 result].
    destruct H as (H1 & H2 & H3 & _ & H5). cbn [fst] in H1, H2, H3.
    split; [|exact Hv]. unfold idle.
    repeat (split; [assumption || reflexivity|]). exact H5. }
  split; [|exact Hv]. unfold idle. repeat (split; [reflexivity|]).
  intros tool [].
Qed.

Lemma unverified_by_map (rows rows' : list DBSession.t) :
  map DBSession.is_verified rows' = map DBSession.is_verified rows ->
  Forall (fun r => DBSession.is_verified r = false) rows ->
  Forall (fun r => DBSession.is_verified r = false) rows'.
Proof.
  intros Hm H. revert rows' Hm.
  induction H as [|r rows Hr Hrows IH]; intros [|r' rows'] Hm;
    try discriminate Hm; constructor.
  - cbn in Hm. injection Hm as Hm _. congruence.
  - apply IH. cbn in Hm. now injection Hm.
Qed.

(** One turn of an agent on an unverified session that awaits nothing. *)
Lemma nano_turn_idle (a : NANOAgent.t) (now : Z) (session_id message : string)
    (customer_id : option string) :
  match NANOAgent.restore a session_id with
  | Some session => plain_session session
  | None => True
  end ->
  let '(a', r) := NANOAgent.process_message a now session_id message customer_id in
  map DBSession.is_verified (DB.sessions (NANOAgent.db a'))
  = map DBSession.is_verified (DB.sessions (NANOAgent.db a))
  /\ DB.customers (NANOAgent.db a') = DB.customers (NANOAgent.db a)
  /\ DB.transactions (NANOAgent.db a') = DB.transactions (NANOAgent.db a)
  /\ Response.verified r = None
  /\ uses_open_tools_only r.
Proof.
  intros Hp. unfold NANOAgent.process_message.
  destruct (NANOAgent.restore a session_id) as [session|].
  2:{ repeat (split; [reflexivity|]). intros tool []. }
  destruct Hp as [Hv Haw].
  destruct (NANOAgent._is_session_expired now session).
  { repeat (split; [reflexivity|]). intros tool []. }
  match goal with
  | |- context [NANOAgent._generate_response ?d ?n ?s ?m ?i ?ses ?e] =>
      pose proof (nano_generate_idle d n s m i ses e Hv Haw) as H;
      destruct (NANOAgent._generate_response d n s m i ses e)
        as [[[db3 session'] r]|exn]
  end.
  - destruct H as [(Hs & Hc & Ht & Hr & Htools) _]. cbn.
    rewrite Hs, Hc, Ht. cbn.
    split; [now apply update_first_map|]. auto.
  - cbn. split; [now apply update_first_map|].
    repeat (split; [reflexivity|]). intros tool [].
Qed.

Lemma restored_session_is_plain (db : DB.t) (session_id : string) :
  unverified_store db ->
  match NANOAgent.restore (ChatAPI.get_nano_agent db) session_id with
  | Some session => plain_session session
  | None => True
  end.
Proof.
  intros Hu. unfold NANOAgent.restore, ChatAPI.get_nano_agent. cbn.
  rewrite lookup_empty.
  destruct (DB.first (NANOAgent.active_row session_id) (DB.sessions db))
    as [r|] eqn:Hf; [|exact I].
  apply List.find_some in Hf. destruct Hf as [Hin _].
  unfold unverified_store in Hu. rewrite List.Forall_forall in Hu.
  split; [exact (Hu r Hin)|reflexivity].
Qed.

(** X22. Nobody is verified through [POST /chat].  Every request builds
    a new agent, so a pending security question does not outlive the
    request that asked it, and the answer is never checked.  If no
    session row of the store is verified, then after any chat request
    this is still so, no customer row and no transaction row has changed,
    the reply reports no verification, and the only tools it names are
    [verify_customer_identity], [escalate_to_human] and
    [banking_knowledge_base]: no balance is read, no transaction is
    listed and no contact data is written. *)
Theorem chat_endpoint_never_verifies
    (db : DB.t) (now : Z) (uuid : string) (request : ChatAPI.ChatRequest) :
  unverified_store db ->
  let '(db', reply) := ChatAPI.chat_endpoint db now uuid request in
  unverified_store db'
  /\ DB.customers db' = DB.customers db
  /\ DB.transactions db' = DB.transactions db
  /\ match reply with
     | Ok r => Response.verified r = None /\ uses_open_tools_only r
     | Raised _ => db' = db
     end.
Proof.
  intros Hu. unfold ChatAPI.chat_endpoint.
  destruct (Py.truthy (ChatAPI.session_id request)).
  - pose proof (nano_turn_idle (ChatAPI.get_nano_agent db) now
                  (default "" (ChatAPI.session_id request))
                  (ChatAPI.message request) (ChatAPI.customer_id request)
                  (restored_session_is_plain db _ Hu)) as H.
    destruct (NANOAgent.process_message _ _ _ _ _) as [a' r].
    destruct H as (Hs & Hc & Ht & Hv & Htools). cbn [NANOAgent.db].
    split; [exact (unverified_by_map _ _ Hs Hu)|]. auto.
  - destruct (ChatAPI.session_id_taken uuid db); [auto|].
    pose proof (nano_turn_idle
                  (NANOAgent.create_session (ChatAPI.get_nano_agent db) now uuid
                     (ChatAPI.customer_id request))
                  now uuid (ChatAPI.message request)
                  (ChatAPI.customer_id request)) as H.
    destruct (NANOAgent.process_message _ _ _ _ _) as [a' r].
    destruct H as (Hs & Hc & Ht & Hv & Htools).
    { unfold NANOAgent.restore. cbn. rewrite lookup_insert_eq.
      split; reflexivity. }
    cbn [NANOAgent.db]. split; [|auto].
    apply (unverified_by_map _ _ Hs). cbn. apply Forall_app. split; [exact Hu|].
    repeat constructor.
Qed.

Lemma chat_endpoint_witness :
  let db1 := fst (ChatAPI.chat_endpoint test_db 10 "00000000-0000-4000-8000-000000000001"
                    (ChatAPI.mk_request credentials_message None None)) in
  let served :=
    ChatAPI.chat_endpoint db1 11 "00000000-0000-4000-8000-000000000002"
      (ChatAPI.mk_request "fluffy" (Some "00000000-0000-4000-8000-000000000001") None) in
  unverified_store (fst served)
  /\ DB.customers (fst served) = [john_doe]
  /\ option_map Response.response
       (match snd served with Ok r => Some r | Raised _ => None end)
     = Some default_reply.
Proof.
  cbv zeta.
  assert (Hu : unverified_store
                 (fst (ChatAPI.chat_endpoint test_db 10 "00000000-0000-4000-8000-000000000001"
                         (ChatAPI.mk_request credentials_message None None))))
    by (vm_compute; repeat constructor).
  pose proof (chat_endpoint_never_verifies _ 11 "00000000-0000-4000-8000-000000000002"
                (ChatAPI.mk_request "fluffy" (Some "00000000-0000-4000-8000-000000000001") None) Hu) as H.
  split; [|split].
  - destruct (ChatAPI.chat_endpoint _ 11 "00000000-0000-4000-8000-000000000002" _) as [db2 reply].
    exact (proj1 H).
  - vm_compute. reflexivity.
  - vm_compute. reflexivity.
Defined.

End ChatEndpoint.

(** ** Ending a session *)

Section EndSession.

Lemma find_nowhere {A} (p : A -> bool) (l : list A) :
  (forall x, In x l -> p x = false) -> List.find p l = None.
Proof.
  induction l as [|x l IH]; intros H; [reflexivity|]. cbn [List.find].
  rewrite (H x (or_introl eq_refl)). apply IH. intros y Hy. apply H. now right.
Qed.

Lemma no_active_row_after_end (now : Z) (session_id : string)
    (rows : list DBSession.t) :
  List.NoDup (map DBSession.session_id rows) ->
  DB.first (NANOAgent.active_row session_id)
    (DB.update_first (IdentityVerificationTools.session_row session_id)
       (ChatAPI.terminate now) rows)
  = None.
Proof.
  unfold DB.first. induction rows as [|r rows IH]; intros Hnd; [reflexivity|].
  cbn [map] in Hnd. apply List.NoDup_cons_iff in Hnd.
  destruct Hnd as [Hnotin Hnd]. cbn [DB.update_first].
  unfold IdentityVerificationTools.session_row at 1.
  destruct (String.eqb_spec (DBSession.session_id r) session_id) as [Heq|Hne].
  - cbn [List.find]. unfold NANOAgent.active_row at 1. cbn.
    rewrite andb_false_r.
    apply find_nowhere. intros x Hx. unfold NANOAgent.active_row.
    destruct (String.eqb_spec (DBSession.session_id x) session_id) as [Hx'|];
      [|reflexivity].
    exfalso. apply Hnotin. rewrite Heq, <- Hx'. now apply List.in_map.
  - cbn [List.find]. unfold NANOAgent.active_row at 1.
    destruct (String.eqb_spec (DBSession.session_id r) session_id);
      [contradiction|]. cbn [andb]. now apply IH.
Qed.

(** X23. A session that was ended takes no more messages.  After
    [DELETE /session/{id}] a chat request that names the session is
    answered with the request to start a new session, whatever the
    message, and the store is left as the deletion left it: nothing is
    logged.  (Session ids are unique in the table.) *)
Theorem ended_session_takes_no_message
    (db : DB.t) (now now' : Z) (uuid session_id message : string)
    (customer_id : option string) :
  List.NoDup (map DBSession.session_id (DB.sessions db)) ->
  Py.nonempty session_id = true ->
  let db1 := fst (ChatAPI.end_session_endpoint db now session_id) in
  ChatAPI.chat_endpoint db1 now' uuid
    (ChatAPI.mk_request message (Some session_id) customer_id)
  = (db1, Ok (session_expired_reply session_id)).
Proof.
  intros Hnd Hne. cbv zeta. unfold ChatAPI.chat_endpoint.
  cbn [ChatAPI.session_id ChatAPI.message ChatAPI.customer_id Py.truthy].
  rewrite Hne. change (default "" (Some session_id)) with session_id.
  unfold NANOAgent.process_message, NANOAgent.restore, ChatAPI.get_nano_agent.
  cbn [NANOAgent.active_sessions NANOAgent.db]. rewrite lookup_empty.
  unfold ChatAPI.end_session_endpoint. cbn [fst DB.sessions DB.with_sessions].
  rewrite (no_active_row_after_end now session_id _ Hnd). reflexivity.
Qed.

Lemma ended_session_witness :
  let db0 :=
    fst (ChatAPI.chat_endpoint test_db 10 "00000000-0000-4000-8000-000000000001"
           (ChatAPI.mk_request "hello" None None)) in
  let db1 :=
    fst (ChatAPI.end_session_endpoint db0 20
           "00000000-0000-4000-8000-000000000001") in
  map DBSession.status (DB.sessions db1) = ["terminated"]
  /\ ChatAPI.chat_endpoint db1 30 "00000000-0000-4000-8000-000000000002"
       (ChatAPI.mk_request "hello" (Some "00000000-0000-4000-8000-000000000001")
          None)
     = (db1, Ok (session_expired_reply "00000000-0000-4000-8000-000000000001")).
Proof.
  cbv zeta. split; [vm_compute; reflexivity|].
  apply (ended_session_takes_no_message
           (fst (ChatAPI.chat_endpoint test_db 10
                   "00000000-0000-4000-8000-000000000001"
                   (ChatAPI.mk_request "hello" None None)))
           20 30 "00000000-0000-4000-8000-000000000002"
           "00000000-0000-4000-8000-000000000001" "hello" None).
  - vm_compute. repeat constructor. intros [].
  - reflexivity.
Defined.

End EndSession.

(** ** Sanitized input *)

Section Sanitize.

Import Py.

Lemma mem_char_cons (c x : ascii) (s : string) :
  mem_char c (String x s) = Ascii.eqb c x || mem_char c s.
Proof. reflexivity. Qed.

Lemma remove_char_removes (c : ascii) (s : string) :
  mem_char c (remove_char c s) = false.
Proof.
  unfold remove_char. induction s as [|x s IH]; [reflexivity|].
  cbn [sfilter]. destruct (Ascii.eqb_spec x c) as [->|Hne]; cbn [negb];
    [exact IH|].
  rewrite mem_char_cons, IH, orb_false_r.
  apply Ascii.eqb_neq. congruence.
Qed.

Lemma sfilter_keeps_absent (p : ascii -> bool) (c : ascii) (s : string) :
  mem_char c s = false -> mem_char c (sfilter p s) = false.
Proof.
  induction s as [|x s IH]; [reflexivity|]. rewrite mem_char_cons.
  intros [Hx Hs]%orb_false_elim. cbn [sfilter].
  destruct (p x); [|now apply IH].
  now rewrite mem_char_cons, Hx, IH.
Qed.

Lemma removals_keep_absent (chars : list ascii) (c : ascii) (s : string) :
  mem_char c s = false ->
  mem_char c (fold_left (fun t d => remove_char d t) chars s) = false.
Proof.
  revert s. induction chars as [|d chars IH]; intros s Hs; [exact Hs|].
  cbn [fold_left]. apply IH. now apply sfilter_keeps_absent.
Qed.

Lemma removals_remove (chars : list ascii) (c : ascii) (s : string) :
  In c chars ->
  mem_char c (fold_left (fun t d => remove_char d t) chars s) = false.
Proof.
  revert s. induction chars as [|d chars IH]; intros s Hin; [destruct Hin|].
  cbn [fold_left]. destruct Hin as [->|Hin].
  - apply removals_keep_absent, remove_char_removes.
  - now apply IH.
Qed.

Lemma prefix_keeps_absent (n : nat) (c : ascii) (s : string) :
  mem_char c s = false -> mem_char c (prefix n s) = false.
Proof.
  revert s. induction n as [|n IH]; intros [|x s]; try reflexivity.
  rewrite mem_char_cons. intros [Hx Hs]%orb_false_elim. cbn [prefix].
  now rewrite mem_char_cons, Hx, IH.
Qed.

Lemma lstrip_ws_keeps_absent (c : ascii) (s : string) :
  mem_char c s = false -> mem_char c (lstrip_ws s) = false.
Proof.
  induction s as [|x s IH]; [reflexivity|]. intros H. cbn [lstrip_ws].
  destruct (is_space x); [|exact H].
  rewrite mem_char_cons in H. apply orb_false_elim in H. now apply IH.
Qed.

Lemma existsb_reversed {A} (f : A -> bool) (l : list A) :
  existsb f (rev l) = existsb f l.
Proof.
  induction l as [|x l IH]; [reflexivity|]. cbn [rev existsb].
  rewrite List.existsb_app, IH. cbn [existsb].
  rewrite orb_false_r. apply orb_comm.
Qed.

Lemma srev_keeps_absent (c : ascii) (s : string) :
  mem_char c (srev s) = mem_char c s.
Proof.
  unfold mem_char, srev. rewrite list_ascii_of_string_of_list_ascii.
  apply existsb_reversed.
Qed.

Lemma strip_ws_keeps_absent (c : ascii) (s : string) :
  mem_char c s = false -> mem_char c (strip_ws s) = false.
Proof.
  intros H. unfold strip_ws. rewrite srev_keeps_absent.
  apply lstrip_ws_keeps_absent. rewrite srev_keeps_absent.
  now apply lstrip_ws_keeps_absent.
Qed.

Lemma length_prefix (n : nat) (s : string) :
  (String.length (prefix n s) <= n)%nat.
Proof.
  revert s. induction n as [|n IH]; intros [|x s]; cbn; try lia.
  specialize (IH s). lia.
Qed.

Lemma length_lstrip_ws (s : string) :
  (String.length (lstrip_ws s) <= String.length s)%nat.
Proof.
  induction s as [|x s IH]; [reflexivity|]. cbn [lstrip_ws].
  destruct (is_space x); cbn [String.length]; lia.
Qed.

Lemma length_of_list (l : list ascii) :
  String.length (string_of_list_ascii l) = length l.
Proof. induction l as [|x l IH]; [reflexivity|]. cbn. now rewrite IH. Qed.

Lemma length_srev (s : string) : String.length (srev s) = String.length s.
Proof.
  unfold srev. rewrite length_of_list, length_rev.
  rewrite <- (string_of_list_ascii_of_string s) at 2.
  now rewrite length_of_list.
Qed.

Lemma length_strip_ws (s : string) :
  (String.length (strip_ws s) <= String.length s)%nat.
Proof.
  unfold strip_ws. rewrite length_srev.
  pose proof (length_lstrip_ws (srev (lstrip_ws s))) as H1.
  rewrite length_srev in H1. pose proof (length_lstrip_ws s). lia.
Qed.

(** X24. What [sanitize_string] returns is clean and bounded: it holds
    none of the characters the function means to remove (the angle
    brackets, the two quotes, the ampersand, NUL and carriage return),
    and it is no longer than [max_length]. *)
Theorem sanitized_text_is_clean_and_bounded
    (input_str : string) (max_length : nat) :
  Forall (fun c => mem_char c
                     (InputValidator.sanitize_string input_str max_length)
                   = false)
    InputValidator.dangerous_chars
  /\ (String.length (InputValidator.sanitize_string input_str max_length)
      <= max_length)%nat.
Proof.
  unfold InputValidator.sanitize_string. split.
  - apply List.Forall_forall. intros c Hc.
    apply strip_ws_keeps_absent, prefix_keeps_absent.
    now apply removals_remove.
  - etransitivity; [apply length_strip_ws|apply length_prefix].
Qed.

End Sanitize.

(** ** The shape of a session id *)

Section SessionId.

Import Py Re.

Lemma rep_fixed (cls : ascii -> bool) (n : nat)
    (k : option ascii -> string -> option string) :
  forall (prev : option ascii) (s r : string),
  rep cls n (Some n) k prev s = Some r ->
  exists pre rest r' prev',
    s = pre +:+ rest /\ String.length pre = n
    /\ k prev' rest = Some r' /\ r = pre +:+ r'.
Proof.
  induction n as [|n IH]; intros prev s r H.
  - exists "", s, r, prev. repeat split; try reflexivity.
    destruct s as [|c s]; cbn [rep may_take] in H;
      [exact H|]. now rewrite andb_false_r in H.
  - destruct s as [|c s]; cbn [rep may_take dec pred] in H; [discriminate H|].
    destruct (cls c); cbn [andb] in H; [|discriminate H].
    destruct (rep cls n (Some n) k (Some c) s) as [r0|] eqn:Hr;
      [|discriminate H].
    injection H as <-.
    destruct (IH _ _ _ Hr) as (pre & rest & r' & prev' & -> & Hlen & Hk & ->).
    exists (String c pre), rest, r', prev'. repeat split; try assumption.
    cbn. now rewrite Hlen.
Qed.

Lemma append_assoc (a b c : string) : (a +:+ b) +:+ c = a +:+ (b +:+ c).
Proof.
  induction a as [|x a IH]; [reflexivity|].
  change (String x ((a +:+ b) +:+ c) = String x (a +:+ (b +:+ c))).
  now rewrite IH.
Qed.

Lemma length_append (a b : string) :
  String.length (a +:+ b) = (String.length a + String.length b)%nat.
Proof.
  induction a as [|x a IH]; [reflexivity|].
  change (String x a +:+ b) with (String x (a +:+ b)). cbn [String.length].
  now rewrite IH.
Qed.

(** A pattern of fixed repetitions matches a prefix of its width. *)
Lemma match_fixed (p : pattern) :
  forall (n : nat) (prev : option ascii) (s r : string),
  fixed_width p = Some n ->
  match_here p prev s = Some r ->
  String.length r = n /\ exists rest, s = r +:+ rest.
Proof.
  induction p as [|item p IH]; intros n prev s r Hw Hm.
  - cbn in Hw, Hm. injection Hw as <-. injection Hm as <-.
    split; [reflexivity|]. now exists s.
  - destruct item as [|cls lo [hi|]]; cbn [fixed_width] in Hw;
      try discriminate Hw.
    destruct (Nat.eqb_spec lo hi) as [<-|]; [|discriminate Hw].
    destruct (fixed_width p) as [w|] eqn:Hp; [|discriminate Hw].
    injection Hw as <-. cbn [match_here] in Hm.
    destruct (rep_fixed cls lo (match_here p) prev s r Hm)
      as (pre & rest & r' & prev' & -> & Hlen & Hk & ->).
    destruct (IH w prev' rest r' eq_refl Hk) as (Hr' & rest' & ->).
    split; [now rewrite length_append, Hlen, Hr'|].
    exists rest'. now rewrite append_assoc.
Qed.

Lemma drop_append (a b : string) : drop (String.length a) (a +:+ b) = b.
Proof. induction a as [|x a IH]; [reflexivity|]. exact IH. Qed.

(** X25. A session id that [validate_session_id] accepts is a text of
    36 characters, alone or followed by one newline: the [$] of the
    pattern also matches in front of a final newline, so the validator
    lets the id with a newline at its end through. *)
Theorem valid_session_id_has_36_characters (session_id : string) :
  InputValidator.validate_session_id session_id = true ->
  exists id,
    String.length id = 36%nat
    /\ (session_id = id \/ session_id = id +:+ nl).
Proof.
  unfold InputValidator.validate_session_id.
  intros [_ H]%andb_prop.
  destruct (match_here InputValidator.uuid_pattern None session_id)
    as [r|] eqn:Hm; [|discriminate H].
  destruct (match_fixed InputValidator.uuid_pattern 36 None session_id r
              eq_refl Hm) as (Hlen & rest & ->).
  rewrite drop_append in H. exists r. split; [exact Hlen|].
  destruct rest as [|c [|d rest]]; cbn in H; try discriminate H.
  - left. now rewrite append_empty.
  - right. apply Ascii.eqb_eq in H. now subst c.
Qed.

Lemma valid_session_id_witness :
  InputValidator.validate_session_id
    ("123e4567-e89b-12d3-a456-426614174000" +:+ nl) = true
  /\ exists id,
       String.length id = 36%nat
       /\ ("123e4567-e89b-12d3-a456-426614174000" +:+ nl = id
           \/ "123e4567-e89b-12d3-a456-426614174000" +:+ nl = id +:+ nl).
Proof.
  split; [reflexivity|].
  apply (valid_session_id_has_36_characters
           ("123e4567-e89b-12d3-a456-426614174000" +:+ nl)).
  reflexivity.
Defined.

End SessionId.

(** ** What a validated chat request carries *)

Section ValidatedRequest.

Import Py.

(** X26. What the validators of [ChatRequest] let through to the agent.
    If a request passes them, the message it was built from was at most
    2000 characters long and not blank; the message handed to the agent
    is at most 2000 characters long and free of the characters
    [sanitize_string] removes; the session id and the customer id are
    handed on as given; and the session id is absent, empty, or a text of
    36 characters that may be followed by one newline. *)
Theorem validated_request_is_clean_and_well_formed
    (message : string) (session_id customer_id : option string)
    (request : ChatAPI.ChatRequest) :
  ChatAPI.validate message session_id customer_id = Ok request ->
  (String.length message <= 2000)%nat
  /\ nonempty (strip_ws message) = true
  /\ (String.length (ChatAPI.message request) <= 2000)%nat
  /\ Forall (fun c => mem_char c (ChatAPI.message request) = false)
       InputValidator.dangerous_chars
  /\ ChatAPI.session_id request = session_id
  /\ ChatAPI.customer_id request = customer_id
  /\ match session_id with
     | Some s =>
         s = ""
         \/ exists id,
              String.length id = 36%nat /\ (s = id \/ s = id +:+ nl)
     | None => True
     end.
Proof.
  unfold ChatAPI.validate, InputValidator.validate_customer_message.
  destruct (negb (nonempty message)); [discriminate|].
  destruct (2000 <? String.length message)%nat eqn:Hlen; [discriminate|].
  destruct (String.length (strip_ws message) <? 1)%nat eqn:Hblank;
    [discriminate|]. cbn [negb].
  destruct (truthy session_id
            && negb (InputValidator.validate_session_id (default "" session_id)))
    eqn:Hsid; [discriminate|].
  intros [= <-]. cbn [ChatAPI.message ChatAPI.session_id ChatAPI.customer_id].
  apply Nat.ltb_ge in Hlen, Hblank.
  split; [exact Hlen|]. split.
  { destruct (strip_ws message); [cbn in Hblank; lia|reflexivity]. }
  unfold InputValidator.sanitize_string.
  split; [etransitivity; [apply length_strip_ws|apply length_prefix]|].
  split.
  { apply List.Forall_forall. intros c Hc.
    apply strip_ws_keeps_absent, prefix_keeps_absent.
    now apply removals_remove. }
  split; [reflexivity|]. split; [reflexivity|].
  destruct session_id as [s|]; [|exact I].
  destruct s as [|c s]; [now left|]. right.
  cbn [truthy nonempty andb] in Hsid. apply negb_false_iff in Hsid.
  change (default "" (Some (String c s))) with (String c s) in Hsid.
  unfold InputValidator.validate_session_id in Hsid.
  apply andb_prop in Hsid. destruct Hsid as [_ H].
  destruct (Re.match_here InputValidator.uuid_pattern None (String c s))
    as [r|] eqn:Hm; [|discriminate H].
  destruct (match_fixed InputValidator.uuid_pattern 36 None (String c s) r
              eq_refl Hm) as (Hr & rest & Heq).
  rewrite Heq in H |- *. rewrite drop_append in H.
  exists r. split; [exact Hr|].
  destruct rest as [|d [|e rest]]; cbn in H; try discriminate H.
  - left. now rewrite append_empty.
  - right. apply Ascii.eqb_eq in H. now subst d.
Qed.

Lemma validated_request_witness :
  ChatAPI.validate " <b>What's my balance?</b> "
    (Some "123e4567-e89b-12d3-a456-426614174000") None
  = Ok (ChatAPI.mk_request "bWhats my balance?/b"
          (Some "123e4567-e89b-12d3-a456-426614174000") None)
  /\ Forall (fun c => mem_char c "bWhats my balance?/b" = false)
       InputValidator.dangerous_chars.
Proof.
  split; [reflexivity|].
  exact (proj1 (proj2 (proj2 (proj2
           (validated_request_is_clean_and_well_formed
              " <b>What's my balance?</b> "
              (Some "123e4567-e89b-12d3-a456-426614174000") None
              (ChatAPI.mk_request "bWhats my balance?/b"
                 (Some "123e4567-e89b-12d3-a456-426614174000") None)
              eq_refl))))).
Defined.

End ValidatedRequest.

(** ** A session created through the API *)

Section CreatedSession.

Lemma find_at_end {A} (p : A -> bool) (l : list A) (y : A) :
  existsb p l = false -> p y = true -> List.find p (l ++ [y]) = Some y.
Proof.
  intros Hl Hy. induction l as [|x l IH]; cbn in *; [now rewrite Hy|].
  apply orb_false_elim in Hl. destruct Hl as [Hx Hl]. rewrite Hx. now apply IH.
Qed.

Lemma existsb_weaker {A} (p q : A -> bool) (l : list A) :
  (forall x, q x = true -> p x = true) ->
  existsb p l = false -> existsb q l = false.
Proof.
  intros H. induction l as [|x l IH]; [reflexivity|]. cbn.
  intros [Hx Hl]%orb_false_elim. rewrite (IH Hl), orb_false_r.
  destruct (q x) eqn:Hq; [|reflexivity]. rewrite (H x Hq) in Hx. discriminate.
Qed.

(** X27. A session created with [POST /session] is found again by a
    later request, which is served by a new agent, through its row in
    the store.  If the identifier drawn is not in the table, the session
    is created, and any chat request that names it within thirty minutes
    is taken as a turn of that session, not turned away: the request is
    answered, the user's message is logged under the session and the
    customer the session was created for, and the row of the session
    carries the time of the request as its last activity. *)
Theorem created_session_takes_messages
    (db : DB.t) (now now' : Z) (uuid uuid' message : string)
    (customer_id customer_id' : option string) :
  ChatAPI.session_id_taken uuid db = false ->
  Py.nonempty uuid = true ->
  (now' <= now + 30 * 60)%Z ->
  let created := ChatAPI.create_session_endpoint db now uuid customer_id in
  let '(db2, reply) :=
    ChatAPI.chat_endpoint (fst created) now' uuid'
      (ChatAPI.mk_request message (Some uuid) customer_id') in
  snd created = Ok (uuid, "New session created successfully")
  /\ (exists r, reply = Ok r)
  /\ In (Conversation.mk uuid customer_id "user" message now')
       (DB.conversations db2)
  /\ DB.first (IdentityVerificationTools.session_row uuid) (DB.sessions db2)
     = Some (DBSession.mk uuid customer_id false now now' "active").
Proof.
  intros Hfree Hne Hage. cbv zeta.
  unfold ChatAPI.create_session_endpoint. rewrite Hfree. cbn [fst snd].
  unfold ChatAPI.chat_endpoint.
  cbn [ChatAPI.session_id ChatAPI.message ChatAPI.customer_id Py.truthy].
  rewrite Hne. change (default "" (Some uuid)) with uuid.
  set (row := DBSession.mk uuid customer_id false now now "active").
  set (a := ChatAPI.get_nano_agent _).
  assert (Hrows : DB.sessions (NANOAgent.db a)
                  = (DB.sessions db ++ [row])%list) by reflexivity.
  assert (Hr : NANOAgent.restore a uuid
               = Some (Session.mk now customer_id false None [] false None
                         None None)).
  { unfold NANOAgent.restore. replace (NANOAgent.active_sessions a !! uuid)
      with (@None Session.t) by (symmetry; apply lookup_empty).
    rewrite Hrows. unfold DB.first. rewrite (find_at_end _ _ row).
    - reflexivity.
    - apply (existsb_weaker (IdentityVerificationTools.session_row uuid));
        [|exact Hfree].
      intros x Hx. unfold NANOAgent.active_row in Hx.
      now apply andb_prop in Hx.
    - unfold NANOAgent.active_row, row. cbn. now rewrite String.eqb_refl. }
  assert (He : NANOAgent._is_session_expired now'
                 (Session.mk now customer_id false None [] false None None None)
               = false).
  { unfold NANOAgent._is_session_expired, Settings.session_timeout_minutes.
    cbn. apply Z.ltb_ge. lia. }
  rewrite (process_message_turn a now' uuid message customer_id' _ Hr He).
  assert (Hstamp :
            DB.first (IdentityVerificationTools.session_row uuid)
              (DB.update_first (IdentityVerificationTools.session_row uuid)
                 (fun r => DBSession.mk (DBSession.session_id r)
                             (DBSession.customer_id r) (DBSession.is_verified r)
                             (DBSession.created_at r) now' (DBSession.status r))
                 (DB.sessions db ++ [row]))
            = Some (DBSession.mk uuid customer_id false now now' "active")).
  { unfold ChatAPI.session_id_taken in Hfree. clear -Hfree.
    induction (DB.sessions db) as [|x l IH]; cbn in *.
    - unfold IdentityVerificationTools.session_row. cbn.
      rewrite !String.eqb_refl. cbn. now rewrite String.eqb_refl.
    - apply orb_false_elim in Hfree. destruct Hfree as [Hx Hl].
      rewrite Hx. cbn. rewrite Hx. now apply IH. }
  match goal with
  | |- context [NANOAgent._generate_response ?d ?n ?s ?m ?i ?ses ?e] =>
      pose proof (nano_generate_idle d n s m i ses e eq_refl eq_refl) as Hi;
      destruct (NANOAgent._generate_response d n s m i ses e)
        as [[[db3 session'] r]|exn] eqn:Hg
  end.
  - destruct Hi as [(Hs & _) _].
    pose proof (generate_response_conversations _ _ _ _ _ _ _ _ _ _ Hg) as Hc.
    split; [reflexivity|]. split; [eexists; reflexivity|].
    cbn [NANOAgent.db DB.conversations DB.sessions DB.log_audit
         DB.with_audit_logs NANOAgent._save_conversation_message
         DB.with_conversations].
    split.
    + rewrite Hc. cbn. apply in_or_app. left. apply in_or_app. right.
      now left.
    + rewrite Hs. exact Hstamp.
  - split; [reflexivity|]. split; [eexists; reflexivity|].
    split; [|exact Hstamp].
    cbn. apply in_or_app. right. now left.
Qed.

Lemma created_session_witness :
  let created :=
    ChatAPI.create_session_endpoint test_db 10
      "00000000-0000-4000-8000-000000000001" None in
  let served :=
    ChatAPI.chat_endpoint (fst created) 70
      "00000000-0000-4000-8000-000000000002"
      (ChatAPI.mk_request "hello" (Some "00000000-0000-4000-8000-000000000001")
         None) in
  map Conversation.message (DB.conversations (fst served))
  = ["hello";
     "Hello! I'm NANO, your Bank Of AI customer service assistant. How can I help you today?"]
  /\ In (Conversation.mk "00000000-0000-4000-8000-000000000001" None "user"
           "hello" 70)
       (DB.conversations (fst served)).
Proof.
  cbv zeta. split; [vm_compute; reflexivity|].
  pose proof (created_session_takes_messages test_db 10 70
                "00000000-0000-4000-8000-000000000001"
                "00000000-0000-4000-8000-000000000002" "hello" None None
                eq_refl eq_refl ltac:(lia)) as H.
  cbv zeta in H.
  destruct (ChatAPI.chat_endpoint _ 70 _ _) as [db2 reply].
  exact (proj1 (proj2 (proj2 H))).
Defined.

End CreatedSession.
